(** * Spec2Rocq: the SF3 serial-flash experiment controller

    A shallow embedding of [Experiment.c] (the MicroBlaze / Arty S7 build of
    the serial-flash tester): the experiment data object, the helper
    functions of the real-time task and the operating-mode state machine,
    followed by the properties of the controller that the specification
    states.

    Conventions.
    - [uint8_t] and [uint32_t] values are integers of [Z], with the
      wrap-around written out through [u8] and [u32].
    - The two transmission buffers are lists of bytes; [<[i:=x]> l] is the
      store [l[i] = x] and [l !!! i] is the load [l[i]].
    - The three FreeRTOS queues are modelled by the list of the items handed
      to [xQueueSend], oldest first.
    - The PMOD SF3 driver and the constants of [PmodSF3.h] are not part of
      the sources at hand; they are interfaces ([PmodSF3_h],
      [PmodSF3_driver]) that the embedding is parametric in. *)

From Stdlib Require Import ZArith Lia List Ascii String Bool.
From stdpp Require Import base tactics option list numbers strings gmap.

Local Open Scope string_scope.
Local Open Scope Z_scope.

(** ** Machine integers *)

Definition u8 (z : Z) : Z := z mod 256.
Definition u32 (z : Z) : Z := z mod 4294967296.

(** [xstatus.h] of the Xilinx board support package. *)
Definition XST_SUCCESS : Z := 0.

(** ** Constants of [Experiment.h] and [Experiment.c] *)

Definition PRINTF_BUF_SZ : nat := 34.

Inductive OPERATING_MODE_TAG : Type :=
| ST_WAIT_BUTTON_DEP
| ST_WAIT_BUTTON_REL
| ST_SET_PATTERN
| ST_SET_START_ADDR
| ST_SET_START_WAIT
| ST_CMD_ERASE_START
| ST_CMD_ERASE_DONE
| ST_CMD_PAGE_START
| ST_CMD_PAGE_DONE
| ST_CMD_READ_START
| ST_CMD_READ_DONE
| ST_DISPLAY_FINAL
| OPERATING_MODE_NONE.

Inductive TEST_PATTERN_TAG : Type :=
| TEST_PATTERN_A
| TEST_PATTERN_B
| TEST_PATTERN_C
| TEST_PATTERN_D
| TEST_PATTERN_NONE.

#[global] Instance OPERATING_MODE_TAG_eq_dec : EqDecision OPERATING_MODE_TAG.
Proof. solve_decision. Defined.

#[global] Instance TEST_PATTERN_TAG_eq_dec : EqDecision TEST_PATTERN_TAG.
Proof. solve_decision. Defined.

Record t_cls_lines : Type := mk_cls_lines {
  line1 : string;
  line2 : string
}.

Definition SWTCH0_MASK : Z := 0x01.
Definition SWTCH1_MASK : Z := 0x02.
Definition SWTCH2_MASK : Z := 0x04.
Definition SWTCH3_MASK : Z := 0x08.
Definition BTN0_MASK : Z := 0x01.
Definition BTN1_MASK : Z := 0x02.
Definition BTN2_MASK : Z := 0x04.
Definition BTN3_MASK : Z := 0x08.

Definition sf3_test_pattern_startval_a : Z := 0x00.
Definition sf3_test_pattern_incrval_a : Z := 0x01.
Definition sf3_test_pattern_startval_b : Z := 0x08.
Definition sf3_test_pattern_incrval_b : Z := 0x07.
Definition sf3_test_pattern_startval_c : Z := 0x10.
Definition sf3_test_pattern_incrval_c : Z := 0x0F.
Definition sf3_test_pattern_startval_d : Z := 0x18.
Definition sf3_test_pattern_incrval_d : Z := 0x17.
Definition max_possible_byte_count : Z := 33554432.
Definition total_iteration_count : Z := 32.
Definition per_iteration_byte_count : Z :=
  max_possible_byte_count / total_iteration_count.
Definition last_starting_byte_addr : Z :=
  u32 (per_iteration_byte_count * (total_iteration_count - 1)).
Definition sf3_subsector_addr_incr : Z := 4096.
Definition sf3_page_addr_incr : Z := 256.
Definition experi_subsector_cnt_per_iter : Z := 8192 / total_iteration_count.
Definition experi_page_cnt_per_iter : Z := 131072 / total_iteration_count.
Definition cnt_t_max : Z := 100 * 3.

(** ** Types of [led_pwm.h] *)

Record t_rgb_led_palette : Type := mk_rgb_led_palette {
  paletteRed : Z;
  paletteGreen : Z;
  paletteBlue : Z
}.

Record t_rgb_led_palette_silk : Type := mk_rgb_led_palette_silk {
  rgb : t_rgb_led_palette;
  ledSilk : Z
}.

Definition N_COLOR_LEDS : nat := 6.
Definition N_BASIC_LEDS : nat := 4.

#[global] Instance t_rgb_led_palette_silk_inhabited :
  Inhabited t_rgb_led_palette_silk :=
  populate (mk_rgb_led_palette_silk (mk_rgb_led_palette 0 0 0) 0).

(** ** The experiment data object

    [axGpio], the GPIO driver handle, is left out: the values it delivers
    are the arguments of [Experiment_readUserInputs]. *)

Record t_experiment_data : Type := mk_experiment_data {
  ledUpdate : list t_rgb_led_palette_silk;
  comString : string;
  operatingMode : OPERATING_MODE_TAG;
  operatingModePrev : OPERATING_MODE_TAG;
  sf3_start_at_zero : bool;
  sf3_addr_start_val : Z;
  sf3_test_pattern_selected : TEST_PATTERN_TAG;
  sf3_pattern_start_val : Z;
  sf3_pattern_incr_val : Z;
  sf3_pattern_track_val : Z;
  sf3_test_pass : bool;
  sf3_test_done : bool;
  sf3_err_count_val : Z;
  switchesRead : Z;
  buttonsRead : Z;
  cnt_t : Z;
  cnt_t_freerun : Z;
  sf3_i_val : Z;
  sf3_address_of_cmd : Z;
  WriteBuffer : list Z;
  ReadBuffer : list Z
}.

Definition set_ledUpdate (v : list t_rgb_led_palette_silk) (e : t_experiment_data) : t_experiment_data :=
  mk_experiment_data v (e.(comString)) (e.(operatingMode))
    (e.(operatingModePrev)) (e.(sf3_start_at_zero)) (e.(sf3_addr_start_val))
    (e.(sf3_test_pattern_selected)) (e.(sf3_pattern_start_val))
    (e.(sf3_pattern_incr_val)) (e.(sf3_pattern_track_val)) (e.(sf3_test_pass))
    (e.(sf3_test_done)) (e.(sf3_err_count_val)) (e.(switchesRead))
    (e.(buttonsRead)) (e.(cnt_t)) (e.(cnt_t_freerun)) (e.(sf3_i_val))
    (e.(sf3_address_of_cmd)) (e.(WriteBuffer)) (e.(ReadBuffer)).
Definition set_comString (v : string) (e : t_experiment_data) : t_experiment_data :=
  mk_experiment_data (e.(ledUpdate)) v (e.(operatingMode))
    (e.(operatingModePrev)) (e.(sf3_start_at_zero)) (e.(sf3_addr_start_val))
    (e.(sf3_test_pattern_selected)) (e.(sf3_pattern_start_val))
    (e.(sf3_pattern_incr_val)) (e.(sf3_pattern_track_val)) (e.(sf3_test_pass))
    (e.(sf3_test_done)) (e.(sf3_err_count_val)) (e.(switchesRead))
    (e.(buttonsRead)) (e.(cnt_t)) (e.(cnt_t_freerun)) (e.(sf3_i_val))
    (e.(sf3_address_of_cmd)) (e.(WriteBuffer)) (e.(ReadBuffer)).
Definition set_operatingMode (v : OPERATING_MODE_TAG) (e : t_experiment_data) : t_experiment_data :=
  mk_experiment_data (e.(ledUpdate)) (e.(comString)) v (e.(operatingModePrev))
    (e.(sf3_start_at_zero)) (e.(sf3_addr_start_val))
    (e.(sf3_test_pattern_selected)) (e.(sf3_pattern_start_val))
    (e.(sf3_pattern_incr_val)) (e.(sf3_pattern_track_val)) (e.(sf3_test_pass))
    (e.(sf3_test_done)) (e.(sf3_err_count_val)) (e.(switchesRead))
    (e.(buttonsRead)) (e.(cnt_t)) (e.(cnt_t_freerun)) (e.(sf3_i_val))
    (e.(sf3_address_of_cmd)) (e.(WriteBuffer)) (e.(ReadBuffer)).
Definition set_operatingModePrev (v : OPERATING_MODE_TAG) (e : t_experiment_data) : t_experiment_data :=
  mk_experiment_data (e.(ledUpdate)) (e.(comString)) (e.(operatingMode)) v
    (e.(sf3_start_at_zero)) (e.(sf3_addr_start_val))
    (e.(sf3_test_pattern_selected)) (e.(sf3_pattern_start_val))
    (e.(sf3_pattern_incr_val)) (e.(sf3_pattern_track_val)) (e.(sf3_test_pass))
    (e.(sf3_test_done)) (e.(sf3_err_count_val)) (e.(switchesRead))
    (e.(buttonsRead)) (e.(cnt_t)) (e.(cnt_t_freerun)) (e.(sf3_i_val))
    (e.(sf3_address_of_cmd)) (e.(WriteBuffer)) (e.(ReadBuffer)).
Definition set_sf3_start_at_zero (v : bool) (e : t_experiment_data) : t_experiment_data :=
  mk_experiment_data (e.(ledUpdate)) (e.(comString)) (e.(operatingMode))
    (e.(operatingModePrev)) v (e.(sf3_addr_start_val))
    (e.(sf3_test_pattern_selected)) (e.(sf3_pattern_start_val))
    (e.(sf3_pattern_incr_val)) (e.(sf3_pattern_track_val)) (e.(sf3_test_pass))
    (e.(sf3_test_done)) (e.(sf3_err_count_val)) (e.(switchesRead))
    (e.(buttonsRead)) (e.(cnt_t)) (e.(cnt_t_freerun)) (e.(sf3_i_val))
    (e.(sf3_address_of_cmd)) (e.(WriteBuffer)) (e.(ReadBuffer)).
Definition set_sf3_addr_start_val (v : Z) (e : t_experiment_data) : t_experiment_data :=
  mk_experiment_data (e.(ledUpdate)) (e.(comString)) (e.(operatingMode))
    (e.(operatingModePrev)) (e.(sf3_start_at_zero)) v
    (e.(sf3_test_pattern_selected)) (e.(sf3_pattern_start_val))
    (e.(sf3_pattern_incr_val)) (e.(sf3_pattern_track_val)) (e.(sf3_test_pass))
    (e.(sf3_test_done)) (e.(sf3_err_count_val)) (e.(switchesRead))
    (e.(buttonsRead)) (e.(cnt_t)) (e.(cnt_t_freerun)) (e.(sf3_i_val))
    (e.(sf3_address_of_cmd)) (e.(WriteBuffer)) (e.(ReadBuffer)).
Definition set_sf3_test_pattern_selected (v : TEST_PATTERN_TAG) (e : t_experiment_data) : t_experiment_data :=
  mk_experiment_data (e.(ledUpdate)) (e.(comString)) (e.(operatingMode))
    (e.(operatingModePrev)) (e.(sf3_start_at_zero)) (e.(sf3_addr_start_val)) v
    (e.(sf3_pattern_start_val)) (e.(sf3_pattern_incr_val))
    (e.(sf3_pattern_track_val)) (e.(sf3_test_pass)) (e.(sf3_test_done))
    (e.(sf3_err_count_val)) (e.(switchesRead)) (e.(buttonsRead)) (e.(cnt_t))
    (e.(cnt_t_freerun)) (e.(sf3_i_val)) (e.(sf3_address_of_cmd))
    (e.(WriteBuffer)) (e.(ReadBuffer)).
Definition set_sf3_pattern_start_val (v : Z) (e : t_experiment_data) : t_experiment_data :=
  mk_experiment_data (e.(ledUpdate)) (e.(comString)) (e.(operatingMode))
    (e.(operatingModePrev)) (e.(sf3_start_at_zero)) (e.(sf3_addr_start_val))
    (e.(sf3_test_pattern_selected)) v (e.(sf3_pattern_incr_val))
    (e.(sf3_pattern_track_val)) (e.(sf3_test_pass)) (e.(sf3_test_done))
    (e.(sf3_err_count_val)) (e.(switchesRead)) (e.(buttonsRead)) (e.(cnt_t))
    (e.(cnt_t_freerun)) (e.(sf3_i_val)) (e.(sf3_address_of_cmd))
    (e.(WriteBuffer)) (e.(ReadBuffer)).
Definition set_sf3_pattern_incr_val (v : Z) (e : t_experiment_data) : t_experiment_data :=
  mk_experiment_data (e.(ledUpdate)) (e.(comString)) (e.(operatingMode))
    (e.(operatingModePrev)) (e.(sf3_start_at_zero)) (e.(sf3_addr_start_val))
    (e.(sf3_test_pattern_selected)) (e.(sf3_pattern_start_val)) v
    (e.(sf3_pattern_track_val)) (e.(sf3_test_pass)) (e.(sf3_test_done))
    (e.(sf3_err_count_val)) (e.(switchesRead)) (e.(buttonsRead)) (e.(cnt_t))
    (e.(cnt_t_freerun)) (e.(sf3_i_val)) (e.(sf3_address_of_cmd))
    (e.(WriteBuffer)) (e.(ReadBuffer)).
Definition set_sf3_pattern_track_val (v : Z) (e : t_experiment_data) : t_experiment_data :=
  mk_experiment_data (e.(ledUpdate)) (e.(comString)) (e.(operatingMode))
    (e.(operatingModePrev)) (e.(sf3_start_at_zero)) (e.(sf3_addr_start_val))
    (e.(sf3_test_pattern_selected)) (e.(sf3_pattern_start_val))
    (e.(sf3_pattern_incr_val)) v (e.(sf3_test_pass)) (e.(sf3_test_done))
    (e.(sf3_err_count_val)) (e.(switchesRead)) (e.(buttonsRead)) (e.(cnt_t))
    (e.(cnt_t_freerun)) (e.(sf3_i_val)) (e.(sf3_address_of_cmd))
    (e.(WriteBuffer)) (e.(ReadBuffer)).
Definition set_sf3_test_pass (v : bool) (e : t_experiment_data) : t_experiment_data :=
  mk_experiment_data (e.(ledUpdate)) (e.(comString)) (e.(operatingMode))
    (e.(operatingModePrev)) (e.(sf3_start_at_zero)) (e.(sf3_addr_start_val))
    (e.(sf3_test_pattern_selected)) (e.(sf3_pattern_start_val))
    (e.(sf3_pattern_incr_val)) (e.(sf3_pattern_track_val)) v
    (e.(sf3_test_done)) (e.(sf3_err_count_val)) (e.(switchesRead))
    (e.(buttonsRead)) (e.(cnt_t)) (e.(cnt_t_freerun)) (e.(sf3_i_val))
    (e.(sf3_address_of_cmd)) (e.(WriteBuffer)) (e.(ReadBuffer)).
Definition set_sf3_test_done (v : bool) (e : t_experiment_data) : t_experiment_data :=
  mk_experiment_data (e.(ledUpdate)) (e.(comString)) (e.(operatingMode))
    (e.(operatingModePrev)) (e.(sf3_start_at_zero)) (e.(sf3_addr_start_val))
    (e.(sf3_test_pattern_selected)) (e.(sf3_pattern_start_val))
    (e.(sf3_pattern_incr_val)) (e.(sf3_pattern_track_val)) (e.(sf3_test_pass))
    v (e.(sf3_err_count_val)) (e.(switchesRead)) (e.(buttonsRead)) (e.(cnt_t))
    (e.(cnt_t_freerun)) (e.(sf3_i_val)) (e.(sf3_address_of_cmd))
    (e.(WriteBuffer)) (e.(ReadBuffer)).
Definition set_sf3_err_count_val (v : Z) (e : t_experiment_data) : t_experiment_data :=
  mk_experiment_data (e.(ledUpdate)) (e.(comString)) (e.(operatingMode))
    (e.(operatingModePrev)) (e.(sf3_start_at_zero)) (e.(sf3_addr_start_val))
    (e.(sf3_test_pattern_selected)) (e.(sf3_pattern_start_val))
    (e.(sf3_pattern_incr_val)) (e.(sf3_pattern_track_val)) (e.(sf3_test_pass))
    (e.(sf3_test_done)) v (e.(switchesRead)) (e.(buttonsRead)) (e.(cnt_t))
    (e.(cnt_t_freerun)) (e.(sf3_i_val)) (e.(sf3_address_of_cmd))
    (e.(WriteBuffer)) (e.(ReadBuffer)).
Definition set_switchesRead (v : Z) (e : t_experiment_data) : t_experiment_data :=
  mk_experiment_data (e.(ledUpdate)) (e.(comString)) (e.(operatingMode))
    (e.(operatingModePrev)) (e.(sf3_start_at_zero)) (e.(sf3_addr_start_val))
    (e.(sf3_test_pattern_selected)) (e.(sf3_pattern_start_val))
    (e.(sf3_pattern_incr_val)) (e.(sf3_pattern_track_val)) (e.(sf3_test_pass))
    (e.(sf3_test_done)) (e.(sf3_err_count_val)) v (e.(buttonsRead))
    (e.(cnt_t)) (e.(cnt_t_freerun)) (e.(sf3_i_val)) (e.(sf3_address_of_cmd))
    (e.(WriteBuffer)) (e.(ReadBuffer)).
Definition set_buttonsRead (v : Z) (e : t_experiment_data) : t_experiment_data :=
  mk_experiment_data (e.(ledUpdate)) (e.(comString)) (e.(operatingMode))
    (e.(operatingModePrev)) (e.(sf3_start_at_zero)) (e.(sf3_addr_start_val))
    (e.(sf3_test_pattern_selected)) (e.(sf3_pattern_start_val))
    (e.(sf3_pattern_incr_val)) (e.(sf3_pattern_track_val)) (e.(sf3_test_pass))
    (e.(sf3_test_done)) (e.(sf3_err_count_val)) (e.(switchesRead)) v
    (e.(cnt_t)) (e.(cnt_t_freerun)) (e.(sf3_i_val)) (e.(sf3_address_of_cmd))
    (e.(WriteBuffer)) (e.(ReadBuffer)).
Definition set_cnt_t (v : Z) (e : t_experiment_data) : t_experiment_data :=
  mk_experiment_data (e.(ledUpdate)) (e.(comString)) (e.(operatingMode))
    (e.(operatingModePrev)) (e.(sf3_start_at_zero)) (e.(sf3_addr_start_val))
    (e.(sf3_test_pattern_selected)) (e.(sf3_pattern_start_val))
    (e.(sf3_pattern_incr_val)) (e.(sf3_pattern_track_val)) (e.(sf3_test_pass))
    (e.(sf3_test_done)) (e.(sf3_err_count_val)) (e.(switchesRead))
    (e.(buttonsRead)) v (e.(cnt_t_freerun)) (e.(sf3_i_val))
    (e.(sf3_address_of_cmd)) (e.(WriteBuffer)) (e.(ReadBuffer)).
Definition set_cnt_t_freerun (v : Z) (e : t_experiment_data) : t_experiment_data :=
  mk_experiment_data (e.(ledUpdate)) (e.(comString)) (e.(operatingMode))
    (e.(operatingModePrev)) (e.(sf3_start_at_zero)) (e.(sf3_addr_start_val))
    (e.(sf3_test_pattern_selected)) (e.(sf3_pattern_start_val))
    (e.(sf3_pattern_incr_val)) (e.(sf3_pattern_track_val)) (e.(sf3_test_pass))
    (e.(sf3_test_done)) (e.(sf3_err_count_val)) (e.(switchesRead))
    (e.(buttonsRead)) (e.(cnt_t)) v (e.(sf3_i_val)) (e.(sf3_address_of_cmd))
    (e.(WriteBuffer)) (e.(ReadBuffer)).
Definition set_sf3_i_val (v : Z) (e : t_experiment_data) : t_experiment_data :=
  mk_experiment_data (e.(ledUpdate)) (e.(comString)) (e.(operatingMode))
    (e.(operatingModePrev)) (e.(sf3_start_at_zero)) (e.(sf3_addr_start_val))
    (e.(sf3_test_pattern_selected)) (e.(sf3_pattern_start_val))
    (e.(sf3_pattern_incr_val)) (e.(sf3_pattern_track_val)) (e.(sf3_test_pass))
    (e.(sf3_test_done)) (e.(sf3_err_count_val)) (e.(switchesRead))
    (e.(buttonsRead)) (e.(cnt_t)) (e.(cnt_t_freerun)) v
    (e.(sf3_address_of_cmd)) (e.(WriteBuffer)) (e.(ReadBuffer)).
Definition set_sf3_address_of_cmd (v : Z) (e : t_experiment_data) : t_experiment_data :=
  mk_experiment_data (e.(ledUpdate)) (e.(comString)) (e.(operatingMode))
    (e.(operatingModePrev)) (e.(sf3_start_at_zero)) (e.(sf3_addr_start_val))
    (e.(sf3_test_pattern_selected)) (e.(sf3_pattern_start_val))
    (e.(sf3_pattern_incr_val)) (e.(sf3_pattern_track_val)) (e.(sf3_test_pass))
    (e.(sf3_test_done)) (e.(sf3_err_count_val)) (e.(switchesRead))
    (e.(buttonsRead)) (e.(cnt_t)) (e.(cnt_t_freerun)) (e.(sf3_i_val)) v
    (e.(WriteBuffer)) (e.(ReadBuffer)).
Definition set_WriteBuffer (v : list Z) (e : t_experiment_data) : t_experiment_data :=
  mk_experiment_data (e.(ledUpdate)) (e.(comString)) (e.(operatingMode))
    (e.(operatingModePrev)) (e.(sf3_start_at_zero)) (e.(sf3_addr_start_val))
    (e.(sf3_test_pattern_selected)) (e.(sf3_pattern_start_val))
    (e.(sf3_pattern_incr_val)) (e.(sf3_pattern_track_val)) (e.(sf3_test_pass))
    (e.(sf3_test_done)) (e.(sf3_err_count_val)) (e.(switchesRead))
    (e.(buttonsRead)) (e.(cnt_t)) (e.(cnt_t_freerun)) (e.(sf3_i_val))
    (e.(sf3_address_of_cmd)) v (e.(ReadBuffer)).
Definition set_ReadBuffer (v : list Z) (e : t_experiment_data) : t_experiment_data :=
  mk_experiment_data (e.(ledUpdate)) (e.(comString)) (e.(operatingMode))
    (e.(operatingModePrev)) (e.(sf3_start_at_zero)) (e.(sf3_addr_start_val))
    (e.(sf3_test_pattern_selected)) (e.(sf3_pattern_start_val))
    (e.(sf3_pattern_incr_val)) (e.(sf3_pattern_track_val)) (e.(sf3_test_pass))
    (e.(sf3_test_done)) (e.(sf3_err_count_val)) (e.(switchesRead))
    (e.(buttonsRead)) (e.(cnt_t)) (e.(cnt_t_freerun)) (e.(sf3_i_val))
    (e.(sf3_address_of_cmd)) (e.(WriteBuffer)) v.

(** ** Formatting helpers ([snprintf]) *)

Definition digit_char (d : Z) : ascii :=
  nth (Z.to_nat d) (list_ascii_of_string "0123456789abcdef") "0"%char.

(** The [n] low hexadecimal digits of [v], most significant first. *)
Fixpoint hex_digits (n : nat) (v : Z) : string :=
  match n with
  | O => ""
  | S n' => hex_digits n' (v / 16) +:+ String (digit_char (v mod 16)) ""
  end.

(** Decimal digits of a non-negative [v]; [fuel] bounds the digit count. *)
Fixpoint dec_digits (fuel : nat) (v : Z) : string :=
  match fuel with
  | O => ""
  | S fuel' =>
      if v <? 10 then String (digit_char v) ""
      else dec_digits fuel' (v / 10) +:+ String (digit_char (v mod 10)) ""
  end.

Definition zero_pad (width : nat) (s : string) : string :=
  String.concat "" (repeat "0" (width - String.length s)) +:+ s.

(** ["%08lx"] applied to a [uint32_t]. *)
Definition fmt_08lx (v : Z) : string := hex_digits 8 v.

(** ["%08ld"] applied to a [uint32_t]: [long] has 32 bits on the target, so
    the argument is read as a signed number; the sign takes one column of
    the zero-padded field. *)
Definition fmt_08ld (v : Z) : string :=
  if v <? 2147483648 then zero_pad 8 (dec_digits 10 v)
  else "-" +:+ zero_pad 7 (dec_digits 10 (4294967296 - v)).

(** [snprintf (dst, size, ...)] keeps at most [size - 1] characters. *)
Definition snprintf (size : nat) (s : string) : string :=
  substring 0 (size - 1) s.

(** [for (int i = from; i < to; ++i) body] *)
Definition for_loop {S : Type} (from to : nat) (body : nat -> S -> S) (s : S) : S :=
  fold_left (fun s i => body i s) (seq from (to - from)) s.

(** ** Interfaces of the collaborators that are not modelled *)

(** The constants of [PmodSF3.h] that [Experiment.c] uses. *)
Class PmodSF3_h : Type := {
  SF3_PAGE_SIZE : nat;
  SF3_WRITE_EXTRA_BYTES : nat;
  SF3_READ_MIN_EXTRA_BYTES : nat;
  SF3_COMMAND_PAGE_PROGRAM : Z;
  SF3_COMMAND_RANDOM_READ : Z
}.

(** The four driver calls of the state machine, over a device state [D].
    Each returns the new device state and an [XStatus]. [SF3_FlashWrite]
    is handed the whole [WriteBuffer]; what the driver may put into its
    header bytes is not tracked, as the state machine never loads from
    [WriteBuffer] and rewrites the payload before every call.
    [SF3_FlashRead] is handed the whole [ReadBuffer] and returns its new
    contents. *)
Class PmodSF3_driver (D : Type) : Type := {
  SF3_FlashWriteEnable : D -> D * Z;
  SF3_SectorErase : D -> Z -> D * Z;
  SF3_FlashWrite : D -> Z -> nat -> Z -> list Z -> D * Z;
  SF3_FlashRead : D -> Z -> nat -> Z -> list Z -> D * Z * list Z
}.

(** * The real-time task of [Experiment.c] *)

Section Experiment.

Context {hdr : PmodSF3_h} {D : Type} {drv : PmodSF3_driver D}.

(** The global objects of the module: [experiData], [sf3Device] and the
    three queues. *)
Record world : Type := mk_world {
  experiData : t_experiment_data;
  sf3Device : D;
  xQueuePrint : list string;
  xQueueLedConfig : list t_rgb_led_palette_silk;
  xQueueClsDispl : list t_cls_lines
}.

Definition upd (f : t_experiment_data -> t_experiment_data) (w : world) : world :=
  mk_world (f (experiData w)) (sf3Device w) (xQueuePrint w)
    (xQueueLedConfig w) (xQueueClsDispl w).

Definition set_sf3Device (d : D) (w : world) : world :=
  mk_world (experiData w) d (xQueuePrint w) (xQueueLedConfig w)
    (xQueueClsDispl w).

(** [xQueueSend (queue, item, 0UL)]: the item is handed to the queue without
    waiting. *)
Definition xQueueSend_Print (item : string) (w : world) : world :=
  mk_world (experiData w) (sf3Device w) (xQueuePrint w ++ [item])
    (xQueueLedConfig w) (xQueueClsDispl w).

Definition xQueueSend_LedConfig (item : t_rgb_led_palette_silk) (w : world) : world :=
  mk_world (experiData w) (sf3Device w) (xQueuePrint w)
    (xQueueLedConfig w ++ [item]) (xQueueClsDispl w).

Definition xQueueSend_ClsDispl (item : t_cls_lines) (w : world) : world :=
  mk_world (experiData w) (sf3Device w) (xQueuePrint w) (xQueueLedConfig w)
    (xQueueClsDispl w ++ [item]).

(** *** LED helpers *)

Definition Experiment_SetLedUpdate (silk : nat) (red green blue : Z)
    (expData : t_experiment_data) : t_experiment_data :=
  if (silk <? 6)%nat then
    set_ledUpdate
      (<[silk := mk_rgb_led_palette_silk (mk_rgb_led_palette red green blue)
                   (Z.of_nat silk)]> (ledUpdate expData)) expData
  else expData.

Definition Experiment_SendLedUpdate (silk : nat) (w : world) : world :=
  if (silk <? 6)%nat then
    xQueueSend_LedConfig (ledUpdate (experiData w) !!! silk) w
  else w.

Definition Experiment_updateLedsStatuses (w : world) : world :=
  let w := upd (Experiment_SetLedUpdate 2 0
                  (if sf3_test_pass (experiData w) then 100 else 0) 0) w in
  let w := upd (Experiment_SetLedUpdate 3 0
                  (if sf3_test_done (experiData w) then 100 else 0) 0) w in
  let w := upd (Experiment_SetLedUpdate 4 0 0 0) w in
  let w := upd (Experiment_SetLedUpdate 5 0 0 0) w in
  for_loop 2 6 Experiment_SendLedUpdate w.

Definition is_pattern (p : TEST_PATTERN_TAG) (expData : t_experiment_data) : Z :=
  if decide (sf3_test_pattern_selected expData = p) then 0xFF else 0.

Definition Experiment_updateLedsDisplayMode (w : world) : world :=
  let e := experiData w in
  let w :=
    match operatingMode e with
    | ST_WAIT_BUTTON_REL | ST_SET_PATTERN | ST_SET_START_ADDR
    | ST_SET_START_WAIT =>
        upd (fun e =>
               Experiment_SetLedUpdate 1 0 (is_pattern TEST_PATTERN_B e)
                 (is_pattern TEST_PATTERN_D e)
                 (Experiment_SetLedUpdate 0 0 (is_pattern TEST_PATTERN_A e)
                    (is_pattern TEST_PATTERN_C e) e)) w
    | ST_CMD_ERASE_START =>
        upd (fun e => Experiment_SetLedUpdate 1 0 0 0
                        (Experiment_SetLedUpdate 0 0x80 0x80 0x80 e)) w
    | ST_CMD_ERASE_DONE =>
        upd (fun e => Experiment_SetLedUpdate 1 0 0 0
                        (Experiment_SetLedUpdate 0 0x70 0x10 0x00 e)) w
    | ST_CMD_PAGE_START =>
        upd (fun e => Experiment_SetLedUpdate 1 0x80 0x80 0x80
                        (Experiment_SetLedUpdate 0 0 0 0 e)) w
    | ST_CMD_PAGE_DONE =>
        upd (fun e => Experiment_SetLedUpdate 1 0x70 0x10 0x00
                        (Experiment_SetLedUpdate 0 0 0 0 e)) w
    | ST_CMD_READ_START =>
        upd (fun e => Experiment_SetLedUpdate 1 0 0 0
                        (Experiment_SetLedUpdate 0 0 0x80 0x80 e)) w
    | ST_CMD_READ_DONE =>
        upd (fun e => Experiment_SetLedUpdate 1 0 0 0
                        (Experiment_SetLedUpdate 0 0x70 0x10 0x00 e)) w
    | ST_DISPLAY_FINAL =>
        upd (fun e => Experiment_SetLedUpdate 1 0 0x80 0x80
                        (Experiment_SetLedUpdate 0 0 0 0 e)) w
    | ST_WAIT_BUTTON_DEP | OPERATING_MODE_NONE =>
        upd (fun e => Experiment_SetLedUpdate 1 0xFF 0 0
                        (Experiment_SetLedUpdate 0 0xFF 0 0 e)) w
    end in
  for_loop 0 2 Experiment_SendLedUpdate w.

(** *** Text display and terminal *)

Definition Experiment_generateTextLine1 (expData : t_experiment_data) : string :=
  let cls_txt_ascii_pattern_1char :=
    match sf3_test_pattern_selected expData with
    | TEST_PATTERN_A => "A"
    | TEST_PATTERN_B => "B"
    | TEST_PATTERN_C => "C"
    | TEST_PATTERN_D => "D"
    | TEST_PATTERN_NONE => "*"
    end in
  snprintf 17
    ("SF3 P" +:+ cls_txt_ascii_pattern_1char +:+ " h"
       +:+ fmt_08lx (sf3_addr_start_val expData)).

Definition Experiment_generateTextLine2 (expData : t_experiment_data) : string :=
  let cls_txt_ascii_sf3mode_3char :=
    match operatingMode expData with
    | ST_WAIT_BUTTON_REL | ST_SET_PATTERN | ST_SET_START_ADDR
    | ST_SET_START_WAIT => "GO "
    | ST_CMD_ERASE_START | ST_CMD_ERASE_DONE => "ERS"
    | ST_CMD_PAGE_START | ST_CMD_PAGE_DONE => "PRO"
    | ST_CMD_READ_START | ST_CMD_READ_DONE => "TST"
    | ST_DISPLAY_FINAL => "END"
    | ST_WAIT_BUTTON_DEP | OPERATING_MODE_NONE => "GO "
    end in
  snprintf 17
    (cls_txt_ascii_sf3mode_3char +:+ " ERR "
       +:+ fmt_08ld (sf3_err_count_val expData)).

Definition Experiment_updateClsDisplayAndTerminal (w : world) : world :=
  let expData := experiData w in
  if negb (cnt_t_freerun expData mod (cnt_t_max / 15) =? 0) then w
  else
    let clsUpdate :=
      mk_cls_lines (Experiment_generateTextLine1 expData)
        (Experiment_generateTextLine2 expData) in
    let comString :=
      snprintf PRINTF_BUF_SZ (line1 clsUpdate +:+ " " +:+ line2 clsUpdate) in
    let w := xQueueSend_ClsDispl clsUpdate w in
    xQueueSend_Print comString w.

(** *** User inputs *)

Definition Experiment_readUserInputs (switches buttons : Z) (w : world) : world :=
  upd (fun e => set_buttonsRead buttons (set_switchesRead switches e)) w.

(** *** The operating-mode state machine *)

(** [if (Status != XST_SUCCESS) { snprintf (expData->comString, ...);
    xQueueSend (xQueuePrint, expData->comString, 0UL); }] *)
Definition report_failure (Status : Z) (msg : string) (w : world) : world :=
  if Status =? XST_SUCCESS then w
  else
    let w := upd (set_comString (snprintf PRINTF_BUF_SZ msg)) w in
    xQueueSend_Print (comString (experiData w)) w.

Definition select_pattern (p : TEST_PATTERN_TAG) (e : t_experiment_data)
    : t_experiment_data :=
  set_sf3_test_pattern_selected p (set_operatingMode ST_WAIT_BUTTON_REL e).

Definition fsm_WAIT_BUTTON_DEP (e : t_experiment_data) : t_experiment_data :=
  if sf3_addr_start_val e <? last_starting_byte_addr then
    let e := set_sf3_test_done false e in
    if (buttonsRead e =? BTN0_MASK) || (switchesRead e =? SWTCH0_MASK) then
      select_pattern TEST_PATTERN_A e
    else if (buttonsRead e =? BTN1_MASK) || (switchesRead e =? SWTCH1_MASK) then
      select_pattern TEST_PATTERN_B e
    else if (buttonsRead e =? BTN2_MASK) || (switchesRead e =? SWTCH2_MASK) then
      select_pattern TEST_PATTERN_C e
    else if (buttonsRead e =? BTN3_MASK) || (switchesRead e =? SWTCH3_MASK) then
      select_pattern TEST_PATTERN_D e
    else e
  else set_sf3_test_done true e.

Definition fsm_WAIT_BUTTON_REL (e : t_experiment_data) : t_experiment_data :=
  if buttonsRead e =? 0 then set_operatingMode ST_SET_PATTERN e else e.

Definition set_pattern_seed (start incr : Z) (e : t_experiment_data)
    : t_experiment_data :=
  set_sf3_pattern_incr_val incr (set_sf3_pattern_start_val start e).

Definition fsm_SET_PATTERN (e : t_experiment_data) : t_experiment_data :=
  let e :=
    match sf3_test_pattern_selected e with
    | TEST_PATTERN_A =>
        set_pattern_seed sf3_test_pattern_startval_a sf3_test_pattern_incrval_a e
    | TEST_PATTERN_B =>
        set_pattern_seed sf3_test_pattern_startval_b sf3_test_pattern_incrval_b e
    | TEST_PATTERN_C =>
        set_pattern_seed sf3_test_pattern_startval_c sf3_test_pattern_incrval_c e
    | TEST_PATTERN_D =>
        set_pattern_seed sf3_test_pattern_startval_d sf3_test_pattern_incrval_d e
    | TEST_PATTERN_NONE => e
    end in
  set_operatingMode ST_SET_START_ADDR e.

Definition fsm_SET_START_ADDR (e : t_experiment_data) : t_experiment_data :=
  let e :=
    if sf3_start_at_zero e then
      set_operatingMode ST_SET_START_WAIT
        (set_sf3_test_done false (set_sf3_addr_start_val 0 e))
    else if sf3_addr_start_val e <? last_starting_byte_addr then
      set_operatingMode ST_SET_START_WAIT
        (set_sf3_test_done false
           (set_sf3_addr_start_val
              (u32 (sf3_addr_start_val e + per_iteration_byte_count)) e))
    else
      set_operatingMode ST_WAIT_BUTTON_DEP (set_sf3_test_done true e) in
  set_sf3_i_val 0 (set_sf3_start_at_zero false e).

Definition fsm_SET_START_WAIT (e : t_experiment_data) : t_experiment_data :=
  if cnt_t e =? cnt_t_max / 2 then set_operatingMode ST_CMD_ERASE_START e
  else e.

(** [expData->sf3_address_of_cmd = expData->sf3_addr_start_val +
    (expData->sf3_i_val * incr);] *)
Definition set_address_of_cmd (incr : Z) (e : t_experiment_data)
    : t_experiment_data :=
  set_sf3_address_of_cmd
    (u32 (sf3_addr_start_val e + u32 (sf3_i_val e * incr))) e.

(** [expData->sf3_i_val += 1;] and the choice of the next mode. *)
Definition count_sub_operation (bound : Z) (stay next : OPERATING_MODE_TAG)
    (e : t_experiment_data) : t_experiment_data :=
  let e := set_sf3_i_val (u32 (sf3_i_val e + 1)) e in
  if sf3_i_val e <? bound then set_operatingMode stay e
  else set_operatingMode next e.

Definition fsm_CMD_ERASE_START (w : world) : world :=
  let w := upd (set_address_of_cmd sf3_subsector_addr_incr) w in
  let r := SF3_FlashWriteEnable (sf3Device w) in
  let w := report_failure (snd r) "WEN Fail" (set_sf3Device (fst r) w) in
  let r := SF3_SectorErase (sf3Device w) (sf3_address_of_cmd (experiData w)) in
  let w :=
    report_failure (snd r)
      ("Ers Fail " +:+ fmt_08lx (sf3_address_of_cmd (experiData w)))
      (set_sf3Device (fst r) w) in
  upd (count_sub_operation experi_subsector_cnt_per_iter
         ST_CMD_ERASE_START ST_CMD_ERASE_DONE) w.

(** The three [..._DONE] modes: reset the cursor and the index, then dwell. *)
Definition fsm_DONE (stay next : OPERATING_MODE_TAG) (e : t_experiment_data)
    : t_experiment_data :=
  let e := set_sf3_pattern_track_val (sf3_pattern_start_val e) e in
  let e := set_sf3_i_val 0 e in
  if cnt_t_max - 1 <=? cnt_t e then set_operatingMode next e
  else set_operatingMode stay e.

(** The loop that fills the payload of [WriteBuffer] with the pattern. *)
Definition fill_WriteBuffer (e : t_experiment_data) : t_experiment_data :=
  for_loop 0 SF3_PAGE_SIZE
    (fun iByte e =>
       let e :=
         set_WriteBuffer
           (<[(iByte + SF3_WRITE_EXTRA_BYTES)%nat := sf3_pattern_track_val e]>
              (WriteBuffer e)) e in
       set_sf3_pattern_track_val
         (u8 (sf3_pattern_track_val e + sf3_pattern_incr_val e)) e) e.

(** One round of the [for (int j = 0; j < 32; ++j)] loop of
    [ST_CMD_PAGE_START]. *)
Definition page_program_iter (w : world) : world :=
  let w := upd (set_address_of_cmd sf3_page_addr_incr) w in
  let r := SF3_FlashWriteEnable (sf3Device w) in
  let w := report_failure (snd r) "WEN Fail" (set_sf3Device (fst r) w) in
  let w := upd fill_WriteBuffer w in
  let r :=
    SF3_FlashWrite (sf3Device w) (sf3_address_of_cmd (experiData w))
      SF3_PAGE_SIZE SF3_COMMAND_PAGE_PROGRAM (WriteBuffer (experiData w)) in
  let w :=
    report_failure (snd r)
      ("PRO Fail " +:+ fmt_08lx (sf3_address_of_cmd (experiData w)))
      (set_sf3Device (fst r) w) in
  let w :=
    upd (fun e => set_sf3_pattern_track_val (sf3_pattern_start_val e) e) w in
  upd (count_sub_operation experi_page_cnt_per_iter
         ST_CMD_PAGE_START ST_CMD_PAGE_DONE) w.

Definition fsm_CMD_PAGE_START (w : world) : world :=
  for_loop 0 32 (fun _ => page_program_iter) w.

(** The loop that clears [ReadBuffer] before a read. Its bound is the
    length of the array while the index carries the offset
    [SF3_READ_MIN_EXTRA_BYTES], so its last stores fall behind the array,
    which is the last member of the data object: they do not reach any
    member of [t_experiment_data], and the list store drops them.
    [clear_ReadBuffer_checked] below is the same loop with checked
    indexing. *)
Definition clear_ReadBuffer (e : t_experiment_data) : t_experiment_data :=
  for_loop 0 (SF3_PAGE_SIZE + SF3_READ_MIN_EXTRA_BYTES)
    (fun iByte e =>
       set_ReadBuffer
         (<[(iByte + SF3_READ_MIN_EXTRA_BYTES)%nat := 0]> (ReadBuffer e)) e) e.

(** The loop that compares the payload of [ReadBuffer] with the pattern. *)
Definition compare_ReadBuffer (e : t_experiment_data) : t_experiment_data :=
  for_loop 0 SF3_PAGE_SIZE
    (fun iByte e =>
       let e :=
         set_sf3_err_count_val
           (u32 (sf3_err_count_val e
                 + (if ReadBuffer e !!! (iByte + SF3_READ_MIN_EXTRA_BYTES)%nat
                       =? sf3_pattern_track_val e
                    then 0 else 1))) e in
       set_sf3_pattern_track_val
         (u8 (sf3_pattern_track_val e + sf3_pattern_incr_val e)) e) e.

(** One round of the [for (int j = 0; j < 32; ++j)] loop of
    [ST_CMD_READ_START]. *)
Definition page_read_iter (w : world) : world :=
  let w := upd (set_address_of_cmd sf3_page_addr_incr) w in
  let w := upd clear_ReadBuffer w in
  let r :=
    SF3_FlashRead (sf3Device w) (sf3_address_of_cmd (experiData w))
      SF3_PAGE_SIZE SF3_COMMAND_RANDOM_READ (ReadBuffer (experiData w)) in
  let w := upd (set_ReadBuffer (snd r)) (set_sf3Device (fst (fst r)) w) in
  let w :=
    report_failure (snd (fst r))
      ("RD  Fail " +:+ fmt_08lx (sf3_address_of_cmd (experiData w))) w in
  let w :=
    upd (fun e => set_sf3_pattern_track_val (sf3_pattern_start_val e) e) w in
  let w := upd compare_ReadBuffer w in
  let w :=
    upd (fun e => set_sf3_pattern_track_val (sf3_pattern_start_val e) e) w in
  upd (count_sub_operation experi_page_cnt_per_iter
         ST_CMD_READ_START ST_CMD_READ_DONE) w.

Definition fsm_CMD_READ_START (w : world) : world :=
  for_loop 0 32 (fun _ => page_read_iter) w.

Definition fsm_DISPLAY_FINAL (e : t_experiment_data) : t_experiment_data :=
  let e :=
    set_sf3_test_pass (if sf3_err_count_val e =? 0 then true else false) e in
  if cnt_t e =? cnt_t_max - 1 then set_operatingMode ST_WAIT_BUTTON_DEP e
  else e.

Definition Experiment_operateFSM (w : world) : world :=
  match operatingMode (experiData w) with
  | ST_WAIT_BUTTON_DEP => upd fsm_WAIT_BUTTON_DEP w
  | ST_WAIT_BUTTON_REL => upd fsm_WAIT_BUTTON_REL w
  | ST_SET_PATTERN => upd fsm_SET_PATTERN w
  | ST_SET_START_ADDR => upd fsm_SET_START_ADDR w
  | ST_SET_START_WAIT => upd fsm_SET_START_WAIT w
  | ST_CMD_ERASE_START => fsm_CMD_ERASE_START w
  | ST_CMD_ERASE_DONE => upd (fsm_DONE ST_CMD_ERASE_DONE ST_CMD_PAGE_START) w
  | ST_CMD_PAGE_START => fsm_CMD_PAGE_START w
  | ST_CMD_PAGE_DONE => upd (fsm_DONE ST_CMD_PAGE_DONE ST_CMD_READ_START) w
  | ST_CMD_READ_START => fsm_CMD_READ_START w
  | ST_CMD_READ_DONE => upd (fsm_DONE ST_CMD_READ_DONE ST_DISPLAY_FINAL) w
  | ST_DISPLAY_FINAL => upd fsm_DISPLAY_FINAL w
  | OPERATING_MODE_NONE => upd (set_operatingMode ST_WAIT_BUTTON_DEP) w
  end.

(** *** The mode timer *)

Definition Experiment_iterationTimer (e : t_experiment_data) : t_experiment_data :=
  let e :=
    if decide (operatingMode e = operatingModePrev e) then
      set_cnt_t (u32 (cnt_t e + 1) mod cnt_t_max) e
    else set_cnt_t 0 e in
  let e := set_cnt_t_freerun (u32 (cnt_t_freerun e + 1) mod cnt_t_max) e in
  set_operatingModePrev (operatingMode e) e.

(** *** Initialisation and the task loop *)

(** [experiData] is an object of static storage: all its members are zero
    before [Experiment_InitData] runs. *)
Definition experiData_zero : t_experiment_data :=
  mk_experiment_data
    (repeat (mk_rgb_led_palette_silk (mk_rgb_led_palette 0 0 0) 0)
       (N_COLOR_LEDS / 3 + N_BASIC_LEDS))
    "" ST_WAIT_BUTTON_DEP ST_WAIT_BUTTON_DEP false 0 TEST_PATTERN_A 0 0 0
    false false 0 0 0 0 0 0 0
    (repeat 0 (SF3_PAGE_SIZE + SF3_WRITE_EXTRA_BYTES))
    (repeat 0 (SF3_PAGE_SIZE + SF3_READ_MIN_EXTRA_BYTES)).

Definition Experiment_InitData (expData : t_experiment_data) : t_experiment_data :=
  let e :=
    for_loop 0 6 (fun iSilk => Experiment_SetLedUpdate iSilk 0x00 0x00 0x00)
      expData in
  let e := set_comString "" e in
  let e := set_operatingMode ST_WAIT_BUTTON_DEP e in
  let e := set_operatingModePrev ST_WAIT_BUTTON_DEP e in
  let e := set_sf3_start_at_zero true e in
  let e := set_sf3_addr_start_val 0 e in
  let e := set_sf3_test_pattern_selected TEST_PATTERN_NONE e in
  let e := set_sf3_pattern_start_val sf3_test_pattern_startval_a e in
  let e := set_sf3_pattern_incr_val sf3_test_pattern_incrval_a e in
  let e := set_sf3_test_pass false e in
  let e := set_sf3_test_done false e in
  let e := set_sf3_err_count_val 0 e in
  let e := set_switchesRead 0 e in
  let e := set_buttonsRead 0 e in
  let e := set_cnt_t 0 e in
  set_cnt_t_freerun 0 e.

(** The state in which [Experiment_prvSf3Task] enters its loop, for a
    device in state [d]. *)
Definition initial_world (d : D) : world :=
  mk_world (Experiment_InitData experiData_zero) d [] [] [].

(** One round of the [for (;;)] loop of [Experiment_prvSf3Task]; the two
    values are what the GPIO channels deliver in this round. *)
Definition task_round (switches buttons : Z) (w : world) : world :=
  let w := Experiment_updateLedsDisplayMode w in
  let w := Experiment_updateLedsStatuses w in
  let w := Experiment_updateClsDisplayAndTerminal w in
  let w := Experiment_readUserInputs switches buttons w in
  let w := Experiment_operateFSM w in
  upd Experiment_iterationTimer w.

(** Rounds of the loop for a list of (switches, buttons) samples. *)
Definition task_rounds (inputs : list (Z * Z)) (w : world) : world :=
  fold_left (fun w i => task_round (fst i) (snd i) w) inputs w.

Inductive reachable : world -> Prop :=
| reachable_init (d : D) : reachable (initial_world d)
| reachable_round (w : world) (switches buttons : Z) :
    reachable w -> reachable (task_round switches buttons w).

End Experiment.

Arguments world : clear implicits.

(** * Specification-side definitions *)

(** ** The pattern, in the words of the specification

    Byte [i] of a page is [(startByte + i * strideByte) mod 256]. *)
Definition pattern_byte (startByte strideByte : Z) (i : nat) : Z :=
  (startByte + Z.of_nat i * strideByte) mod 256.

Section Specification.

Context {hdr : PmodSF3_h}.

Definition pattern_page (startByte strideByte : Z) : list Z :=
  map (pattern_byte startByte strideByte) (seq 0 SF3_PAGE_SIZE).

(** Number of payload bytes of a read buffer that differ from the pattern. *)
Definition page_mismatches (buf : list Z) (startByte strideByte : Z) : Z :=
  Z.of_nat
    (length
       (filter
          (fun i : nat =>
             buf !!! (i + SF3_READ_MIN_EXTRA_BYTES)%nat
             <> pattern_byte startByte strideByte i)
          (seq 0 SF3_PAGE_SIZE))).

(** ** Checked indexing for the clearing loop of [ST_CMD_READ_START] *)

(** [buf[i] = x] with a bounds check: [None] is the out-of-bounds branch. *)
Definition store_checked (i : nat) (x : Z) (buf : list Z) : option (list Z) :=
  if (i <? length buf)%nat then Some (<[i := x]> buf) else None.

(** The loop of [clear_ReadBuffer], over the array alone, with every store
    checked. *)
Definition clear_ReadBuffer_checked (buf : list Z) : option (list Z) :=
  for_loop 0 (SF3_PAGE_SIZE + SF3_READ_MIN_EXTRA_BYTES)
    (fun iByte r =>
       buf ← r; store_checked (iByte + SF3_READ_MIN_EXTRA_BYTES) 0 buf)
    (Some buf).

(** ** Region and sub-operation bounds *)

Definition region_start_ok (e : t_experiment_data) : Prop :=
  sf3_addr_start_val e mod per_iteration_byte_count = 0
  /\ 0 <= sf3_addr_start_val e <= last_starting_byte_addr.

(** Sub-operations per region in the phase a mode belongs to: subsectors
    in the erase phase, pages in the program and read phases. *)
Definition sub_operation_count (m : OPERATING_MODE_TAG) : Z :=
  match m with
  | ST_CMD_ERASE_START | ST_CMD_ERASE_DONE => experi_subsector_cnt_per_iter
  | ST_CMD_PAGE_START | ST_CMD_PAGE_DONE
  | ST_CMD_READ_START | ST_CMD_READ_DONE => experi_page_cnt_per_iter
  | _ => 0
  end.

Definition issuing_mode (m : OPERATING_MODE_TAG) : bool :=
  match m with
  | ST_CMD_ERASE_START | ST_CMD_PAGE_START | ST_CMD_READ_START => true
  | _ => false
  end.

Definition done_mode (m : OPERATING_MODE_TAG) : OPERATING_MODE_TAG :=
  match m with
  | ST_CMD_ERASE_START => ST_CMD_ERASE_DONE
  | ST_CMD_PAGE_START => ST_CMD_PAGE_DONE
  | ST_CMD_READ_START => ST_CMD_READ_DONE
  | m => m
  end.

(** ** Pattern inputs of [ST_WAIT_BUTTON_DEP] *)

Definition scan_order : list TEST_PATTERN_TAG :=
  [TEST_PATTERN_A; TEST_PATTERN_B; TEST_PATTERN_C; TEST_PATTERN_D].

Definition button_mask (p : TEST_PATTERN_TAG) : Z :=
  match p with
  | TEST_PATTERN_A => BTN0_MASK
  | TEST_PATTERN_B => BTN1_MASK
  | TEST_PATTERN_C => BTN2_MASK
  | TEST_PATTERN_D => BTN3_MASK
  | TEST_PATTERN_NONE => 0
  end.

Definition switch_mask (p : TEST_PATTERN_TAG) : Z :=
  match p with
  | TEST_PATTERN_A => SWTCH0_MASK
  | TEST_PATTERN_B => SWTCH1_MASK
  | TEST_PATTERN_C => SWTCH2_MASK
  | TEST_PATTERN_D => SWTCH3_MASK
  | TEST_PATTERN_NONE => 0
  end.

(** An input of pattern [p] is active: its button bit or its switch bit is
    set in the masks read. *)
Definition pattern_input_active (buttons switches : Z) (p : TEST_PATTERN_TAG) : bool :=
  negb (Z.land buttons (button_mask p) =? 0)
  || negb (Z.land switches (switch_mask p) =? 0).

(** The button mask read, or the switch mask read, is exactly the mask of
    [p]: no other button, or no other switch, is active with it. *)
Definition pattern_input_alone (buttons switches : Z) (p : TEST_PATTERN_TAG) : bool :=
  (buttons =? button_mask p) || (switches =? switch_mask p).

(** ** Invariant of the experiment data *)

Definition is_byte (z : Z) : Prop := 0 <= z < 256.

Definition sub_operation_inv (e : t_experiment_data) : Prop :=
  match operatingMode e with
  | ST_CMD_ERASE_START =>
      0 <= sf3_i_val e < experi_subsector_cnt_per_iter
  | ST_CMD_ERASE_DONE =>
      sf3_i_val e = 0 \/ sf3_i_val e = experi_subsector_cnt_per_iter
  | ST_CMD_PAGE_START | ST_CMD_READ_START =>
      0 <= sf3_i_val e < experi_page_cnt_per_iter
      /\ sf3_i_val e mod 32 = 0
  | ST_CMD_PAGE_DONE | ST_CMD_READ_DONE =>
      sf3_i_val e = 0 \/ sf3_i_val e = experi_page_cnt_per_iter
  | OPERATING_MODE_NONE => False
  | _ => sf3_i_val e = 0
  end.

(** Pages compared since power-on, as far as the control state tells. *)
Definition pages_compared (e : t_experiment_data) : Z :=
  if sf3_start_at_zero e then 0
  else
    experi_page_cnt_per_iter
    * (sf3_addr_start_val e / per_iteration_byte_count)
    + match operatingMode e with
      | ST_SET_START_WAIT | ST_CMD_ERASE_START | ST_CMD_ERASE_DONE
      | ST_CMD_PAGE_START | ST_CMD_PAGE_DONE => 0
      | ST_CMD_READ_START => sf3_i_val e
      | _ => experi_page_cnt_per_iter
      end.

Definition before_first_pass (m : OPERATING_MODE_TAG) : bool :=
  match m with
  | ST_WAIT_BUTTON_DEP | ST_WAIT_BUTTON_REL | ST_SET_PATTERN
  | ST_SET_START_ADDR => true
  | _ => false
  end.

Record Inv (e : t_experiment_data) : Prop := mk_Inv {
  inv_region : region_start_ok e;
  inv_start : is_byte (sf3_pattern_start_val e);
  inv_incr : is_byte (sf3_pattern_incr_val e);
  inv_track : is_byte (sf3_pattern_track_val e);
  inv_buffer :
    length (WriteBuffer e) = (SF3_PAGE_SIZE + SF3_WRITE_EXTRA_BYTES)%nat;
  inv_sub_operation : sub_operation_inv e;
  inv_cursor :
    operatingMode e = ST_CMD_PAGE_START ->
    sf3_pattern_track_val e = sf3_pattern_start_val e;
  inv_first :
    sf3_start_at_zero e = true -> before_first_pass (operatingMode e) = true;
  inv_err :
    0 <= sf3_err_count_val e <= Z.of_nat SF3_PAGE_SIZE * pages_compared e;
  inv_err_u32 : sf3_err_count_val e < 4294967296
}.

End Specification.

(** ** What the driver-calling modes leave alone

    [data_frame e e'] : [e'] agrees with [e] on the members that the issuing
    modes do not write. *)
Record data_frame (e e' : t_experiment_data) : Prop := mk_data_frame {
  df_ledUpdate : ledUpdate e' = ledUpdate e;
  df_prev : operatingModePrev e' = operatingModePrev e;
  df_start_at_zero : sf3_start_at_zero e' = sf3_start_at_zero e;
  df_addr_start : sf3_addr_start_val e' = sf3_addr_start_val e;
  df_selected : sf3_test_pattern_selected e' = sf3_test_pattern_selected e;
  df_start : sf3_pattern_start_val e' = sf3_pattern_start_val e;
  df_incr : sf3_pattern_incr_val e' = sf3_pattern_incr_val e;
  df_pass : sf3_test_pass e' = sf3_test_pass e;
  df_done : sf3_test_done e' = sf3_test_done e;
  df_switches : switchesRead e' = switchesRead e;
  df_buttons : buttonsRead e' = buttonsRead e;
  df_cnt_t : cnt_t e' = cnt_t e;
  df_cnt_t_freerun : cnt_t_freerun e' = cnt_t_freerun e
}.

(** The address of sub-operation [sf3_i_val] for an address increment. *)
Definition address_of (incr : Z) (e : t_experiment_data) : Z :=
  u32 (sf3_addr_start_val e + u32 (sf3_i_val e * incr)).

(** * Definitions used by the proofs *)

Section ProofDefinitions.

Context {hdr : PmodSF3_h} {D : Type} {drv : PmodSF3_driver D}.

(** ** Loop invariants of the three byte loops *)

Definition fill_inv (e : t_experiment_data) (k : nat) (s : t_experiment_data) : Prop :=
  s = set_WriteBuffer (WriteBuffer s)
        (set_sf3_pattern_track_val (sf3_pattern_track_val s) e)
  /\ length (WriteBuffer s) = length (WriteBuffer e)
  /\ (is_byte (sf3_pattern_track_val e) ->
      sf3_pattern_track_val s
      = pattern_byte (sf3_pattern_track_val e) (sf3_pattern_incr_val e) k
      /\ forall i : nat,
          (i < k)%nat ->
          (i + SF3_WRITE_EXTRA_BYTES < length (WriteBuffer e))%nat ->
          WriteBuffer s !! (i + SF3_WRITE_EXTRA_BYTES)%nat
          = Some (pattern_byte (sf3_pattern_track_val e)
                    (sf3_pattern_incr_val e) i)).

Definition mismatches_upto (buf : list Z) (c s : Z) (k : nat) : Z :=
  Z.of_nat
    (length
       (filter
          (fun i : nat =>
             buf !!! (i + SF3_READ_MIN_EXTRA_BYTES)%nat <> pattern_byte c s i)
          (seq 0 k))).

Definition compare_inv (e : t_experiment_data) (k : nat) (s : t_experiment_data) : Prop :=
  s = set_sf3_err_count_val (sf3_err_count_val s)
        (set_sf3_pattern_track_val (sf3_pattern_track_val s) e)
  /\ (is_byte (sf3_pattern_track_val e) ->
      0 <= sf3_err_count_val e < 4294967296 ->
      sf3_pattern_track_val s
      = pattern_byte (sf3_pattern_track_val e) (sf3_pattern_incr_val e) k
      /\ sf3_err_count_val s
         = u32 (sf3_err_count_val e
                + mismatches_upto (ReadBuffer e) (sf3_pattern_track_val e)
                    (sf3_pattern_incr_val e) k)).

(** ** One round of an issuing mode, and batches of rounds *)

(** The queues of the LEDs and of the display are not used by a function. *)
Definition keeps_displays (w w' : world D) : Prop :=
  xQueueLedConfig w' = xQueueLedConfig w
  /\ xQueueClsDispl w' = xQueueClsDispl w.


Record program_round (w w' : world D) : Prop := mk_program_round {
  pr_frame : data_frame (experiData w) (experiData w');
  pr_index :
    sf3_i_val (experiData w') = u32 (sf3_i_val (experiData w) + 1);
  pr_mode :
    operatingMode (experiData w')
    = if sf3_i_val (experiData w') <? experi_page_cnt_per_iter
      then ST_CMD_PAGE_START else ST_CMD_PAGE_DONE;
  pr_cursor :
    sf3_pattern_track_val (experiData w')
    = sf3_pattern_start_val (experiData w);
  pr_buffer :
    length (WriteBuffer (experiData w'))
    = length (WriteBuffer (experiData w));
  pr_err :
    sf3_err_count_val (experiData w') = sf3_err_count_val (experiData w);
  pr_displays : keeps_displays w w';
  pr_device :
    exists buf : list Z,
      sf3Device w'
      = fst (SF3_FlashWrite (fst (SF3_FlashWriteEnable (sf3Device w)))
               (address_of sf3_page_addr_incr (experiData w))
               SF3_PAGE_SIZE SF3_COMMAND_PAGE_PROGRAM buf)
      /\ length buf = length (WriteBuffer (experiData w))
      /\ (is_byte (sf3_pattern_track_val (experiData w)) ->
          forall i : nat,
            (i < SF3_PAGE_SIZE)%nat ->
            (i + SF3_WRITE_EXTRA_BYTES
             < length (WriteBuffer (experiData w)))%nat ->
            buf !! (i + SF3_WRITE_EXTRA_BYTES)%nat
            = Some (pattern_byte (sf3_pattern_track_val (experiData w))
                      (sf3_pattern_incr_val (experiData w)) i))
}.

Record read_round (w w' : world D) : Prop := mk_read_round {
  rr_frame : data_frame (experiData w) (experiData w');
  rr_index :
    sf3_i_val (experiData w') = u32 (sf3_i_val (experiData w) + 1);
  rr_mode :
    operatingMode (experiData w')
    = if sf3_i_val (experiData w') <? experi_page_cnt_per_iter
      then ST_CMD_READ_START else ST_CMD_READ_DONE;
  rr_cursor :
    sf3_pattern_track_val (experiData w')
    = sf3_pattern_start_val (experiData w);
  rr_buffer : WriteBuffer (experiData w') = WriteBuffer (experiData w);
  rr_displays : keeps_displays w w';
  rr_device :
    exists buf : list Z,
      let r :=
        SF3_FlashRead (sf3Device w)
          (address_of sf3_page_addr_incr (experiData w))
          SF3_PAGE_SIZE SF3_COMMAND_RANDOM_READ buf in
      sf3Device w' = fst (fst r) /\ ReadBuffer (experiData w') = snd r;
  rr_err :
    is_byte (sf3_pattern_start_val (experiData w)) ->
    0 <= sf3_err_count_val (experiData w) < 4294967296 ->
    sf3_err_count_val (experiData w')
    = u32 (sf3_err_count_val (experiData w)
           + page_mismatches (ReadBuffer (experiData w'))
               (sf3_pattern_start_val (experiData w))
               (sf3_pattern_incr_val (experiData w)))
}.

Record erase_round (w w' : world D) : Prop := mk_erase_round {
  er_frame : data_frame (experiData w) (experiData w');
  er_index :
    sf3_i_val (experiData w') = u32 (sf3_i_val (experiData w) + 1);
  er_mode :
    operatingMode (experiData w')
    = if sf3_i_val (experiData w') <? experi_subsector_cnt_per_iter
      then ST_CMD_ERASE_START else ST_CMD_ERASE_DONE;
  er_cursor :
    sf3_pattern_track_val (experiData w')
    = sf3_pattern_track_val (experiData w);
  er_buffer : WriteBuffer (experiData w') = WriteBuffer (experiData w);
  er_err :
    sf3_err_count_val (experiData w') = sf3_err_count_val (experiData w);
  er_displays : keeps_displays w w';
  er_print :
    let a := address_of sf3_subsector_addr_incr (experiData w) in
    let r1 := SF3_FlashWriteEnable (sf3Device w) in
    let r2 := SF3_SectorErase (fst r1) a in
    sf3Device w' = fst r2
    /\ xQueuePrint w'
       = (xQueuePrint w
          ++ (if snd r1 =? XST_SUCCESS then []
              else [snprintf PRINTF_BUF_SZ "WEN Fail"])
          ++ (if snd r2 =? XST_SUCCESS then []
              else [snprintf PRINTF_BUF_SZ ("Ers Fail " +:+ fmt_08lx a)]))%list
}.

Record program_batch (k : nat) (w w' : world D) : Prop := mk_program_batch {
  pb_frame : data_frame (experiData w) (experiData w');
  pb_index :
    0 <= sf3_i_val (experiData w) ->
    sf3_i_val (experiData w) + Z.of_nat k <= experi_page_cnt_per_iter ->
    sf3_i_val (experiData w') = sf3_i_val (experiData w) + Z.of_nat k;
  pb_mode :
    k <> 0%nat ->
    operatingMode (experiData w')
    = if sf3_i_val (experiData w') <? experi_page_cnt_per_iter
      then ST_CMD_PAGE_START else ST_CMD_PAGE_DONE;
  pb_cursor :
    k <> 0%nat ->
    sf3_pattern_track_val (experiData w')
    = sf3_pattern_start_val (experiData w);
  pb_buffer :
    length (WriteBuffer (experiData w'))
    = length (WriteBuffer (experiData w));
  pb_err :
    sf3_err_count_val (experiData w') = sf3_err_count_val (experiData w);
  pb_displays : keeps_displays w w'
}.

Record read_batch (k : nat) (w w' : world D) : Prop := mk_read_batch {
  rb_frame : data_frame (experiData w) (experiData w');
  rb_index :
    0 <= sf3_i_val (experiData w) ->
    sf3_i_val (experiData w) + Z.of_nat k <= experi_page_cnt_per_iter ->
    sf3_i_val (experiData w') = sf3_i_val (experiData w) + Z.of_nat k;
  rb_mode :
    k <> 0%nat ->
    operatingMode (experiData w')
    = if sf3_i_val (experiData w') <? experi_page_cnt_per_iter
      then ST_CMD_READ_START else ST_CMD_READ_DONE;
  rb_cursor :
    k <> 0%nat ->
    sf3_pattern_track_val (experiData w')
    = sf3_pattern_start_val (experiData w);
  rb_buffer : WriteBuffer (experiData w') = WriteBuffer (experiData w);
  rb_displays : keeps_displays w w';
  rb_err :
    is_byte (sf3_pattern_start_val (experiData w)) ->
    0 <= sf3_err_count_val (experiData w) < 4294967296 ->
    exists m : Z,
      0 <= m <= Z.of_nat k * Z.of_nat SF3_PAGE_SIZE
      /\ sf3_err_count_val (experiData w')
         = u32 (sf3_err_count_val (experiData w) + m)
}.

(** ** The part of a round before the state machine *)

(** What the display function hands to the two queues. *)
Definition display_events (e : t_experiment_data) : list t_cls_lines * list string :=
  if cnt_t_freerun e mod (cnt_t_max / 15) =? 0 then
    ([mk_cls_lines (Experiment_generateTextLine1 e)
        (Experiment_generateTextLine2 e)],
     [snprintf PRINTF_BUF_SZ
        (Experiment_generateTextLine1 e +:+ " "
           +:+ Experiment_generateTextLine2 e)])
  else ([], []).

(** The part of a round that comes before the state machine. *)
Definition before_fsm (switches buttons : Z) (w : world D) : world D :=
  Experiment_readUserInputs switches buttons
    (Experiment_updateClsDisplayAndTerminal
       (Experiment_updateLedsStatuses (Experiment_updateLedsDisplayMode w))).

(** The step of the state machine in the modes that call no driver. *)
Definition fsm_pure (e : t_experiment_data) : t_experiment_data :=
  match operatingMode e with
  | ST_WAIT_BUTTON_DEP => fsm_WAIT_BUTTON_DEP e
  | ST_WAIT_BUTTON_REL => fsm_WAIT_BUTTON_REL e
  | ST_SET_PATTERN => fsm_SET_PATTERN e
  | ST_SET_START_ADDR => fsm_SET_START_ADDR e
  | ST_SET_START_WAIT => fsm_SET_START_WAIT e
  | ST_CMD_ERASE_DONE => fsm_DONE ST_CMD_ERASE_DONE ST_CMD_PAGE_START e
  | ST_CMD_PAGE_DONE => fsm_DONE ST_CMD_PAGE_DONE ST_CMD_READ_START e
  | ST_CMD_READ_DONE => fsm_DONE ST_CMD_READ_DONE ST_DISPLAY_FINAL e
  | ST_DISPLAY_FINAL => fsm_DISPLAY_FINAL e
  | OPERATING_MODE_NONE => set_operatingMode ST_WAIT_BUTTON_DEP e
  | _ => e
  end.

(** The data a round starts the state machine on: the inputs are stored,
    and the LED palettes are whatever the LED helpers left. *)
Definition with_inputs (switches buttons : Z)
    (leds : list t_rgb_led_palette_silk) (e : t_experiment_data)
    : t_experiment_data :=
  set_buttonsRead buttons (set_switchesRead switches (set_ledUpdate leds e)).

(** ** What a round of a pass leaves alone *)

Record pass_frame (e e' : t_experiment_data) : Prop := mk_pass_frame {
  pf_addr_start : sf3_addr_start_val e' = sf3_addr_start_val e;
  pf_start : sf3_pattern_start_val e' = sf3_pattern_start_val e;
  pf_incr : sf3_pattern_incr_val e' = sf3_pattern_incr_val e;
  pf_start_at_zero : sf3_start_at_zero e' = sf3_start_at_zero e;
  pf_selected : sf3_test_pattern_selected e' = sf3_test_pattern_selected e;
  pf_done : sf3_test_done e' = sf3_test_done e
}.

End ProofDefinitions.

(** * Devices *)

(** ** A fault-free flash

    The device is a map from page addresses to the page last programmed
    there. Every call succeeds; a page read returns exactly the bytes last
    programmed at its address (or an erased page, all [0xFF], when there are
    none), behind [SF3_READ_MIN_EXTRA_BYTES] header bytes; a sector erase
    removes the pages of the subsector. *)

Section Devices.

Context {hdr : PmodSF3_h}.

Definition erased_page : list Z := repeat 0xFF SF3_PAGE_SIZE.

Definition ideal_erase (d : gmap Z (list Z)) (addr : Z) : gmap Z (list Z) :=
  filter (fun kv : Z * list Z =>
            ~ (addr <= fst kv < addr + sf3_subsector_addr_incr)) d.

Definition ideal_program (d : gmap Z (list Z)) (addr : Z) (len : nat)
    (buf : list Z) : gmap Z (list Z) :=
  <[addr := take len (drop SF3_WRITE_EXTRA_BYTES buf)]> d.

Definition ideal_read (d : gmap Z (list Z)) (addr : Z) (len : nat) : list Z :=
  (repeat 0 SF3_READ_MIN_EXTRA_BYTES
   ++ take len (default erased_page (d !! addr)))%list.

#[global] Instance ideal_flash : PmodSF3_driver (gmap Z (list Z)) := {|
  SF3_FlashWriteEnable d := (d, XST_SUCCESS);
  SF3_SectorErase d addr := (ideal_erase d addr, XST_SUCCESS);
  SF3_FlashWrite d addr len cmd buf :=
    (ideal_program d addr len buf, XST_SUCCESS);
  SF3_FlashRead d addr len cmd buf := (d, XST_SUCCESS, ideal_read d addr len)
|}.

(** The first [n] pages of the region under test hold the pattern. *)
Definition flash_pages (w : world (gmap Z (list Z))) (n : Z) : Prop :=
  forall j : Z,
    0 <= j < n ->
    sf3Device w
      !! u32 (sf3_addr_start_val (experiData w) + u32 (j * sf3_page_addr_incr))
    = Some (pattern_page (sf3_pattern_start_val (experiData w))
              (sf3_pattern_incr_val (experiData w))).

(** Invariant of the controller on the fault-free flash. *)
Definition flash_inv (w : world (gmap Z (list Z))) : Prop :=
  Inv (experiData w)
  /\ sf3_err_count_val (experiData w) = 0
  /\ match operatingMode (experiData w) with
     | ST_CMD_PAGE_START => flash_pages w (sf3_i_val (experiData w))
     | ST_CMD_PAGE_DONE | ST_CMD_READ_START =>
         flash_pages w experi_page_cnt_per_iter
     | _ => True
     end.

(** ** A flash that stays erased

    Every call reports success, programming has no effect, and a read
    returns [0xFF] in every byte of the buffer. *)
#[global] Instance erased_flash : PmodSF3_driver unit := {|
  SF3_FlashWriteEnable d := (d, XST_SUCCESS);
  SF3_SectorErase d addr := (d, XST_SUCCESS);
  SF3_FlashWrite d addr len cmd buf := (d, XST_SUCCESS);
  SF3_FlashRead d addr len cmd buf :=
    (d, XST_SUCCESS,
     repeat 0xFF (SF3_PAGE_SIZE + SF3_READ_MIN_EXTRA_BYTES))
|}.

End Devices.

(** ** Header values for concrete runs

    A page of 256 bytes behind a command byte and three address bytes, and
    the command codes of page program and random read. *)
Definition example_header : PmodSF3_h := {|
  SF3_PAGE_SIZE := 256;
  SF3_WRITE_EXTRA_BYTES := 4;
  SF3_READ_MIN_EXTRA_BYTES := 4;
  SF3_COMMAND_PAGE_PROGRAM := 0x02;
  SF3_COMMAND_RANDOM_READ := 0x03
|}.

(** ** Concrete runs

    All on [example_header]. A pair of an input list is (switches,
    buttons). *)

Section ConcreteRuns.

#[local] Existing Instance example_header.

(** Button 0 is pressed and released: the round after is in
    [ST_SET_PATTERN] with pattern A selected. *)
Definition press_button_0 : list (Z * Z) := [(0, BTN0_MASK); (0, 0)].

(** The state in [ST_SET_PATTERN] before the first pass, on a flash that
    has never been programmed. *)
Definition first_pass_start : world (gmap Z (list Z)) :=
  task_rounds press_button_0 (initial_world ∅).

(** The same on the flash that stays erased. *)
Definition first_pass_start_erased : world unit :=
  task_rounds press_button_0 (initial_world tt).

(** The first pass up to its first round in [ST_CMD_ERASE_START], and up to
    its first round in [ST_CMD_PAGE_START], on the flash that stays
    erased. *)
Definition erase_phase_start : world unit :=
  task_rounds
    (press_button_0 ++ repeat (0, 0) 153) (initial_world tt).

Definition program_phase_start : world unit :=
  task_rounds
    (press_button_0 ++ repeat (0, 0) 709) (initial_world tt).

(** A whole first pass on the flash that stays erased, back to
    [ST_WAIT_BUTTON_DEP] (two rounds to latch pattern and region, 1135 to
    the first round of the read phase, that round, and 727 to the end of
    the dwell in [ST_DISPLAY_FINAL]), and button 0 again: the state is in
    [ST_SET_START_ADDR], about to begin the second pass. *)
Definition second_pass_inputs : list (Z * Z) :=
  press_button_0
  ++ (repeat (0, 0) 2 ++ repeat (0, 0) 1135 ++ [(0, 0)] ++ repeat (0, 0) 727)
  ++ press_button_0 ++ [(0, 0)].

Definition second_pass_start : world unit :=
  task_rounds second_pass_inputs (initial_world tt).

(** Buttons 0 and 1 are held together in the first round. *)
Definition two_buttons_held : world unit :=
  Experiment_readUserInputs 0 (BTN0_MASK + BTN1_MASK)
    (initial_world tt).

(** Button 0 is held while switch 1 is on. *)
Definition button_0_and_switch_1 : world unit :=
  Experiment_readUserInputs SWTCH1_MASK BTN0_MASK
    (initial_world tt).

(** The idle state with the last region behind. *)
Definition regions_exhausted : world unit :=
  upd (fun e =>
         set_sf3_start_at_zero false
           (set_sf3_addr_start_val last_starting_byte_addr e))
    (initial_world tt).

End ConcreteRuns.

(** * The control state of a pass

    From [ST_SET_START_WAIT] through [ST_DISPLAY_FINAL] the mode, the previous
    mode, the mode timer and the sub-operation index of the next round are
    a function of their present values alone. *)

Record control : Type := mk_control {
  c_mode : OPERATING_MODE_TAG;
  c_prev : OPERATING_MODE_TAG;
  c_cnt_t : Z;
  c_i_val : Z
}.

Definition control_of (e : t_experiment_data) : control :=
  mk_control (operatingMode e) (operatingModePrev e) (cnt_t e) (sf3_i_val e).

Definition pass_mode (m : OPERATING_MODE_TAG) : bool :=
  match m with
  | ST_SET_START_WAIT | ST_CMD_ERASE_START | ST_CMD_ERASE_DONE
  | ST_CMD_PAGE_START | ST_CMD_PAGE_DONE | ST_CMD_READ_START
  | ST_CMD_READ_DONE | ST_DISPLAY_FINAL => true
  | _ => false
  end.

(** Mode and index after one step of the state machine in a pass mode. *)
Definition control_fsm (c : control) : OPERATING_MODE_TAG * Z :=
  match c_mode c with
  | ST_SET_START_WAIT =>
      (if c_cnt_t c =? cnt_t_max / 2 then ST_CMD_ERASE_START
       else ST_SET_START_WAIT, c_i_val c)
  | ST_CMD_ERASE_START =>
      (if c_i_val c + 1 <? experi_subsector_cnt_per_iter
       then ST_CMD_ERASE_START else ST_CMD_ERASE_DONE, c_i_val c + 1)
  | ST_CMD_ERASE_DONE =>
      (if cnt_t_max - 1 <=? c_cnt_t c then ST_CMD_PAGE_START
       else ST_CMD_ERASE_DONE, 0)
  | ST_CMD_PAGE_START =>
      (if c_i_val c + 32 <? experi_page_cnt_per_iter
       then ST_CMD_PAGE_START else ST_CMD_PAGE_DONE, c_i_val c + 32)
  | ST_CMD_PAGE_DONE =>
      (if cnt_t_max - 1 <=? c_cnt_t c then ST_CMD_READ_START
       else ST_CMD_PAGE_DONE, 0)
  | ST_CMD_READ_START =>
      (if c_i_val c + 32 <? experi_page_cnt_per_iter
       then ST_CMD_READ_START else ST_CMD_READ_DONE, c_i_val c + 32)
  | ST_CMD_READ_DONE =>
      (if cnt_t_max - 1 <=? c_cnt_t c then ST_DISPLAY_FINAL
       else ST_CMD_READ_DONE, 0)
  | ST_DISPLAY_FINAL =>
      (if c_cnt_t c =? cnt_t_max - 1 then ST_WAIT_BUTTON_DEP
       else ST_DISPLAY_FINAL, c_i_val c)
  | m => (m, c_i_val c)
  end.

Definition control_round (c : control) : control :=
  let (m, i) := control_fsm c in
  mk_control m m
    (if decide (m = c_prev c) then u32 (c_cnt_t c + 1) mod cnt_t_max else 0)
    i.

(** [n] rounds, as long as every round starts in a pass mode. *)
Fixpoint control_rounds (n : nat) (c : control) : option control :=
  match n with
  | O => Some c
  | S n' =>
      if pass_mode (c_mode c) then control_rounds n' (control_round c)
      else None
  end.
(** * The LED driver layer: [led_pwm.c]

    The PWM driver of [PWM.h] is not among the sources: the state of the
    PWM blocks is the list of the calls made to it, oldest first. The base
    addresses of [xparameters.h] are parameters. *)

Class xparameters_h : Type := {
  XPAR_PWM_0_PWM_AXI_BASEADDR : Z;
  XPAR_PWM_1_PWM_AXI_BASEADDR : Z;
  XPAR_PMODCLS_0_AXI_LITE_SPI_BASEADDR : Z
}.

Inductive pwm_call : Type :=
| PWM_Set_Period (baseAddr clocks : Z)
| PWM_Set_Duty (baseAddr clocks pwmIndex : Z)
| PWM_Enable (baseAddr : Z).

#[global] Instance pwm_call_eq_dec : EqDecision pwm_call.
Proof. solve_decision. Defined.

(** ** Constants and types of [led_pwm.h] *)

Definition N_COLOR_PWMS : nat := 1.
Definition N_BASIC_PWMS : nat := 1.

Definition PWM_PERIOD_TEN_MILLISECOND : Z := 500000.
Definition PWM_DUTY_CYCLE_NINE_MILLISECOND : Z := 500000 * 9 / 10.
Definition PWM_DUTY_CYCLE_EIGHT_MILLISECOND : Z := 500000 * 8 / 10.
Definition PWM_DUTY_CYCLE_SEVEN_MILLISECOND : Z := 500000 * 7 / 10.
(** Of the header of the Arty A7 build, which the Zynq build shares. *)
Definition PWM_DUTY_CYCLE_FIVE_MILLISECOND : Z := 500000 * 5 / 10.

(** [t_color_pwm_constants], and [t_basic_pwm_constants], which is the same
    type. *)
Record t_color_pwm_constants : Type := mk_color_pwm_constants {
  pwm_baseAddr : Z;
  pwmPeriod : Z
}.

Record t_color_led_constants : Type := mk_color_led_constants {
  color_baseAddr : Z;
  color_pwmIndex : Z;
  color_maxDutyCycle : Z;
  filamentColor : ascii;
  color_silkLedIndex : Z
}.

Record t_basic_led_constants : Type := mk_basic_led_constants {
  basic_baseAddr : Z;
  basic_pwmIndex : Z;
  basic_maxDutyCycle : Z;
  basic_silkLedIndex : Z
}.

#[global] Instance t_color_pwm_constants_inhabited :
  Inhabited t_color_pwm_constants := populate (mk_color_pwm_constants 0 0).

#[global] Instance t_color_led_constants_inhabited :
  Inhabited t_color_led_constants :=
  populate (mk_color_led_constants 0 0 0 "000"%char 0).

#[global] Instance t_basic_led_constants_inhabited :
  Inhabited t_basic_led_constants := populate (mk_basic_led_constants 0 0 0 0).

(** The four constant tables of a build of [led_pwm.c]. *)
Class led_pwm_tables : Type := {
  c_color_pwms : list t_color_pwm_constants;
  c_color_leds : list t_color_led_constants;
  c_basic_pwms : list t_color_pwm_constants;
  c_basic_leds : list t_basic_led_constants
}.

Section LedPwmTables.

Context {xpar : xparameters_h}.

(** The tables of the Arty S7 build: two colour LEDs, silk 0 and 1, and
    four basic LEDs, silk 2 to 5. *)
Definition S7_tables : led_pwm_tables := {|
  c_color_pwms :=
    [mk_color_pwm_constants XPAR_PWM_0_PWM_AXI_BASEADDR
       PWM_PERIOD_TEN_MILLISECOND];
  c_color_leds :=
    [mk_color_led_constants XPAR_PWM_0_PWM_AXI_BASEADDR 0
       PWM_DUTY_CYCLE_SEVEN_MILLISECOND "r" 0;
     mk_color_led_constants XPAR_PWM_0_PWM_AXI_BASEADDR 1
       PWM_DUTY_CYCLE_SEVEN_MILLISECOND "g" 0;
     mk_color_led_constants XPAR_PWM_0_PWM_AXI_BASEADDR 2
       PWM_DUTY_CYCLE_SEVEN_MILLISECOND "b" 0;
     mk_color_led_constants XPAR_PWM_0_PWM_AXI_BASEADDR 3
       PWM_DUTY_CYCLE_SEVEN_MILLISECOND "r" 1;
     mk_color_led_constants XPAR_PWM_0_PWM_AXI_BASEADDR 4
       PWM_DUTY_CYCLE_SEVEN_MILLISECOND "g" 1;
     mk_color_led_constants XPAR_PWM_0_PWM_AXI_BASEADDR 5
       PWM_DUTY_CYCLE_SEVEN_MILLISECOND "b" 1];
  c_basic_pwms :=
    [mk_color_pwm_constants XPAR_PWM_1_PWM_AXI_BASEADDR
       PWM_PERIOD_TEN_MILLISECOND];
  c_basic_leds :=
    [mk_basic_led_constants XPAR_PWM_1_PWM_AXI_BASEADDR 0
       PWM_DUTY_CYCLE_NINE_MILLISECOND 2;
     mk_basic_led_constants XPAR_PWM_1_PWM_AXI_BASEADDR 1
       PWM_DUTY_CYCLE_NINE_MILLISECOND 3;
     mk_basic_led_constants XPAR_PWM_1_PWM_AXI_BASEADDR 2
       PWM_DUTY_CYCLE_NINE_MILLISECOND 4;
     mk_basic_led_constants XPAR_PWM_1_PWM_AXI_BASEADDR 3
       PWM_DUTY_CYCLE_NINE_MILLISECOND 5]
|}.

(** The tables of the Zynq build: two colour LEDs, silk 5 and 6, with the
    filaments on the PWM channels in the order blue, green, red, and four
    basic LEDs, silk 0 to 3. *)
Definition Zynq_tables : led_pwm_tables := {|
  c_color_pwms :=
    [mk_color_pwm_constants XPAR_PWM_0_PWM_AXI_BASEADDR
       PWM_PERIOD_TEN_MILLISECOND];
  c_color_leds :=
    [mk_color_led_constants XPAR_PWM_0_PWM_AXI_BASEADDR 2
       PWM_DUTY_CYCLE_FIVE_MILLISECOND "r" 5;
     mk_color_led_constants XPAR_PWM_0_PWM_AXI_BASEADDR 1
       PWM_DUTY_CYCLE_FIVE_MILLISECOND "g" 5;
     mk_color_led_constants XPAR_PWM_0_PWM_AXI_BASEADDR 0
       PWM_DUTY_CYCLE_FIVE_MILLISECOND "b" 5;
     mk_color_led_constants XPAR_PWM_0_PWM_AXI_BASEADDR 5
       PWM_DUTY_CYCLE_FIVE_MILLISECOND "r" 6;
     mk_color_led_constants XPAR_PWM_0_PWM_AXI_BASEADDR 4
       PWM_DUTY_CYCLE_FIVE_MILLISECOND "g" 6;
     mk_color_led_constants XPAR_PWM_0_PWM_AXI_BASEADDR 3
       PWM_DUTY_CYCLE_FIVE_MILLISECOND "b" 6];
  c_basic_pwms :=
    [mk_color_pwm_constants XPAR_PWM_1_PWM_AXI_BASEADDR
       PWM_PERIOD_TEN_MILLISECOND];
  c_basic_leds :=
    [mk_basic_led_constants XPAR_PWM_1_PWM_AXI_BASEADDR 0
       PWM_DUTY_CYCLE_NINE_MILLISECOND 0;
     mk_basic_led_constants XPAR_PWM_1_PWM_AXI_BASEADDR 1
       PWM_DUTY_CYCLE_NINE_MILLISECOND 1;
     mk_basic_led_constants XPAR_PWM_1_PWM_AXI_BASEADDR 2
       PWM_DUTY_CYCLE_NINE_MILLISECOND 2;
     mk_basic_led_constants XPAR_PWM_1_PWM_AXI_BASEADDR 3
       PWM_DUTY_CYCLE_NINE_MILLISECOND 3]
|}.

End LedPwmTables.

(** ** The functions of [led_pwm.c]

    The text of the functions is the same in the two builds; they differ in
    the tables. *)

Section LedPwm.

Context {tbl : led_pwm_tables}.

Definition InitColorLedsOff (pwm : list pwm_call) : list pwm_call :=
  let pwm :=
    for_loop 0 N_COLOR_PWMS
      (fun i pwm =>
         (pwm ++ [PWM_Set_Period (pwm_baseAddr (c_color_pwms !!! i))
                    (pwmPeriod (c_color_pwms !!! i))])%list) pwm in
  let pwm :=
    for_loop 0 N_COLOR_LEDS
      (fun i pwm =>
         (pwm ++ [PWM_Set_Duty (color_baseAddr (c_color_leds !!! i)) 0
                    (color_pwmIndex (c_color_leds !!! i))])%list) pwm in
  for_loop 0 N_COLOR_PWMS
    (fun i pwm =>
       (pwm ++ [PWM_Enable (pwm_baseAddr (c_color_pwms !!! i))])%list) pwm.

Definition InitBasicLedsOff (pwm : list pwm_call) : list pwm_call :=
  let pwm :=
    for_loop 0 N_BASIC_PWMS
      (fun i pwm =>
         (pwm ++ [PWM_Set_Period (pwm_baseAddr (c_basic_pwms !!! i))
                    (pwmPeriod (c_basic_pwms !!! i))])%list) pwm in
  let pwm :=
    for_loop 0 N_BASIC_LEDS
      (fun i pwm =>
         (pwm ++ [PWM_Set_Duty (basic_baseAddr (c_basic_leds !!! i)) 0
                    (basic_pwmIndex (c_basic_leds !!! i))])%list) pwm in
  for_loop 0 N_BASIC_PWMS
    (fun i pwm =>
       (pwm ++ [PWM_Enable (pwm_baseAddr (c_basic_pwms !!! i))])%list) pwm.

Definition InitAllLedsOff (pwm : list pwm_call) : list pwm_call :=
  InitBasicLedsOff (InitColorLedsOff pwm).

(** [for (i = 0; (i < N_COLOR_LEDS) && ret; ++i)]: the state of the loop is
    the PWM state and [ret]; once [ret] is zero the condition of the loop
    fails, and no later round does anything. The product of the duty
    computation is one of [u32]. *)
Definition SetColorLedPercent (ledSilk : Z) (color : ascii) (percentFixPt : Z)
    (pwm : list pwm_call) : list pwm_call * Z :=
  for_loop 0 N_COLOR_LEDS
    (fun i s =>
       if snd s =? 0 then s
       else
         let led := c_color_leds !!! i in
         if color_silkLedIndex led =? ledSilk then
           if Ascii.eqb (filamentColor led) color then
             let dutyClocks :=
               u32 (percentFixPt * color_maxDutyCycle led) / 1000 in
             ((fst s ++ [PWM_Set_Duty (color_baseAddr led) dutyClocks
                           (color_pwmIndex led)])%list, 0)
           else s
         else s)
    (pwm, 1).

Definition SetBasicLedPercent (ledSilk : Z) (percentFixPt : Z)
    (pwm : list pwm_call) : list pwm_call * Z :=
  for_loop 0 N_BASIC_LEDS
    (fun i s =>
       if snd s =? 0 then s
       else
         let led := c_basic_leds !!! i in
         if basic_silkLedIndex led =? ledSilk then
           let dutyClocks :=
             u32 (percentFixPt * basic_maxDutyCycle led) / 1000 in
           ((fst s ++ [PWM_Set_Duty (basic_baseAddr led) dutyClocks
                         (basic_pwmIndex led)])%list, 0)
         else s)
    (pwm, 1).

(** The three calls are made whatever the earlier ones return. The palette
    members are of [u8], so that the products are computed in [int] and do
    not wrap. *)
Definition SetRgbPaletteLed (ledSilk : Z) (palette : t_rgb_led_palette)
    (pwm : list pwm_call) : list pwm_call * Z :=
  let r0 := SetColorLedPercent ledSilk "r" (paletteRed palette * 1000 / 255) pwm in
  let r1 :=
    SetColorLedPercent ledSilk "g" (paletteGreen palette * 1000 / 255) (fst r0) in
  let r2 :=
    SetColorLedPercent ledSilk "b" (paletteBlue palette * 1000 / 255) (fst r1) in
  (fst r2,
   if negb (snd r0 =? 0) || negb (snd r1 =? 0) || negb (snd r2 =? 0)
   then 1 else 0).

End LedPwm.

(** [WaitLedPeriodTimerTick] of the Zynq build: the new value of
    [*waitTimer] and the value returned. *)
Definition WaitLedPeriodTimerTick (elapsed waitLoad waitTimer : Z) : Z * Z :=
  if elapsed <? waitTimer then (u32 (waitTimer - elapsed), 1)
  else (u32 (waitLoad - u32 (elapsed - waitTimer)), 0).

(** * The tasks of [freertos_main.c]

    A task that blocks on a queue is modelled by its initialisation and by
    one round of its loop for the item received. The driver of the PMOD
    CLS display is not among the sources: the state of the display is the
    list of the calls made to it. *)

Inductive cls_call : Type :=
| CLS_begin (baseAddr : Z)
| CLS_DisplayClear
| CLS_WriteStringAtPos (idxRow idxCol : Z) (strLn : string).

(** [strnlen (s, maxlen)] *)
Definition strnlen (s : string) (maxlen : nat) : nat :=
  Nat.min (String.length s) maxlen.

Section Tasks.

Context {xpar : xparameters_h}.

(** [freertos_main.c] is of the Arty S7 build. *)
#[local] Existing Instance S7_tables.

(** One round of the loop of [prvLedTask], for the item received. *)
Definition prvLedTask_round (currLedConfig : t_rgb_led_palette_silk)
    (pwm : list pwm_call) : list pwm_call :=
  if ledSilk currLedConfig <? 2 then
    fst (SetRgbPaletteLed (ledSilk currLedConfig) (rgb currLedConfig) pwm)
  else if ledSilk currLedConfig <? 6 then
    fst (SetBasicLedPercent (ledSilk currLedConfig)
           (paletteGreen (rgb currLedConfig)) pwm)
  else pwm.

(** [prvLedTask] for the items received so far, in the order of their
    arrival. *)
Definition prvLedTask (received : list t_rgb_led_palette_silk)
    (pwm : list pwm_call) : list pwm_call :=
  fold_left (fun pwm item => prvLedTask_round item pwm) received
    (InitAllLedsOff pwm).

(** One round of the loop of [prvClsTask], for the item received. *)
Definition prvClsTask_round (clsLines : t_cls_lines) (cls : list cls_call)
    : list cls_call :=
  if (strnlen (line1 clsLines) 16 =? 0)%nat
     && (strnlen (line2 clsLines) 16 =? 0)%nat
  then (cls ++ [CLS_DisplayClear])%list
  else
    (cls ++ [CLS_DisplayClear;
             CLS_WriteStringAtPos 0 0 (line1 clsLines);
             CLS_WriteStringAtPos 1 0 (line2 clsLines)])%list.

Definition prvClsTask (received : list t_cls_lines) (cls : list cls_call)
    : list cls_call :=
  fold_left (fun cls item => prvClsTask_round item cls) received
    (cls ++ [CLS_begin XPAR_PMODCLS_0_AXI_LITE_SPI_BASEADDR;
             CLS_DisplayClear])%list.

End Tasks.

(** * Observations used by the statements *)

(** ** Reading the text lines back *)

Definition digit_value (c : ascii) : Z :=
  match find (fun d => Ascii.eqb (digit_char (Z.of_nat d)) c) (seq 0 16) with
  | Some d => Z.of_nat d
  | None => 0
  end.

(** The number that a string of digits denotes in a base. *)
Definition digits_value (base : Z) (s : string) : Z :=
  fold_left (fun acc c => acc * base + digit_value c)
    (list_ascii_of_string s) 0.

(** ** The duty cycle of a PWM channel

    The clocks of the last [PWM_Set_Duty] of a channel, if there is one. *)
Fixpoint duty_of (pwm : list pwm_call) (baseAddr pwmIndex : Z) : option Z :=
  match pwm with
  | [] => None
  | c :: pwm' =>
      match duty_of pwm' baseAddr pwmIndex with
      | Some d => Some d
      | None =>
          match c with
          | PWM_Set_Duty b d i =>
              if (b =? baseAddr) && (i =? pwmIndex) then Some d else None
          | _ => None
          end
      end
  end.

Definition is_duty_call (c : pwm_call) : bool :=
  match c with
  | PWM_Set_Duty _ _ _ => true
  | _ => false
  end.

(** ** A driver that records its calls

    The device state is the list of the calls received, oldest first. The
    status of a call and the data of a read are any functions of the calls
    received so far: every driver whose answers depend on nothing but the
    calls made to it is of this form. *)

Inductive sf3_call : Type :=
| call_FlashWriteEnable
| call_SectorErase (addr : Z)
| call_FlashWrite (addr : Z) (len : nat) (cmd : Z) (buf : list Z)
| call_FlashRead (addr : Z) (len : nat) (cmd : Z).

Definition recording_driver (status : list sf3_call -> Z)
    (data : list sf3_call -> list Z) : PmodSF3_driver (list sf3_call) := {|
  SF3_FlashWriteEnable d :=
    let d := (d ++ [call_FlashWriteEnable])%list in (d, status d);
  SF3_SectorErase d addr :=
    let d := (d ++ [call_SectorErase addr])%list in (d, status d);
  SF3_FlashWrite d addr len cmd buf :=
    let d := (d ++ [call_FlashWrite addr len cmd buf])%list in (d, status d);
  SF3_FlashRead d addr len cmd buf :=
    let d := (d ++ [call_FlashRead addr len cmd])%list in
    (d, status d, data d)
|}.

Section CallProperties.

Context {hdr : PmodSF3_h}.

(** The address of a call lies in the device and on the boundary of its
    unit, and a transfer is of one page. *)
Definition call_in_device (c : sf3_call) : Prop :=
  match c with
  | call_FlashWriteEnable => True
  | call_SectorErase addr =>
      0 <= addr /\ addr + sf3_subsector_addr_incr <= max_possible_byte_count
      /\ addr mod sf3_subsector_addr_incr = 0
  | call_FlashWrite addr len cmd buf =>
      0 <= addr /\ addr + sf3_page_addr_incr <= max_possible_byte_count
      /\ addr mod sf3_page_addr_incr = 0
      /\ len = SF3_PAGE_SIZE /\ cmd = SF3_COMMAND_PAGE_PROGRAM
      /\ length buf = (SF3_PAGE_SIZE + SF3_WRITE_EXTRA_BYTES)%nat
  | call_FlashRead addr len cmd =>
      0 <= addr /\ addr + sf3_page_addr_incr <= max_possible_byte_count
      /\ addr mod sf3_page_addr_incr = 0
      /\ len = SF3_PAGE_SIZE /\ cmd = SF3_COMMAND_RANDOM_READ
  end.

End CallProperties.

Definition changes_flash (c : sf3_call) : bool :=
  match c with
  | call_SectorErase _ | call_FlashWrite _ _ _ _ => true
  | _ => false
  end.

(** Every erase and every program comes right after a write enable. *)
Definition write_enabled (d : list sf3_call) : Prop :=
  forall (i : nat) (c : sf3_call),
    d !! i = Some c -> changes_flash c = true ->
    exists j : nat, i = S j /\ d !! j = Some call_FlashWriteEnable.

(** ** The calls of a pass

    A call without the contents of its buffer. *)
Definition forget_buffer (c : sf3_call) : sf3_call :=
  match c with
  | call_FlashWrite addr len cmd _ => call_FlashWrite addr len cmd []
  | c => c
  end.

Section PassCalls.

Context {hdr : PmodSF3_h}.

(** The calls that erase the subsectors, program the pages and read the
    pages [from], ..., [from + n - 1] of the region at [start]. *)
Definition erase_calls (start : Z) (from n : nat) : list sf3_call :=
  flat_map
    (fun j =>
       [call_FlashWriteEnable;
        call_SectorErase (start + Z.of_nat j * sf3_subsector_addr_incr)])
    (seq from n).

Definition program_calls (start : Z) (from n : nat) : list sf3_call :=
  flat_map
    (fun j =>
       [call_FlashWriteEnable;
        call_FlashWrite (start + Z.of_nat j * sf3_page_addr_incr)
          SF3_PAGE_SIZE SF3_COMMAND_PAGE_PROGRAM []])
    (seq from n).

Definition read_calls (start : Z) (from n : nat) : list sf3_call :=
  map
    (fun j =>
       call_FlashRead (start + Z.of_nat j * sf3_page_addr_incr)
         SF3_PAGE_SIZE SF3_COMMAND_RANDOM_READ)
    (seq from n).

(** How far a pass has come, as the mode and the index tell. *)
Definition erased_so_far (e : t_experiment_data) : nat :=
  match operatingMode e with
  | ST_SET_START_WAIT => 0
  | ST_CMD_ERASE_START => Z.to_nat (sf3_i_val e)
  | _ => Z.to_nat experi_subsector_cnt_per_iter
  end.

Definition programmed_so_far (e : t_experiment_data) : nat :=
  match operatingMode e with
  | ST_SET_START_WAIT | ST_CMD_ERASE_START | ST_CMD_ERASE_DONE => 0
  | ST_CMD_PAGE_START => Z.to_nat (sf3_i_val e)
  | _ => Z.to_nat experi_page_cnt_per_iter
  end.

Definition read_so_far (e : t_experiment_data) : nat :=
  match operatingMode e with
  | ST_SET_START_WAIT | ST_CMD_ERASE_START | ST_CMD_ERASE_DONE
  | ST_CMD_PAGE_START | ST_CMD_PAGE_DONE => 0
  | ST_CMD_READ_START => Z.to_nat (sf3_i_val e)
  | _ => Z.to_nat experi_page_cnt_per_iter
  end.

Definition pass_calls (e : t_experiment_data) : list sf3_call :=
  (erase_calls (sf3_addr_start_val e) 0 (erased_so_far e)
   ++ program_calls (sf3_addr_start_val e) 0 (programmed_so_far e)
   ++ read_calls (sf3_addr_start_val e) 0 (read_so_far e))%list.

(** The calls since the driver had received [before] are those of the
    pass as far as it has come. *)
Definition pass_calls_inv (before : list sf3_call)
    (w : world (list sf3_call)) : Prop :=
  exists calls : list sf3_call,
    sf3Device w = (before ++ calls)%list
    /\ map forget_buffer calls = pass_calls (experiData w).

End PassCalls.

Definition calls_ok {hdr : PmodSF3_h} (d : list sf3_call) : Prop :=
  Forall call_in_device d /\ write_enabled d.

(** ** The verdict flags

    [sf3_test_pass] is as old as the last round in [ST_DISPLAY_FINAL]: it
    lags behind the error count during the read phase and in the round
    that enters [ST_DISPLAY_FINAL]. *)
Definition verdict_pending (e : t_experiment_data) : Prop :=
  operatingMode e = ST_CMD_READ_START
  \/ operatingMode e = ST_CMD_READ_DONE
  \/ (operatingMode e = ST_DISPLAY_FINAL /\ cnt_t e = 0).

Record verdict_inv (e : t_experiment_data) : Prop := mk_verdict_inv {
  vi_prev : operatingModePrev e = operatingMode e;
  vi_done :
    sf3_test_done e = true ->
    operatingMode e = ST_WAIT_BUTTON_DEP
    /\ sf3_addr_start_val e = last_starting_byte_addr;
  vi_pass :
    sf3_test_pass e = true ->
    sf3_err_count_val e = 0 \/ verdict_pending e
}.

(** What the step of the state machine establishes for the flags, before
    the timer runs. *)
Definition verdict_step (e1 : t_experiment_data) : Prop :=
  (sf3_test_done e1 = true ->
   operatingMode e1 = ST_WAIT_BUTTON_DEP
   /\ sf3_addr_start_val e1 = last_starting_byte_addr)
  /\ (sf3_test_pass e1 = true ->
      sf3_err_count_val e1 = 0
      \/ operatingMode e1 = ST_CMD_READ_START
      \/ operatingMode e1 = ST_CMD_READ_DONE
      \/ (operatingMode e1 = ST_DISPLAY_FINAL
          /\ operatingModePrev e1 <> ST_DISPLAY_FINAL)).

(** The palette item of an LED. *)
Definition led_item (silk red green blue : Z) : t_rgb_led_palette_silk :=
  mk_rgb_led_palette_silk (mk_rgb_led_palette red green blue) silk.

(** The pattern that a switch mask selects when no button is held. *)
Definition pattern_of_switch (switches : Z) : TEST_PATTERN_TAG :=
  if switches =? SWTCH0_MASK then TEST_PATTERN_A
  else if switches =? SWTCH1_MASK then TEST_PATTERN_B
  else if switches =? SWTCH2_MASK then TEST_PATTERN_C
  else if switches =? SWTCH3_MASK then TEST_PATTERN_D
  else TEST_PATTERN_NONE.

(** The state machine idles with [k] passes behind it. *)
Definition idle_after (k : nat) (e : t_experiment_data) : Prop :=
  operatingMode e = ST_WAIT_BUTTON_DEP
  /\ match k with
     | O => sf3_start_at_zero e = true /\ sf3_addr_start_val e = 0
     | S k' =>
         sf3_start_at_zero e = false
         /\ sf3_addr_start_val e = Z.of_nat k' * per_iteration_byte_count
     end.

(** The place of a filament among the three of a colour LED, in the
    order red, green, blue. *)
Definition filament_offset (color : ascii) : Z :=
  if Ascii.eqb color "r" then 0 else if Ascii.eqb color "g" then 1 else 2.

Definition is_filament (color : ascii) : bool :=
  Ascii.eqb color "r" || Ascii.eqb color "g" || Ascii.eqb color "b".

(** ** The timeline of a pass

    The mode at the start of round [n], counted from the round that
    starts in [ST_SET_START_WAIT] with the mode timer at zero. *)
Definition phase_of_round (n : nat) : OPERATING_MODE_TAG :=
  if (n <? 151)%nat then ST_SET_START_WAIT
  else if (n <? 407)%nat then ST_CMD_ERASE_START
  else if (n <? 707)%nat then ST_CMD_ERASE_DONE
  else if (n <? 835)%nat then ST_CMD_PAGE_START
  else if (n <? 1135)%nat then ST_CMD_PAGE_DONE
  else if (n <? 1263)%nat then ST_CMD_READ_START
  else if (n <? 1563)%nat then ST_CMD_READ_DONE
  else if (n <? 1863)%nat then ST_DISPLAY_FINAL
  else ST_WAIT_BUTTON_DEP.

(** The control states of the rounds [k], ..., [k + n] from [c] on are in
    the modes of the timeline. *)
Fixpoint timeline_from (n k : nat) (c : control) : bool :=
  bool_decide (c_mode c = phase_of_round k)
  && match n with
     | O => true
     | S n' => pass_mode (c_mode c) && timeline_from n' (S k) (control_round c)
     end.

(** Example values for the base addresses. *)
Definition example_xparameters : xparameters_h := {|
  XPAR_PWM_0_PWM_AXI_BASEADDR := 0x44A20000;
  XPAR_PWM_1_PWM_AXI_BASEADDR := 0x44A30000;
  XPAR_PMODCLS_0_AXI_LITE_SPI_BASEADDR := 0x44A00000
|}.


(** ** More concrete runs *)

Section MoreConcreteRuns.

#[local] Existing Instance example_header.

(** Switch 0 is left on from power-on, on the flash that stays erased,
    until all regions are done. *)
Definition all_regions_done : world unit :=
  task_rounds (repeat (SWTCH0_MASK, 0) (32 * 1867 + 1)) (initial_world tt).

(** The first pass on the fault-free flash, up to the round that follows
    the first one in [ST_DISPLAY_FINAL]. *)
Definition first_verdict : world (gmap Z (list Z)) :=
  task_round 0 0 (task_rounds (repeat (0, 0) 1565) first_pass_start).

(** Button 0 is pressed and released at power-on on a driver that records
    its calls, answers each one with a failure status and returns no data:
    the world is the one of the round that selects pattern A. *)
Definition first_pass_start_recorded : world (list sf3_call) :=
  task_rounds (drv := recording_driver (fun _ => 1) (fun _ => []))
    press_button_0 (initial_world []).

(** A palette of orange. *)
Definition example_palette : t_rgb_led_palette :=
  mk_rgb_led_palette 255 128 0.

End MoreConcreteRuns.

(** * Proofs *)

(** ** Loops *)

Lemma for_loop_step {S : Type} (from to : nat) (body : nat -> S -> S) (s : S) :
  (from <= to)%nat ->
  for_loop from (Datatypes.S to) body s = body to (for_loop from to body s).
Proof.
  intros Hle. unfold for_loop.
  replace (Datatypes.S to - from)%nat with ((to - from) + 1)%nat by lia.
  rewrite seq_app, fold_left_app. simpl.
  replace (from + (to - from))%nat with to by lia. reflexivity.
Qed.

Lemma for_loop_empty {S : Type} (from : nat) (body : nat -> S -> S) (s : S) :
  for_loop from from body s = s.
Proof. unfold for_loop. rewrite Nat.sub_diag. reflexivity. Qed.

(** Loop invariants: [P i s] holds of the state [s] before round [i]. *)
Lemma for_loop_ind {S : Type} (P : nat -> S -> Prop) (from to : nat)
    (body : nat -> S -> S) (s : S) :
  (from <= to)%nat ->
  P from s ->
  (forall i s', (from <= i < to)%nat -> P i s' -> P (Datatypes.S i) (body i s')) ->
  P to (for_loop from to body s).
Proof.
  intros Hle H0 Hstep. induction to as [|to IH].
  - assert (from = 0%nat) as -> by lia. rewrite for_loop_empty. exact H0.
  - destruct (decide (from = Datatypes.S to)) as [->|Hne].
    + rewrite for_loop_empty. exact H0.
    + rewrite for_loop_step by lia. apply Hstep; [lia|].
      apply IH; [lia|]. intros i s' Hi. apply Hstep. lia.
Qed.

(** ** Machine integers *)

Lemma u32_small (z : Z) : 0 <= z < 4294967296 -> u32 z = z.
Proof. intros H. unfold u32. apply Z.mod_small. exact H. Qed.

Lemma u32_range (z : Z) : 0 <= u32 z < 4294967296.
Proof. unfold u32. apply Z.mod_pos_bound. lia. Qed.

Lemma u32_le (z : Z) : 0 <= z -> u32 z <= z.
Proof. intros H. unfold u32. apply Z.mod_le; lia. Qed.

Lemma u8_range (z : Z) : is_byte (u8 z).
Proof. unfold is_byte, u8. apply Z.mod_pos_bound. lia. Qed.

Lemma u32_add_idemp_l (a b : Z) : u32 (u32 a + b) = u32 (a + b).
Proof. unfold u32. apply Zplus_mod_idemp_l. Qed.

Lemma pattern_byte_0 (c s : Z) : is_byte c -> pattern_byte c s 0 = c.
Proof.
  intros H. unfold pattern_byte. simpl. rewrite Z.add_0_r.
  apply Z.mod_small. exact H.
Qed.

Lemma pattern_byte_S (c s : Z) (i : nat) :
  u8 (pattern_byte c s i + s) = pattern_byte c s (S i).
Proof.
  unfold u8, pattern_byte. rewrite Zplus_mod_idemp_l. f_equal. lia.
Qed.

Lemma pattern_byte_range (c s : Z) (i : nat) : is_byte (pattern_byte c s i).
Proof. unfold is_byte, pattern_byte. apply Z.mod_pos_bound. lia. Qed.

(** ** Records *)

(** Projections of updated records, reduced without unfolding anything
    else. *)
Ltac rsimpl :=
  cbn [
    ledUpdate comString operatingMode operatingModePrev
    sf3_start_at_zero sf3_addr_start_val sf3_test_pattern_selected
    sf3_pattern_start_val sf3_pattern_incr_val sf3_pattern_track_val
    sf3_test_pass sf3_test_done sf3_err_count_val switchesRead
    buttonsRead cnt_t cnt_t_freerun sf3_i_val sf3_address_of_cmd
    WriteBuffer ReadBuffer set_ledUpdate set_comString
    set_operatingMode set_operatingModePrev set_sf3_start_at_zero
    set_sf3_addr_start_val set_sf3_test_pattern_selected
    set_sf3_pattern_start_val set_sf3_pattern_incr_val
    set_sf3_pattern_track_val set_sf3_test_pass set_sf3_test_done
    set_sf3_err_count_val set_switchesRead set_buttonsRead set_cnt_t
    set_cnt_t_freerun set_sf3_i_val set_sf3_address_of_cmd
    set_WriteBuffer set_ReadBuffer upd set_sf3Device xQueueSend_Print
    xQueueSend_LedConfig xQueueSend_ClsDispl experiData sf3Device
    xQueuePrint xQueueLedConfig xQueueClsDispl fst snd
  ].

Ltac rsimpl_in H :=
  cbn [
    ledUpdate comString operatingMode operatingModePrev
    sf3_start_at_zero sf3_addr_start_val sf3_test_pattern_selected
    sf3_pattern_start_val sf3_pattern_incr_val sf3_pattern_track_val
    sf3_test_pass sf3_test_done sf3_err_count_val switchesRead
    buttonsRead cnt_t cnt_t_freerun sf3_i_val sf3_address_of_cmd
    WriteBuffer ReadBuffer set_ledUpdate set_comString
    set_operatingMode set_operatingModePrev set_sf3_start_at_zero
    set_sf3_addr_start_val set_sf3_test_pattern_selected
    set_sf3_pattern_start_val set_sf3_pattern_incr_val
    set_sf3_pattern_track_val set_sf3_test_pass set_sf3_test_done
    set_sf3_err_count_val set_switchesRead set_buttonsRead set_cnt_t
    set_cnt_t_freerun set_sf3_i_val set_sf3_address_of_cmd
    set_WriteBuffer set_ReadBuffer upd set_sf3Device xQueueSend_Print
    xQueueSend_LedConfig xQueueSend_ClsDispl experiData sf3Device
    xQueuePrint xQueueLedConfig xQueueClsDispl fst snd
  ] in H.

(** Equations between a record and a short chain of updates of another one
    are closed by taking the records apart. *)
Ltac frame_eq :=
  repeat match goal with
         | e : t_experiment_data |- _ => destruct e
         end;
  unfold
    set_ledUpdate, set_comString, set_operatingMode,
    set_operatingModePrev, set_sf3_start_at_zero,
    set_sf3_addr_start_val, set_sf3_test_pattern_selected,
    set_sf3_pattern_start_val, set_sf3_pattern_incr_val,
    set_sf3_pattern_track_val, set_sf3_test_pass, set_sf3_test_done,
    set_sf3_err_count_val, set_switchesRead, set_buttonsRead, set_cnt_t,
    set_cnt_t_freerun, set_sf3_i_val, set_sf3_address_of_cmd,
    set_WriteBuffer, set_ReadBuffer in *;
  cbn in *;
  repeat match goal with
         | H : @eq t_experiment_data _ _ |- _ =>
             injection H; clear H; intros; subst
         end;
  reflexivity.

Section Loops.

Context {hdr : PmodSF3_h}.

(** *** The fill loop *)

Lemma fill_WriteBuffer_inv (e : t_experiment_data) :
  fill_inv e SF3_PAGE_SIZE (fill_WriteBuffer e).
Proof.
  unfold fill_WriteBuffer.
  apply (for_loop_ind (fill_inv e)); [lia| |].
  - split; [frame_eq|]. split; [reflexivity|]. intros Hb.
    split; [symmetry; apply pattern_byte_0; exact Hb|]. intros i Hi. lia.
  - intros k s Hk (Hfr & Hlen & Hval). split; [|split].
    + cbn. frame_eq.
    + cbn. rewrite length_insert. exact Hlen.
    + intros Hb. destruct (Hval Hb) as [Htr Hpre]. cbn. split.
      * assert (sf3_pattern_incr_val s = sf3_pattern_incr_val e) as ->
          by (rewrite Hfr; reflexivity).
        rewrite Htr. apply pattern_byte_S.
      * intros i Hi Hin. destruct (decide (i = k)) as [->|Hne].
        -- rewrite list_lookup_insert_eq by lia. rewrite Htr. reflexivity.
        -- rewrite list_lookup_insert_ne by lia. apply Hpre; lia.
Qed.

Lemma fill_WriteBuffer_frame (e : t_experiment_data) :
  fill_WriteBuffer e
  = set_WriteBuffer (WriteBuffer (fill_WriteBuffer e))
      (set_sf3_pattern_track_val (sf3_pattern_track_val (fill_WriteBuffer e)) e).
Proof. apply (fill_WriteBuffer_inv e). Qed.

Lemma fill_WriteBuffer_length (e : t_experiment_data) :
  length (WriteBuffer (fill_WriteBuffer e)) = length (WriteBuffer e).
Proof. apply (fill_WriteBuffer_inv e). Qed.

Lemma fill_WriteBuffer_lookup (e : t_experiment_data) (i : nat) :
  is_byte (sf3_pattern_track_val e) ->
  (i < SF3_PAGE_SIZE)%nat ->
  (i + SF3_WRITE_EXTRA_BYTES < length (WriteBuffer e))%nat ->
  WriteBuffer (fill_WriteBuffer e) !! (i + SF3_WRITE_EXTRA_BYTES)%nat
  = Some (pattern_byte (sf3_pattern_track_val e) (sf3_pattern_incr_val e) i).
Proof.
  intros Hb Hi Hin. destruct (fill_WriteBuffer_inv e) as (_ & _ & H).
  destruct (H Hb) as [_ Hpre]. apply Hpre; assumption.
Qed.

Lemma fill_WriteBuffer_track (e : t_experiment_data) :
  is_byte (sf3_pattern_track_val e) ->
  sf3_pattern_track_val (fill_WriteBuffer e)
  = pattern_byte (sf3_pattern_track_val e) (sf3_pattern_incr_val e) SF3_PAGE_SIZE.
Proof.
  intros Hb. destruct (fill_WriteBuffer_inv e) as (_ & _ & H).
  apply (H Hb).
Qed.

(** *** The clearing loop *)

Lemma clear_ReadBuffer_frame (e : t_experiment_data) :
  clear_ReadBuffer e = set_ReadBuffer (ReadBuffer (clear_ReadBuffer e)) e.
Proof.
  unfold clear_ReadBuffer.
  apply (for_loop_ind (fun _ s => s = set_ReadBuffer (ReadBuffer s) e)); [lia| |].
  - frame_eq.
  - intros k s _ Hfr. cbn. frame_eq.
Qed.

(** *** The compare loop *)

Lemma mismatches_upto_S (buf : list Z) (c s : Z) (k : nat) :
  mismatches_upto buf c s (S k)
  = mismatches_upto buf c s k
    + (if buf !!! (k + SF3_READ_MIN_EXTRA_BYTES)%nat =? pattern_byte c s k
       then 0 else 1).
Proof.
  unfold mismatches_upto. rewrite seq_S, filter_app, length_app. simpl.
  rewrite filter_cons, filter_nil.
  destruct (Z.eqb_spec (buf !!! (k + SF3_READ_MIN_EXTRA_BYTES)%nat)
              (pattern_byte c s k)) as [Heq|Hne].
  - rewrite decide_False by (intros H; apply H; exact Heq). simpl. lia.
  - rewrite decide_True by exact Hne. simpl. lia.
Qed.

Lemma mismatches_upto_bounds (buf : list Z) (c s : Z) (k : nat) :
  0 <= mismatches_upto buf c s k <= Z.of_nat k.
Proof.
  unfold mismatches_upto. split; [lia|].
  pose proof (length_filter
                (fun i : nat =>
                   buf !!! (i + SF3_READ_MIN_EXTRA_BYTES)%nat
                   <> pattern_byte c s i) (seq 0 k)) as H.
  rewrite length_seq in H. lia.
Qed.

Lemma compare_ReadBuffer_inv (e : t_experiment_data) :
  compare_inv e SF3_PAGE_SIZE (compare_ReadBuffer e).
Proof.
  unfold compare_ReadBuffer.
  apply (for_loop_ind (compare_inv e)); [lia| |].
  - split; [frame_eq|]. intros Hb He. split.
    + symmetry. apply pattern_byte_0. exact Hb.
    + unfold mismatches_upto. simpl. rewrite Z.add_0_r.
      symmetry. apply u32_small. exact He.
  - intros k s Hk (Hfr & Hval). split.
    + cbn. frame_eq.
    + intros Hb He. destruct (Hval Hb He) as [Htr Herr]. cbn.
      assert (sf3_pattern_incr_val s = sf3_pattern_incr_val e) as Hi
          by (rewrite Hfr; reflexivity).
      assert (ReadBuffer s = ReadBuffer e) as Hr
          by (rewrite Hfr; reflexivity).
      rewrite Hi, Hr, Htr, Herr. split; [apply pattern_byte_S|].
      rewrite u32_add_idemp_l, mismatches_upto_S. f_equal. lia.
Qed.

Lemma compare_ReadBuffer_frame (e : t_experiment_data) :
  compare_ReadBuffer e
  = set_sf3_err_count_val (sf3_err_count_val (compare_ReadBuffer e))
      (set_sf3_pattern_track_val
         (sf3_pattern_track_val (compare_ReadBuffer e)) e).
Proof. apply (compare_ReadBuffer_inv e). Qed.

Lemma compare_ReadBuffer_err (e : t_experiment_data) :
  is_byte (sf3_pattern_track_val e) ->
  0 <= sf3_err_count_val e < 4294967296 ->
  sf3_err_count_val (compare_ReadBuffer e)
  = u32 (sf3_err_count_val e
         + page_mismatches (ReadBuffer e) (sf3_pattern_track_val e)
             (sf3_pattern_incr_val e)).
Proof.
  intros Hb He. destruct (compare_ReadBuffer_inv e) as [_ H].
  apply (H Hb He).
Qed.

Lemma page_mismatches_bounds (buf : list Z) (c s : Z) :
  0 <= page_mismatches buf c s <= Z.of_nat SF3_PAGE_SIZE.
Proof. apply mismatches_upto_bounds. Qed.

(** *** The three loops, as updates of their argument *)

Lemma fill_WriteBuffer_spec (e : t_experiment_data) :
  exists (buf : list Z) (cursor : Z),
    fill_WriteBuffer e
    = set_WriteBuffer buf (set_sf3_pattern_track_val cursor e)
    /\ length buf = length (WriteBuffer e)
    /\ (is_byte (sf3_pattern_track_val e) ->
        forall i : nat,
          (i < SF3_PAGE_SIZE)%nat ->
          (i + SF3_WRITE_EXTRA_BYTES < length (WriteBuffer e))%nat ->
          buf !! (i + SF3_WRITE_EXTRA_BYTES)%nat
          = Some (pattern_byte (sf3_pattern_track_val e)
                    (sf3_pattern_incr_val e) i)).
Proof.
  exists (WriteBuffer (fill_WriteBuffer e)),
    (sf3_pattern_track_val (fill_WriteBuffer e)).
  split; [apply fill_WriteBuffer_frame|].
  split; [apply fill_WriteBuffer_length|].
  intros Hb i Hi Hin. apply fill_WriteBuffer_lookup; assumption.
Qed.

Lemma clear_ReadBuffer_spec (e : t_experiment_data) :
  exists buf : list Z, clear_ReadBuffer e = set_ReadBuffer buf e.
Proof. exists (ReadBuffer (clear_ReadBuffer e)). apply clear_ReadBuffer_frame. Qed.

Lemma compare_ReadBuffer_spec (e : t_experiment_data) :
  exists count cursor : Z,
    compare_ReadBuffer e
    = set_sf3_err_count_val count (set_sf3_pattern_track_val cursor e)
    /\ (is_byte (sf3_pattern_track_val e) ->
        0 <= sf3_err_count_val e < 4294967296 ->
        count
        = u32 (sf3_err_count_val e
               + page_mismatches (ReadBuffer e) (sf3_pattern_track_val e)
                   (sf3_pattern_incr_val e))).
Proof.
  exists (sf3_err_count_val (compare_ReadBuffer e)),
    (sf3_pattern_track_val (compare_ReadBuffer e)).
  split; [apply compare_ReadBuffer_frame|].
  apply compare_ReadBuffer_err.
Qed.

End Loops.

(** ** The issuing modes, one round of their loops at a time *)

Section Issuing.

Context {hdr : PmodSF3_h} {D : Type} {drv : PmodSF3_driver D}.

Lemma data_frame_refl (e : t_experiment_data) : data_frame e e.
Proof. split; reflexivity. Qed.

Lemma data_frame_trans (e1 e2 e3 : t_experiment_data) :
  data_frame e1 e2 -> data_frame e2 e3 -> data_frame e1 e3.
Proof. intros [] []. split; congruence. Qed.

Lemma report_failure_expData (Status : Z) (msg : string) (w : world D) :
  experiData (report_failure Status msg w)
  = set_comString (comString (experiData (report_failure Status msg w)))
      (experiData w).
Proof.
  unfold report_failure. destruct (Status =? XST_SUCCESS); cbn.
  - generalize (experiData w). intros e. frame_eq.
  - reflexivity.
Qed.

Lemma report_failure_print (Status : Z) (msg : string) (w : world D) :
  xQueuePrint (report_failure Status msg w)
  = (xQueuePrint w
     ++ (if Status =? XST_SUCCESS then []
         else [snprintf PRINTF_BUF_SZ msg]))%list.
Proof.
  unfold report_failure. destruct (Status =? XST_SUCCESS); cbn.
  - rewrite app_nil_r. reflexivity.
  - reflexivity.
Qed.

Lemma report_failure_device (Status : Z) (msg : string) (w : world D) :
  sf3Device (report_failure Status msg w) = sf3Device w.
Proof. unfold report_failure. destruct (Status =? XST_SUCCESS); reflexivity. Qed.

Lemma report_failure_displays (Status : Z) (msg : string) (w : world D) :
  keeps_displays w (report_failure Status msg w).
Proof.
  unfold report_failure, keeps_displays.
  destruct (Status =? XST_SUCCESS); split; reflexivity.
Qed.

Lemma page_program_iter_round (w : world D) : program_round w (page_program_iter w).
Proof.
  unfold page_program_iter, report_failure, count_sub_operation,
    set_address_of_cmd, address_of.
  cbv zeta.
  destruct (snd (SF3_FlashWriteEnable _) =? XST_SUCCESS);
    destruct (snd (SF3_FlashWrite _ _ _ _ _) =? XST_SUCCESS).
  all: split; [split| | | | | |split|]; rsimpl.
  all: try match goal with
           | |- context [fill_WriteBuffer ?x] =>
               destruct (fill_WriteBuffer_spec x)
                 as (buf & cursor & -> & Hlen & Hbuf);
               rsimpl; rsimpl_in Hlen; rsimpl_in Hbuf
           end.
  all: destruct (u32 (sf3_i_val (experiData w) + 1) <? experi_page_cnt_per_iter)
         eqn:Hi.
  all: rsimpl; rewrite ?Hi; try reflexivity; try exact Hlen.
  all: exists buf; split; [reflexivity|split; [exact Hlen|exact Hbuf]].
Qed.

Lemma page_read_iter_round (w : world D) : read_round w (page_read_iter w).
Proof.
  unfold page_read_iter, report_failure, count_sub_operation,
    set_address_of_cmd, address_of.
  cbv zeta.
  destruct (snd (fst (SF3_FlashRead _ _ _ _ _)) =? XST_SUCCESS).
  all: split; [split| | | | | | |]; rsimpl.
  all: try match goal with
           | |- context [compare_ReadBuffer ?x] =>
               destruct (compare_ReadBuffer_spec x)
                 as (count & cursor & -> & Hcount);
               rsimpl; rsimpl_in Hcount
           end.
  all: try match goal with
           | |- context [clear_ReadBuffer ?x] =>
               destruct (clear_ReadBuffer_spec x) as (buf & Hbuf);
               rewrite ?Hbuf in *; rsimpl; rsimpl_in Hcount
           end.
  all: destruct (u32 (sf3_i_val (experiData w) + 1) <? experi_page_cnt_per_iter)
         eqn:Hi.
  all: rsimpl; rewrite ?Hi; try reflexivity.
  all: try (split; reflexivity).
  all: try (exists buf; split; reflexivity).
  all: exact Hcount.
Qed.

Lemma fsm_CMD_ERASE_START_round (w : world D) :
  erase_round w (fsm_CMD_ERASE_START w).
Proof.
  unfold fsm_CMD_ERASE_START, report_failure, count_sub_operation,
    set_address_of_cmd, address_of.
  cbv zeta.
  destruct (snd (SF3_FlashWriteEnable _) =? XST_SUCCESS) eqn:H1;
    destruct (snd (SF3_SectorErase _ _) =? XST_SUCCESS) eqn:H2.
  all: split; [split| | | | | |split|split]; unfold address_of; rsimpl.
  all: rsimpl_in H1; rsimpl_in H2; rewrite ?H1, ?H2.
  all: destruct (u32 (sf3_i_val (experiData w) + 1)
                 <? experi_subsector_cnt_per_iter) eqn:Hi.
  all: rsimpl; rewrite ?Hi; rewrite ?app_nil_r; try reflexivity.
  all: rewrite <- app_assoc; reflexivity.
Qed.

End Issuing.

(** ** Batches of rounds *)

Section Batches.

Context {hdr : PmodSF3_h} {D : Type} {drv : PmodSF3_driver D}.

Lemma keeps_displays_refl (w : world D) : keeps_displays w w.
Proof. split; reflexivity. Qed.

Lemma keeps_displays_trans (w1 w2 w3 : world D) :
  keeps_displays w1 w2 -> keeps_displays w2 w3 -> keeps_displays w1 w3.
Proof. intros [] []. split; congruence. Qed.

Lemma next_index (i bound : Z) :
  0 <= i -> i < bound -> bound <= 4096 -> u32 (i + 1) = i + 1.
Proof. intros. apply u32_small. lia. Qed.

Lemma page_program_rounds (k : nat) (w : world D) :
  program_batch k w (for_loop 0 k (fun _ => page_program_iter) w).
Proof.
  apply (for_loop_ind
           (fun j s => (j <= k)%nat -> program_batch j w s)); [lia| | |lia].
  - intros _. split; try reflexivity; try congruence.
    + apply data_frame_refl.
    + intros _ _. simpl. lia.
    + apply keeps_displays_refl.
  - intros j s Hj IH Hle. specialize (IH ltac:(lia)).
    destruct IH as [Hf Hi _ _ Hb He Hd].
    destruct (page_program_iter_round s) as [Rf Ri Rm Rc Rb Re Rd _].
    split.
    + eapply data_frame_trans; eassumption.
    + change experi_page_cnt_per_iter with 4096 in *. intros H0 Hk.
      rewrite Ri, Hi by lia. rewrite u32_small; lia.
    + intros _. exact Rm.
    + intros _. rewrite Rc. apply Hf.
    + congruence.
    + congruence.
    + eapply keeps_displays_trans; eassumption.
Qed.

Lemma page_read_rounds (k : nat) (w : world D) :
  read_batch k w (for_loop 0 k (fun _ => page_read_iter) w).
Proof.
  apply (for_loop_ind
           (fun j s => (j <= k)%nat -> read_batch j w s)); [lia| | |lia].
  - intros _. split; try reflexivity; try congruence.
    + apply data_frame_refl.
    + intros _ _. simpl. lia.
    + apply keeps_displays_refl.
    + intros _ He. exists 0. split; [lia|].
      rewrite Z.add_0_r. symmetry. apply u32_small. exact He.
  - intros j s Hj IH Hle. specialize (IH ltac:(lia)).
    destruct IH as [Hf Hi _ _ Hb Hd He].
    destruct (page_read_iter_round s) as [Rf Ri Rm Rc Rb Rd _ Re].
    split.
    + eapply data_frame_trans; eassumption.
    + change experi_page_cnt_per_iter with 4096 in *. intros H0 Hk.
      rewrite Ri, Hi by lia. rewrite u32_small; lia.
    + intros _. exact Rm.
    + intros _. rewrite Rc. apply Hf.
    + congruence.
    + eapply keeps_displays_trans; eassumption.
    + intros Hs Hr. destruct (He Hs Hr) as (m & Hm & Hem).
      rewrite (df_start _ _ Hf), (df_incr _ _ Hf) in Re.
      rewrite Re; [|exact Hs|rewrite Hem; apply u32_range].
      pose proof (page_mismatches_bounds (ReadBuffer (experiData (page_read_iter s)))
                    (sf3_pattern_start_val (experiData w))
                    (sf3_pattern_incr_val (experiData w))) as Hp.
      eexists (m + _). split; [|rewrite Hem, u32_add_idemp_l, Z.add_assoc; reflexivity].
      lia.
Qed.

End Batches.

(** ** The functions of a round that do not step the state machine *)

Section Outputs.

Context {hdr : PmodSF3_h} {D : Type} {drv : PmodSF3_driver D}.

Lemma experiData_upd (f : t_experiment_data -> t_experiment_data) (w : world D) :
  experiData (upd f w) = f (experiData w).
Proof. reflexivity. Qed.

Lemma sf3Device_upd (f : t_experiment_data -> t_experiment_data) (w : world D) :
  sf3Device (upd f w) = sf3Device w.
Proof. reflexivity. Qed.

Lemma xQueuePrint_upd (f : t_experiment_data -> t_experiment_data) (w : world D) :
  xQueuePrint (upd f w) = xQueuePrint w.
Proof. reflexivity. Qed.

Lemma xQueueLedConfig_upd (f : t_experiment_data -> t_experiment_data) (w : world D) :
  xQueueLedConfig (upd f w) = xQueueLedConfig w.
Proof. reflexivity. Qed.

Lemma xQueueClsDispl_upd (f : t_experiment_data -> t_experiment_data) (w : world D) :
  xQueueClsDispl (upd f w) = xQueueClsDispl w.
Proof. reflexivity. Qed.

Lemma Experiment_SetLedUpdate_frame (silk : nat) (r g b : Z) (e : t_experiment_data) :
  exists leds : list t_rgb_led_palette_silk,
    Experiment_SetLedUpdate silk r g b e = set_ledUpdate leds e.
Proof.
  unfold Experiment_SetLedUpdate. destruct (silk <? 6)%nat.
  - eexists. reflexivity.
  - exists (ledUpdate e). frame_eq.
Qed.

Lemma set_ledUpdate_twice (l1 l2 : list t_rgb_led_palette_silk) (e : t_experiment_data) :
  set_ledUpdate l1 (set_ledUpdate l2 e) = set_ledUpdate l1 e.
Proof. frame_eq. Qed.

Lemma Experiment_SetLedUpdate_loop (n : nat) (e : t_experiment_data) :
  exists leds : list t_rgb_led_palette_silk,
    for_loop 0 n (fun iSilk => Experiment_SetLedUpdate iSilk 0x00 0x00 0x00) e
    = set_ledUpdate leds e.
Proof.
  apply (for_loop_ind (fun _ s => exists leds, s = set_ledUpdate leds e)); [lia| |].
  - exists (ledUpdate e). frame_eq.
  - intros i s _ [leds ->].
    destruct (Experiment_SetLedUpdate_frame i 0 0 0 (set_ledUpdate leds e))
      as [leds' ->].
    exists leds'. apply set_ledUpdate_twice.
Qed.

Lemma Experiment_SendLedUpdate_loop (from to : nat) (w : world D) :
  (from <= to)%nat ->
  let w' := for_loop from to Experiment_SendLedUpdate w in
  experiData w' = experiData w /\ sf3Device w' = sf3Device w
  /\ xQueuePrint w' = xQueuePrint w /\ xQueueClsDispl w' = xQueueClsDispl w.
Proof.
  intros Hle.
  apply (for_loop_ind
           (fun _ s =>
              experiData s = experiData w /\ sf3Device s = sf3Device w
              /\ xQueuePrint s = xQueuePrint w
              /\ xQueueClsDispl s = xQueueClsDispl w)); [exact Hle| |].
  - repeat split.
  - intros i s _ IH. unfold Experiment_SendLedUpdate.
    destruct (i <? 6)%nat; [|exact IH]. exact IH.
Qed.

Lemma Experiment_updateLedsStatuses_frame (w : world D) :
  let w' := Experiment_updateLedsStatuses w in
  (exists leds, experiData w' = set_ledUpdate leds (experiData w))
  /\ sf3Device w' = sf3Device w /\ xQueuePrint w' = xQueuePrint w
  /\ xQueueClsDispl w' = xQueueClsDispl w.
Proof.
  unfold Experiment_updateLedsStatuses. cbv zeta.
  match goal with
  | |- context [for_loop 2 6 _ ?x] =>
      destruct (Experiment_SendLedUpdate_loop 2 6 x ltac:(lia))
        as (-> & -> & -> & ->)
  end.
  rsimpl. split; [|repeat split].
  repeat match goal with
         | |- context [Experiment_SetLedUpdate ?s ?r ?g ?b ?x] =>
             destruct (Experiment_SetLedUpdate_frame s r g b x) as [? ->]
         end.
  rewrite !set_ledUpdate_twice. eexists. reflexivity.
Qed.

Lemma Experiment_updateLedsDisplayMode_frame (w : world D) :
  let w' := Experiment_updateLedsDisplayMode w in
  (exists leds, experiData w' = set_ledUpdate leds (experiData w))
  /\ sf3Device w' = sf3Device w /\ xQueuePrint w' = xQueuePrint w
  /\ xQueueClsDispl w' = xQueueClsDispl w.
Proof.
  unfold Experiment_updateLedsDisplayMode. cbv zeta.
  match goal with
  | |- context [for_loop 0 2 _ ?x] =>
      destruct (Experiment_SendLedUpdate_loop 0 2 x ltac:(lia))
        as (-> & -> & -> & ->)
  end.
  destruct (operatingMode (experiData w)); rsimpl.
  all: split; [|repeat split].
  all: repeat match goal with
         | |- context [Experiment_SetLedUpdate ?s ?r ?g ?b ?x] =>
             destruct (Experiment_SetLedUpdate_frame s r g b x) as [? ->]
         end.
  all: rewrite !set_ledUpdate_twice; eexists; reflexivity.
Qed.

Lemma Experiment_updateClsDisplayAndTerminal_events (w : world D) :
  let w' := Experiment_updateClsDisplayAndTerminal w in
  experiData w' = experiData w /\ sf3Device w' = sf3Device w
  /\ xQueueLedConfig w' = xQueueLedConfig w
  /\ xQueueClsDispl w'
     = (xQueueClsDispl w ++ fst (display_events (experiData w)))%list
  /\ xQueuePrint w'
     = (xQueuePrint w ++ snd (display_events (experiData w)))%list.
Proof.
  unfold Experiment_updateClsDisplayAndTerminal, display_events. cbv zeta.
  destruct (cnt_t_freerun (experiData w) mod (cnt_t_max / 15) =? 0); rsimpl.
  - repeat split.
  - rewrite !app_nil_r. repeat split.
Qed.

Lemma display_events_ledUpdate (leds : list t_rgb_led_palette_silk)
    (e : t_experiment_data) :
  display_events (set_ledUpdate leds e) = display_events e.
Proof.
  unfold display_events, Experiment_generateTextLine1,
    Experiment_generateTextLine2.
  rsimpl. reflexivity.
Qed.

Lemma task_round_eq (switches buttons : Z) (w : world D) :
  task_round switches buttons w
  = upd Experiment_iterationTimer
      (Experiment_operateFSM (before_fsm switches buttons w)).
Proof. reflexivity. Qed.

Lemma before_fsm_frame (switches buttons : Z) (w : world D) :
  let w' := before_fsm switches buttons w in
  (exists leds,
     experiData w'
     = set_buttonsRead buttons
         (set_switchesRead switches (set_ledUpdate leds (experiData w))))
  /\ sf3Device w' = sf3Device w
  /\ xQueuePrint w'
     = (xQueuePrint w ++ snd (display_events (experiData w)))%list.
Proof.
  unfold before_fsm, Experiment_readUserInputs. cbv zeta.
  rewrite experiData_upd, sf3Device_upd, xQueuePrint_upd.
  destruct (Experiment_updateLedsDisplayMode_frame w)
    as ([l1 H1] & H1d & H1p & _).
  destruct (Experiment_updateLedsStatuses_frame
              (Experiment_updateLedsDisplayMode w))
    as ([l2 H2] & H2d & H2p & _).
  destruct (Experiment_updateClsDisplayAndTerminal_events
              (Experiment_updateLedsStatuses
                 (Experiment_updateLedsDisplayMode w)))
    as (H3 & H3d & _ & _ & H3p).
  split; [|split].
  - exists l2. rewrite H3, H2, H1, set_ledUpdate_twice. reflexivity.
  - congruence.
  - rewrite H3p, H2p, H1p, H2, H1, !display_events_ledUpdate. reflexivity.
Qed.

End Outputs.

(** ** The invariant of the experiment data *)

Ltac consts :=
  change per_iteration_byte_count with 1048576 in *;
  change last_starting_byte_addr with 32505856 in *;
  change experi_subsector_cnt_per_iter with 256 in *;
  change experi_page_cnt_per_iter with 4096 in *;
  change cnt_t_max with 300 in *.

Ltac inv_unfold :=
  unfold region_start_ok, sub_operation_inv, pages_compared, is_byte in *.

Section Invariant.

Context {hdr : PmodSF3_h} {D : Type} {drv : PmodSF3_driver D}.

(** [Inv] reads nine members only. *)
Lemma Inv_same (e e' : t_experiment_data) :
  sf3_addr_start_val e' = sf3_addr_start_val e ->
  sf3_pattern_start_val e' = sf3_pattern_start_val e ->
  sf3_pattern_incr_val e' = sf3_pattern_incr_val e ->
  sf3_pattern_track_val e' = sf3_pattern_track_val e ->
  WriteBuffer e' = WriteBuffer e ->
  operatingMode e' = operatingMode e ->
  sf3_i_val e' = sf3_i_val e ->
  sf3_start_at_zero e' = sf3_start_at_zero e ->
  sf3_err_count_val e' = sf3_err_count_val e ->
  Inv e -> Inv e'.
Proof.
  intros H1 H2 H3 H4 H5 H6 H7 H8 H9 [].
  split; inv_unfold; rewrite ?H1, ?H2, ?H3, ?H4, ?H5, ?H6, ?H7, ?H8, ?H9;
    assumption.
Qed.

Lemma Inv_InitData : Inv (Experiment_InitData experiData_zero).
Proof.
  unfold Experiment_InitData. cbv zeta.
  destruct (Experiment_SetLedUpdate_loop 6 experiData_zero) as [leds ->].
  unfold experiData_zero.
  split; inv_unfold; rsimpl; consts; try lia; try reflexivity; try discriminate.
  - split; [reflexivity|lia].
  - unfold sf3_test_pattern_startval_a. lia.
  - unfold sf3_test_pattern_incrval_a. lia.
  - apply repeat_length.
Qed.

Lemma Inv_fsm_WAIT_BUTTON_DEP (e : t_experiment_data) :
  operatingMode e = ST_WAIT_BUTTON_DEP -> Inv e -> Inv (fsm_WAIT_BUTTON_DEP e).
Proof.
  intros Hm [Hr Hs Hi Ht Hb Hso Hc Hf He He32].
  unfold fsm_WAIT_BUTTON_DEP, select_pattern. cbv zeta.
  repeat match goal with
         | |- context [if ?c then _ else _] => destruct c
         end.
  all: split; inv_unfold; rsimpl; rewrite ?Hm in *; try assumption;
    try discriminate; try (intros _; reflexivity).
Qed.

Lemma Inv_fsm_WAIT_BUTTON_REL (e : t_experiment_data) :
  operatingMode e = ST_WAIT_BUTTON_REL -> Inv e -> Inv (fsm_WAIT_BUTTON_REL e).
Proof.
  intros Hm [Hr Hs Hi Ht Hb Hso Hc Hf He He32].
  unfold fsm_WAIT_BUTTON_REL.
  destruct (buttonsRead e =? 0); [|split; assumption].
  split; inv_unfold; rsimpl; rewrite ?Hm in *; try assumption;
    try discriminate; try (intros _; reflexivity).
Qed.

Lemma Inv_fsm_SET_PATTERN (e : t_experiment_data) :
  operatingMode e = ST_SET_PATTERN -> Inv e -> Inv (fsm_SET_PATTERN e).
Proof.
  intros Hm [Hr Hs Hi Ht Hb Hso Hc Hf He He32].
  unfold fsm_SET_PATTERN, set_pattern_seed. cbv zeta.
  destruct (sf3_test_pattern_selected e).
  all: split; inv_unfold; rsimpl; rewrite ?Hm in *; try assumption;
    try discriminate; try (intros _; reflexivity); try (cbv; split; congruence).
Qed.

Lemma Inv_fsm_SET_START_ADDR (e : t_experiment_data) :
  operatingMode e = ST_SET_START_ADDR -> Inv e -> Inv (fsm_SET_START_ADDR e).
Proof.
  intros Hm [Hr Hs Hi Ht Hb Hso Hc Hf He He32].
  unfold fsm_SET_START_ADDR. cbv zeta.
  inv_unfold. rewrite Hm in *. consts.
  destruct (sf3_start_at_zero e) eqn:Hz.
  - split; inv_unfold; rsimpl; consts; try assumption; try discriminate;
      try reflexivity; try lia.
    split; [reflexivity|lia].
  - destruct (Z.ltb_spec (sf3_addr_start_val e) 32505856) as [Hlt|Hge].
    + assert (u32 (sf3_addr_start_val e + 1048576)
              = sf3_addr_start_val e + 1048576) as Hu
        by (apply u32_small; lia).
      split; inv_unfold; rsimpl; consts; rewrite ?Hu; try assumption;
        try discriminate; try reflexivity.
      * split.
        -- rewrite <- Z.add_mod_idemp_l by lia.
           destruct Hr as [-> _]. reflexivity.
        -- destruct Hr as [Hr0 Hr1].
           apply Z.mod_divide in Hr0; [|lia]. destruct Hr0 as [q Hq]. lia.
      * replace ((sf3_addr_start_val e + 1048576) / 1048576)
          with (sf3_addr_start_val e / 1048576 + 1); [lia|].
        replace (sf3_addr_start_val e + 1048576)
          with (sf3_addr_start_val e + 1 * 1048576) by lia.
        rewrite Z.div_add by lia. reflexivity.
    + split; inv_unfold; rsimpl; consts; try assumption; try discriminate;
        try reflexivity.
Qed.

Lemma Inv_fsm_SET_START_WAIT (e : t_experiment_data) :
  operatingMode e = ST_SET_START_WAIT -> Inv e -> Inv (fsm_SET_START_WAIT e).
Proof.
  intros Hm [Hr Hs Hi Ht Hb Hso Hc Hf He He32].
  unfold fsm_SET_START_WAIT.
  destruct (cnt_t e =? cnt_t_max / 2); [|split; assumption].
  inv_unfold. rewrite Hm in *.
  split; inv_unfold; rsimpl; consts; try assumption; try discriminate; try lia.
Qed.

Lemma Inv_fsm_DONE (stay next : OPERATING_MODE_TAG) (e : t_experiment_data) :
  operatingMode e = stay ->
  (stay = ST_CMD_ERASE_DONE /\ next = ST_CMD_PAGE_START
   \/ stay = ST_CMD_PAGE_DONE /\ next = ST_CMD_READ_START
   \/ stay = ST_CMD_READ_DONE /\ next = ST_DISPLAY_FINAL) ->
  Inv e -> Inv (fsm_DONE stay next e).
Proof.
  intros Hm Hcase [Hr Hs Hi Ht Hb Hso Hc Hf He He32].
  unfold fsm_DONE. cbv zeta. rsimpl.
  inv_unfold. rewrite Hm in *.
  destruct (cnt_t_max - 1 <=? cnt_t e);
    destruct Hcase as [[-> ->]|[[-> ->]|[-> ->]]].
  all: split; inv_unfold; rsimpl; consts; try assumption; try discriminate;
    try reflexivity; try lia; try (left; reflexivity).
  all: try (intros _; reflexivity).
  all: try (intros Hz; specialize (Hf Hz); discriminate).
  all: split; [lia|reflexivity].
Qed.

Lemma Inv_fsm_DISPLAY_FINAL (e : t_experiment_data) :
  operatingMode e = ST_DISPLAY_FINAL -> Inv e -> Inv (fsm_DISPLAY_FINAL e).
Proof.
  intros Hm [Hr Hs Hi Ht Hb Hso Hc Hf He He32].
  unfold fsm_DISPLAY_FINAL. cbv zeta. rsimpl.
  inv_unfold. rewrite Hm in *.
  destruct (cnt_t e =? cnt_t_max - 1).
  all: split; inv_unfold; rsimpl; rewrite ?Hm; try assumption; try discriminate.
  all: try (intros Hz; specialize (Hf Hz); discriminate).
Qed.

Lemma Inv_fsm_CMD_ERASE_START (w : world D) :
  operatingMode (experiData w) = ST_CMD_ERASE_START ->
  Inv (experiData w) -> Inv (experiData (fsm_CMD_ERASE_START w)).
Proof.
  intros Hm [Hr Hs Hi Ht Hb Hso Hc Hf He He32].
  destruct (fsm_CMD_ERASE_START_round w) as [Rf Ri Rm Rc Rb Re _ _].
  destruct Rf. inv_unfold. rewrite Hm in *. consts.
  rewrite u32_small in Ri by lia. rewrite Ri in Rm.
  destruct (sf3_start_at_zero (experiData w)) eqn:Hz;
    [specialize (Hf eq_refl); discriminate|].
  destruct (Z.ltb_spec (sf3_i_val (experiData w) + 1) 256).
  all: split; inv_unfold; consts;
    rewrite ?Rm, ?Ri, ?Rc, ?Rb, ?Re, ?df_addr_start0, ?df_start0, ?df_incr0,
      ?df_start_at_zero0, ?Hz;
    try assumption; try discriminate; try lia.
Qed.

Lemma Inv_fsm_CMD_PAGE_START (w : world D) :
  operatingMode (experiData w) = ST_CMD_PAGE_START ->
  Inv (experiData w) -> Inv (experiData (fsm_CMD_PAGE_START w)).
Proof.
  intros Hm [Hr Hs Hi Ht Hb Hso Hc Hf He He32].
  inv_unfold. rewrite Hm in *. consts.
  assert (sf3_i_val (experiData w) + 32 <= 4096) as Hle
      by (Z.div_mod_to_equations; lia).
  destruct (page_program_rounds 32 w) as [Rf Ri Rm Rc Rb Re _].
  specialize (Ri ltac:(lia) ltac:(consts; lia)).
  fold (fsm_CMD_PAGE_START w) in *.
  specialize (Rm ltac:(lia)). specialize (Rc ltac:(lia)).
  destruct Rf. consts. rewrite Ri in Rm.
  destruct (sf3_start_at_zero (experiData w)) eqn:Hz;
    [specialize (Hf eq_refl); discriminate|].
  destruct (Z.ltb_spec (sf3_i_val (experiData w) + Z.of_nat 32) 4096).
  all: split; inv_unfold; consts;
    rewrite ?Rm, ?Ri, ?Rc, ?Rb, ?Re, ?df_addr_start0, ?df_start0, ?df_incr0,
      ?df_start_at_zero0, ?Hz;
    try assumption; try discriminate; try reflexivity; try lia.
  split; [lia|]. Z.div_mod_to_equations; lia.
Qed.

Lemma Inv_fsm_CMD_READ_START (w : world D) :
  operatingMode (experiData w) = ST_CMD_READ_START ->
  Inv (experiData w) -> Inv (experiData (fsm_CMD_READ_START w)).
Proof.
  intros Hm [Hr Hs Hi Ht Hb Hso Hc Hf He He32].
  inv_unfold. rewrite Hm in *. consts.
  assert (sf3_i_val (experiData w) + 32 <= 4096) as Hle
      by (Z.div_mod_to_equations; lia).
  destruct (page_read_rounds 32 w) as [Rf Ri Rm Rc Rb _ Re].
  specialize (Ri ltac:(lia) ltac:(consts; lia)).
  fold (fsm_CMD_READ_START w) in *.
  specialize (Rm ltac:(lia)). specialize (Rc ltac:(lia)).
  destruct Rf. consts. rewrite Ri in Rm.
  destruct (sf3_start_at_zero (experiData w)) eqn:Hz;
    [specialize (Hf eq_refl); discriminate|].
  assert (0 <= sf3_addr_start_val (experiData w) / 1048576) as Hq
      by (Z.div_mod_to_equations; lia).
  destruct (Re Hs ltac:(lia)) as (m & Hm0 & Hem).
  pose proof (u32_le (sf3_err_count_val (experiData w) + m) ltac:(lia)) as Hu.
  pose proof (u32_range (sf3_err_count_val (experiData w) + m)) as Hu0.
  destruct (Z.ltb_spec (sf3_i_val (experiData w) + Z.of_nat 32) 4096).
  all: split; inv_unfold; consts;
    rewrite ?Rm, ?Ri, ?Rc, ?Rb, ?df_addr_start0, ?df_start0, ?df_incr0,
      ?df_start_at_zero0, ?Hz;
    try assumption; try discriminate; try reflexivity; try lia.
  - split; [lia|]. Z.div_mod_to_equations; lia.
  - assert (sf3_i_val (experiData w) = 4064) as Hi4 by lia.
    rewrite Hi4 in He. nia.
Qed.

Lemma Inv_operateFSM (w : world D) :
  Inv (experiData w) -> Inv (experiData (Experiment_operateFSM w)).
Proof.
  intros HI. unfold Experiment_operateFSM.
  destruct (operatingMode (experiData w)) eqn:Hm; rewrite ?experiData_upd.
  - apply Inv_fsm_WAIT_BUTTON_DEP; assumption.
  - apply Inv_fsm_WAIT_BUTTON_REL; assumption.
  - apply Inv_fsm_SET_PATTERN; assumption.
  - apply Inv_fsm_SET_START_ADDR; assumption.
  - apply Inv_fsm_SET_START_WAIT; assumption.
  - apply Inv_fsm_CMD_ERASE_START; assumption.
  - apply Inv_fsm_DONE; [assumption|tauto|assumption].
  - apply Inv_fsm_CMD_PAGE_START; assumption.
  - apply Inv_fsm_DONE; [assumption|tauto|assumption].
  - apply Inv_fsm_CMD_READ_START; assumption.
  - apply Inv_fsm_DONE; [assumption|tauto|assumption].
  - apply Inv_fsm_DISPLAY_FINAL; assumption.
  - destruct HI as [_ _ _ _ _ Hso _ _ _ _].
    unfold sub_operation_inv in Hso. rewrite Hm in Hso. contradiction.
Qed.

Lemma Inv_iterationTimer (e : t_experiment_data) :
  Inv e -> Inv (Experiment_iterationTimer e).
Proof.
  apply Inv_same; unfold Experiment_iterationTimer; cbv zeta;
    destruct (decide (operatingMode e = operatingModePrev e)); reflexivity.
Qed.

Lemma Inv_before_fsm (switches buttons : Z) (w : world D) :
  Inv (experiData w) -> Inv (experiData (before_fsm switches buttons w)).
Proof.
  destruct (before_fsm_frame switches buttons w) as ([leds ->] & _).
  apply Inv_same; reflexivity.
Qed.

Lemma Inv_task_round (switches buttons : Z) (w : world D) :
  Inv (experiData w) -> Inv (experiData (task_round switches buttons w)).
Proof.
  intros HI. rewrite task_round_eq, experiData_upd.
  apply Inv_iterationTimer, Inv_operateFSM, Inv_before_fsm. exact HI.
Qed.

Lemma reachable_Inv (w : world D) : reachable w -> Inv (experiData w).
Proof.
  induction 1 as [d|w switches buttons _ IH].
  - apply Inv_InitData.
  - apply Inv_task_round. exact IH.
Qed.

End Invariant.

(** ** Rounds of the task loop *)

Section Rounds.

Context {hdr : PmodSF3_h} {D : Type} {drv : PmodSF3_driver D}.

Lemma task_rounds_nil (w : world D) : task_rounds [] w = w.
Proof. reflexivity. Qed.

Lemma task_rounds_cons (i : Z * Z) (inputs : list (Z * Z)) (w : world D) :
  task_rounds (i :: inputs) w
  = task_rounds inputs (task_round (fst i) (snd i) w).
Proof. reflexivity. Qed.

Lemma task_rounds_app (l1 l2 : list (Z * Z)) (w : world D) :
  task_rounds (l1 ++ l2) w = task_rounds l2 (task_rounds l1 w).
Proof. unfold task_rounds. apply fold_left_app. Qed.

Lemma reachable_task_rounds (inputs : list (Z * Z)) (w : world D) :
  reachable w -> reachable (task_rounds inputs w).
Proof.
  revert w. induction inputs as [|i inputs IH]; intros w Hw.
  - exact Hw.
  - rewrite task_rounds_cons. apply IH. constructor. exact Hw.
Qed.

Lemma pass_frame_refl (e : t_experiment_data) : pass_frame e e.
Proof. split; reflexivity. Qed.

Lemma pass_frame_trans (e1 e2 e3 : t_experiment_data) :
  pass_frame e1 e2 -> pass_frame e2 e3 -> pass_frame e1 e3.
Proof. intros [] []. split; congruence. Qed.

Lemma data_frame_pass_frame (e e' : t_experiment_data) :
  data_frame e e' -> pass_frame e e'.
Proof. intros []. split; assumption. Qed.

(** One step of the state machine in a pass mode, on the control state. *)
Lemma operateFSM_control (w : world D) :
  Inv (experiData w) ->
  pass_mode (operatingMode (experiData w)) = true ->
  let e := experiData w in
  let e' := experiData (Experiment_operateFSM w) in
  (operatingMode e', sf3_i_val e') = control_fsm (control_of e)
  /\ operatingModePrev e' = operatingModePrev e
  /\ cnt_t e' = cnt_t e
  /\ pass_frame e e'.
Proof.
  intros [Hr Hs Hi Ht Hb Hso Hc Hf He He32] Hp. cbv zeta.
  unfold Experiment_operateFSM, control_fsm, control_of.
  cbn [c_mode c_cnt_t c_i_val].
  inv_unfold.
  destruct (operatingMode (experiData w)) eqn:Hm; try discriminate Hp;
    rewrite ?experiData_upd.
  - unfold fsm_SET_START_WAIT.
    destruct (cnt_t (experiData w) =? cnt_t_max / 2); rsimpl;
      rewrite ?Hm; repeat split.
  - destruct (fsm_CMD_ERASE_START_round w) as [Rf Ri Rm _ _ _ _ _].
    consts. rewrite u32_small in Ri by lia. rewrite Rm, Ri.
    split; [reflexivity|]. split; [apply Rf|]. split; [apply Rf|].
    apply data_frame_pass_frame, Rf.
  - unfold fsm_DONE. cbv zeta. rsimpl.
    destruct (cnt_t_max - 1 <=? cnt_t (experiData w)); rsimpl; repeat split.
  - destruct (page_program_rounds 32 w) as [Rf Ri Rm _ _ _ _].
    fold (fsm_CMD_PAGE_START w) in *. consts.
    assert (sf3_i_val (experiData w) + 32 <= 4096) as Hle
        by (Z.div_mod_to_equations; lia).
    specialize (Ri ltac:(lia) ltac:(consts; lia)). specialize (Rm ltac:(lia)).
    consts. rewrite Rm, Ri.
    split; [reflexivity|]. split; [apply Rf|]. split; [apply Rf|].
    apply data_frame_pass_frame, Rf.
  - unfold fsm_DONE. cbv zeta. rsimpl.
    destruct (cnt_t_max - 1 <=? cnt_t (experiData w)); rsimpl; repeat split.
  - destruct (page_read_rounds 32 w) as [Rf Ri Rm _ _ _ _].
    fold (fsm_CMD_READ_START w) in *. consts.
    assert (sf3_i_val (experiData w) + 32 <= 4096) as Hle
        by (Z.div_mod_to_equations; lia).
    specialize (Ri ltac:(lia) ltac:(consts; lia)). specialize (Rm ltac:(lia)).
    consts. rewrite Rm, Ri.
    split; [reflexivity|]. split; [apply Rf|]. split; [apply Rf|].
    apply data_frame_pass_frame, Rf.
  - unfold fsm_DONE. cbv zeta. rsimpl.
    destruct (cnt_t_max - 1 <=? cnt_t (experiData w)); rsimpl; repeat split.
  - unfold fsm_DISPLAY_FINAL. cbv zeta. rsimpl.
    destruct (cnt_t (experiData w) =? cnt_t_max - 1); rsimpl; rewrite ?Hm;
      repeat split.
Qed.

Lemma before_fsm_control (switches buttons : Z) (w : world D) :
  let e := experiData w in
  let e' := experiData (before_fsm switches buttons w) in
  operatingMode e' = operatingMode e
  /\ operatingModePrev e' = operatingModePrev e
  /\ cnt_t e' = cnt_t e
  /\ sf3_i_val e' = sf3_i_val e
  /\ pass_frame e e'
  /\ sf3_err_count_val e' = sf3_err_count_val e
  /\ cnt_t_freerun e' = cnt_t_freerun e.
Proof.
  cbv zeta.
  destruct (before_fsm_frame switches buttons w) as ([leds ->] & _).
  repeat split.
Qed.

(** One round of the task loop in a pass mode, on the control state. *)
Lemma task_round_control (switches buttons : Z) (w : world D) :
  Inv (experiData w) ->
  pass_mode (operatingMode (experiData w)) = true ->
  let e := experiData w in
  let e' := experiData (task_round switches buttons w) in
  control_of e' = control_round (control_of e) /\ pass_frame e e'.
Proof.
  intros HI Hp. cbv zeta.
  destruct (before_fsm_control switches buttons w)
    as (Hbm & Hbp & Hbc & Hbi & Hpf & _).
  pose proof (Inv_before_fsm switches buttons w HI) as HI'.
  rewrite <- Hbm in Hp.
  destruct (operateFSM_control _ HI' Hp) as (Hfsm & Hprev & Hcnt & Hpf').
  rewrite task_round_eq, experiData_upd.
  set (e0 := experiData (before_fsm switches buttons w)) in *.
  set (e1 := experiData (Experiment_operateFSM (before_fsm switches buttons w))) in *.
  clearbody e0 e1.
  assert (control_of e0 = control_of (experiData w)) as Hc
      by (unfold control_of; congruence).
  rewrite Hc in Hfsm. unfold control_round.
  destruct (control_fsm (control_of (experiData w))) as [m i].
  injection Hfsm as Hm Hi.
  split.
  - unfold control_of, Experiment_iterationTimer. cbv zeta.
    cbn [c_prev c_cnt_t].
    rewrite Hprev, Hbp, Hm.
    destruct (decide (m = operatingModePrev (experiData w))); rsimpl;
      rewrite ?Hm, ?Hi, ?Hcnt, ?Hbc; reflexivity.
  - eapply pass_frame_trans; [exact Hpf|].
    eapply pass_frame_trans; [exact Hpf'|].
    unfold Experiment_iterationTimer. cbv zeta.
    destruct (decide (operatingMode e1 = operatingModePrev e1)); split;
      reflexivity.
Qed.

Lemma task_rounds_control (inputs : list (Z * Z)) (w : world D) (c : control) :
  Inv (experiData w) ->
  control_rounds (length inputs) (control_of (experiData w)) = Some c ->
  control_of (experiData (task_rounds inputs w)) = c
  /\ pass_frame (experiData w) (experiData (task_rounds inputs w)).
Proof.
  revert w. induction inputs as [|i inputs IH]; intros w HI Hc.
  - cbn [length control_rounds] in Hc. injection Hc as <-.
    split; [reflexivity|apply pass_frame_refl].
  - cbn [length control_rounds] in Hc.
    destruct (pass_mode (c_mode (control_of (experiData w)))) eqn:Hp;
      [|discriminate].
    destruct (task_round_control (fst i) (snd i) w HI Hp) as [Hstep Hpf].
    rewrite <- Hstep in Hc.
    destruct (IH _ (Inv_task_round (fst i) (snd i) w HI) Hc) as [Hc' Hpf'].
    rewrite task_rounds_cons. split; [exact Hc'|].
    eapply pass_frame_trans; eassumption.
Qed.

(** Outside the three issuing modes a step of the state machine touches
    neither the device nor the error count. *)
Lemma operateFSM_pure (w : world D) :
  issuing_mode (operatingMode (experiData w)) = false ->
  let w' := Experiment_operateFSM w in
  sf3Device w' = sf3Device w
  /\ xQueuePrint w' = xQueuePrint w
  /\ sf3_err_count_val (experiData w') = sf3_err_count_val (experiData w)
  /\ cnt_t_freerun (experiData w') = cnt_t_freerun (experiData w).
Proof.
  intros Hi. cbv zeta. unfold Experiment_operateFSM.
  destruct (operatingMode (experiData w)); try discriminate Hi;
    rewrite sf3Device_upd, xQueuePrint_upd, experiData_upd;
    (split; [reflexivity|]); (split; [reflexivity|]).
  - unfold fsm_WAIT_BUTTON_DEP, select_pattern. cbv zeta.
    repeat match goal with
           | |- context [if ?c then _ else _] => destruct c
           end; split; reflexivity.
  - unfold fsm_WAIT_BUTTON_REL.
    destruct (buttonsRead (experiData w) =? 0); split; reflexivity.
  - unfold fsm_SET_PATTERN, set_pattern_seed. cbv zeta.
    destruct (sf3_test_pattern_selected (experiData w)); split; reflexivity.
  - unfold fsm_SET_START_ADDR. cbv zeta.
    repeat match goal with
           | |- context [if ?c then _ else _] => destruct c
           end; split; reflexivity.
  - unfold fsm_SET_START_WAIT.
    destruct (cnt_t (experiData w) =? cnt_t_max / 2); split; reflexivity.
  - unfold fsm_DONE. cbv zeta. rsimpl.
    destruct (cnt_t_max - 1 <=? cnt_t (experiData w)); split; reflexivity.
  - unfold fsm_DONE. cbv zeta. rsimpl.
    destruct (cnt_t_max - 1 <=? cnt_t (experiData w)); split; reflexivity.
  - unfold fsm_DONE. cbv zeta. rsimpl.
    destruct (cnt_t_max - 1 <=? cnt_t (experiData w)); split; reflexivity.
  - unfold fsm_DISPLAY_FINAL. cbv zeta. rsimpl.
    destruct (cnt_t (experiData w) =? cnt_t_max - 1); split; reflexivity.
  - split; reflexivity.
Qed.

Lemma operateFSM_pure_eq (w : world D) :
  issuing_mode (operatingMode (experiData w)) = false ->
  experiData (Experiment_operateFSM w) = fsm_pure (experiData w).
Proof.
  intros Hi. unfold Experiment_operateFSM, fsm_pure.
  destruct (operatingMode (experiData w)); try discriminate Hi;
    rewrite experiData_upd; reflexivity.
Qed.

(** A round that starts in a mode without driver calls. *)
Lemma task_round_pure (switches buttons : Z) (w : world D) :
  issuing_mode (operatingMode (experiData w)) = false ->
  exists leds : list t_rgb_led_palette_silk,
    experiData (task_round switches buttons w)
    = Experiment_iterationTimer
        (fsm_pure (with_inputs switches buttons leds (experiData w))).
Proof.
  intros Hi.
  destruct (before_fsm_frame switches buttons w) as ([leds Hl] & _).
  exists leds. rewrite task_round_eq, experiData_upd.
  rewrite operateFSM_pure_eq; rewrite Hl; [reflexivity|exact Hi].
Qed.

(** The free-running counter is advanced by the timer alone. *)
Lemma operateFSM_freerun (w : world D) :
  cnt_t_freerun (experiData (Experiment_operateFSM w))
  = cnt_t_freerun (experiData w).
Proof.
  destruct (issuing_mode (operatingMode (experiData w))) eqn:Hi.
  - unfold Experiment_operateFSM.
    destruct (operatingMode (experiData w)); try discriminate Hi.
    + apply (fsm_CMD_ERASE_START_round w).
    + apply (page_program_rounds 32 w).
    + apply (page_read_rounds 32 w).
  - apply (operateFSM_pure w Hi).
Qed.

Lemma task_round_freerun (switches buttons : Z) (w : world D) :
  cnt_t_freerun (experiData (task_round switches buttons w))
  = u32 (cnt_t_freerun (experiData w) + 1) mod cnt_t_max.
Proof.
  rewrite task_round_eq, experiData_upd.
  destruct (before_fsm_control switches buttons w) as (_ & _ & _ & _ & _ & _ & Hf).
  rewrite <- Hf, <- operateFSM_freerun.
  generalize (experiData (Experiment_operateFSM (before_fsm switches buttons w))).
  intros e. unfold Experiment_iterationTimer. cbv zeta.
  destruct (decide (operatingMode e = operatingModePrev e)); reflexivity.
Qed.

Lemma task_rounds_freerun (inputs : list (Z * Z)) (w : world D) :
  0 <= cnt_t_freerun (experiData w) < cnt_t_max ->
  cnt_t_freerun (experiData (task_rounds inputs w))
  = (cnt_t_freerun (experiData w) + Z.of_nat (length inputs)) mod cnt_t_max.
Proof.
  revert w. induction inputs as [|i inputs IH]; intros w Hf; consts.
  - simpl. rewrite Z.add_0_r, Z.mod_small by lia. reflexivity.
  - rewrite task_rounds_cons, IH; rewrite task_round_freerun; consts.
    + rewrite u32_small by lia. rewrite Zplus_mod_idemp_l. f_equal.
      cbn [length]. lia.
    + apply Z.mod_pos_bound. lia.
Qed.

(** A round in [ST_WAIT_BUTTON_DEP] with the last region behind. *)
Lemma task_round_idle (switches buttons : Z) (w : world D) :
  operatingMode (experiData w) = ST_WAIT_BUTTON_DEP ->
  sf3_addr_start_val (experiData w) = last_starting_byte_addr ->
  let e' := experiData (task_round switches buttons w) in
  operatingMode e' = ST_WAIT_BUTTON_DEP
  /\ sf3_addr_start_val e' = last_starting_byte_addr
  /\ sf3_test_done e' = true.
Proof.
  intros Hm Ha. cbv zeta.
  destruct (task_round_pure switches buttons w) as [leds ->];
    [rewrite Hm; reflexivity|].
  unfold Experiment_iterationTimer, fsm_pure, with_inputs. cbv zeta. rsimpl.
  rewrite Hm. unfold fsm_WAIT_BUTTON_DEP. rsimpl.
  rewrite Ha, Z.ltb_irrefl. rsimpl.
  destruct (decide _); rsimpl; rewrite Hm, Ha; repeat split.
Qed.

(** A round in [ST_CMD_ERASE_START]. *)
Lemma task_round_erase (switches buttons : Z) (w : world D) :
  operatingMode (experiData w) = ST_CMD_ERASE_START ->
  0 <= sf3_i_val (experiData w) < experi_subsector_cnt_per_iter ->
  let e' := experiData (task_round switches buttons w) in
  sf3_i_val e' = sf3_i_val (experiData w) + 1
  /\ operatingMode e'
     = if sf3_i_val (experiData w) + 1 <? experi_subsector_cnt_per_iter
       then ST_CMD_ERASE_START else ST_CMD_ERASE_DONE.
Proof.
  intros Hm Hi. cbv zeta. consts.
  rewrite task_round_eq, experiData_upd.
  destruct (before_fsm_control switches buttons w)
    as (Hbm & _ & _ & Hbi & _).
  rewrite <- Hbm in Hm. rewrite <- Hbi in *.
  revert Hm Hi. generalize (before_fsm switches buttons w). intros w0 Hm Hi.
  assert (experiData (Experiment_operateFSM w0)
          = experiData (fsm_CMD_ERASE_START w0)) as ->
      by (unfold Experiment_operateFSM; rewrite Hm; reflexivity).
  destruct (fsm_CMD_ERASE_START_round w0) as [_ Ri Rm _ _ _ _ _].
  consts. rewrite u32_small in Ri by lia. rewrite Ri in Rm.
  revert Ri Rm. generalize (experiData (fsm_CMD_ERASE_START w0)).
  intros e1 Ri Rm.
  unfold Experiment_iterationTimer. cbv zeta.
  destruct (decide (operatingMode e1 = operatingModePrev e1)); rsimpl;
    split; assumption.
Qed.

Lemma task_rounds_erase (inputs : list (Z * Z)) (w : world D) :
  operatingMode (experiData w) = ST_CMD_ERASE_START ->
  0 <= sf3_i_val (experiData w) < experi_subsector_cnt_per_iter ->
  sf3_i_val (experiData w) + Z.of_nat (length inputs)
  <= experi_subsector_cnt_per_iter ->
  let e' := experiData (task_rounds inputs w) in
  sf3_i_val e' = sf3_i_val (experiData w) + Z.of_nat (length inputs)
  /\ operatingMode e'
     = if sf3_i_val e' <? experi_subsector_cnt_per_iter
       then ST_CMD_ERASE_START else ST_CMD_ERASE_DONE.
Proof.
  revert w. induction inputs as [|i inputs IH]; intros w Hm H0 Hn; cbv zeta;
    consts.
  - cbn [length] in *. rewrite task_rounds_nil, Z.add_0_r.
    split; [reflexivity|].
    destruct (Z.ltb_spec (sf3_i_val (experiData w)) 256); [exact Hm|lia].
  - cbn [length] in *. rewrite task_rounds_cons.
    destruct (task_round_erase (fst i) (snd i) w Hm ltac:(consts; lia))
      as [Hi1 Hm1].
    consts. destruct inputs as [|i' inputs].
    + rewrite task_rounds_nil, Hm1, Hi1. cbn [length]. split; [lia|reflexivity].
    + cbn [length] in *.
      destruct (Z.ltb_spec (sf3_i_val (experiData w) + 1) 256); [|lia].
      destruct (IH _ Hm1 ltac:(lia) ltac:(cbn [length]; lia)) as [IHi IHm].
      rewrite IHm, IHi, Hi1. cbn [length]. split; [lia|reflexivity].
Qed.

(** The two rounds that latch the pattern and the region start. *)
Lemma task_round_SET_PATTERN (switches buttons : Z) (w : world D) :
  operatingMode (experiData w) = ST_SET_PATTERN ->
  let e := experiData w in
  let e' := experiData (task_round switches buttons w) in
  operatingMode e' = ST_SET_START_ADDR
  /\ operatingModePrev e' = ST_SET_START_ADDR
  /\ sf3_addr_start_val e' = sf3_addr_start_val e
  /\ sf3_start_at_zero e' = sf3_start_at_zero e
  /\ sf3_test_pattern_selected e' = sf3_test_pattern_selected e
  /\ sf3_err_count_val e' = sf3_err_count_val e
  /\ (sf3_test_pattern_selected e = TEST_PATTERN_A ->
      sf3_pattern_start_val e' = sf3_test_pattern_startval_a
      /\ sf3_pattern_incr_val e' = sf3_test_pattern_incrval_a).
Proof.
  intros Hm. cbv zeta.
  destruct (task_round_pure switches buttons w) as [leds ->];
    [rewrite Hm; reflexivity|].
  unfold Experiment_iterationTimer, fsm_pure, with_inputs. cbv zeta. rsimpl.
  rewrite Hm. unfold fsm_SET_PATTERN, set_pattern_seed. cbv zeta. rsimpl.
  destruct (sf3_test_pattern_selected (experiData w)) eqn:Hsel; rsimpl;
    destruct (decide _); rsimpl; repeat split; try exact Hsel;
    intros; discriminate.
Qed.

Lemma task_round_SET_START_ADDR (switches buttons : Z) (w : world D) :
  operatingMode (experiData w) = ST_SET_START_ADDR ->
  operatingModePrev (experiData w) = ST_SET_START_ADDR ->
  sf3_start_at_zero (experiData w) = true
  \/ sf3_addr_start_val (experiData w) < last_starting_byte_addr ->
  let e := experiData w in
  let e' := experiData (task_round switches buttons w) in
  control_of e' = mk_control ST_SET_START_WAIT ST_SET_START_WAIT 0 0
  /\ sf3_addr_start_val e'
     = (if sf3_start_at_zero e then 0
        else u32 (sf3_addr_start_val e + per_iteration_byte_count))
  /\ sf3_test_pattern_selected e' = sf3_test_pattern_selected e
  /\ sf3_pattern_start_val e' = sf3_pattern_start_val e
  /\ sf3_pattern_incr_val e' = sf3_pattern_incr_val e
  /\ sf3_start_at_zero e' = false.
Proof.
  intros Hm Hp Hgo. cbv zeta.
  destruct (task_round_pure switches buttons w) as [leds ->];
    [rewrite Hm; reflexivity|].
  unfold Experiment_iterationTimer, fsm_pure, with_inputs, control_of.
  cbv zeta. rsimpl.
  rewrite Hm. unfold fsm_SET_START_ADDR. cbv zeta. rsimpl.
  destruct (sf3_start_at_zero (experiData w)) eqn:Hz; rsimpl.
  - rewrite Hp. destruct (decide _); [discriminate|]. rsimpl. repeat split.
  - destruct Hgo as [Hgo|Hgo]; [discriminate|].
    apply Z.ltb_lt in Hgo. rewrite Hgo. rsimpl.
    rewrite Hp. destruct (decide _); [discriminate|]. rsimpl. repeat split.
Qed.

(** A round in [ST_DISPLAY_FINAL] latches the result. *)
Lemma task_round_DISPLAY_FINAL (switches buttons : Z) (w : world D) :
  operatingMode (experiData w) = ST_DISPLAY_FINAL ->
  sf3_test_pass (experiData (task_round switches buttons w))
  = (if sf3_err_count_val (experiData w) =? 0 then true else false).
Proof.
  intros Hm.
  destruct (task_round_pure switches buttons w) as [leds ->];
    [rewrite Hm; reflexivity|].
  unfold Experiment_iterationTimer, fsm_pure, with_inputs. cbv zeta. rsimpl.
  rewrite Hm. unfold fsm_DISPLAY_FINAL. cbv zeta. rsimpl.
  destruct (cnt_t (experiData w) =? cnt_t_max - 1); rsimpl;
    destruct (decide _); reflexivity.
Qed.

(** A round outside the issuing modes keeps the error count. *)
Lemma task_round_pure_err (switches buttons : Z) (w : world D) :
  issuing_mode (operatingMode (experiData w)) = false ->
  sf3_err_count_val (experiData (task_round switches buttons w))
  = sf3_err_count_val (experiData w).
Proof.
  intros Hi.
  destruct (task_round_pure switches buttons w Hi) as [leds ->].
  unfold Experiment_iterationTimer. cbv zeta.
  destruct (decide _); rsimpl.
  all: unfold fsm_pure, with_inputs; rsimpl;
    destruct (operatingMode (experiData w)); try discriminate Hi.
  all: unfold fsm_WAIT_BUTTON_DEP, select_pattern, fsm_WAIT_BUTTON_REL,
         fsm_SET_PATTERN, set_pattern_seed, fsm_SET_START_ADDR,
         fsm_SET_START_WAIT, fsm_DONE, fsm_DISPLAY_FINAL; cbv zeta; rsimpl.
  all: repeat match goal with
              | |- context [if ?c then _ else _] => destruct c
              | |- context [match ?c with TEST_PATTERN_A => _ | _ => _ end] =>
                  destruct c
              end; reflexivity.
Qed.

(** The two rounds in which button 0 is pressed and released. *)
Lemma task_round_press_button_0 (switches : Z) (w : world D) :
  operatingMode (experiData w) = ST_WAIT_BUTTON_DEP ->
  sf3_addr_start_val (experiData w) < last_starting_byte_addr ->
  let e := experiData w in
  let e' := experiData (task_round switches BTN0_MASK w) in
  operatingMode e' = ST_WAIT_BUTTON_REL
  /\ sf3_addr_start_val e' = sf3_addr_start_val e
  /\ sf3_start_at_zero e' = sf3_start_at_zero e.
Proof.
  intros Hm Ha. cbv zeta.
  destruct (task_round_pure switches BTN0_MASK w) as [leds ->];
    [rewrite Hm; reflexivity|].
  unfold Experiment_iterationTimer, fsm_pure, with_inputs. cbv zeta. rsimpl.
  rewrite Hm. unfold fsm_WAIT_BUTTON_DEP, select_pattern. cbv zeta. rsimpl.
  apply Z.ltb_lt in Ha. rewrite Ha, Z.eqb_refl. cbn [orb]. rsimpl.
  destruct (decide _); rsimpl; repeat split.
Qed.

Lemma task_round_release (switches : Z) (w : world D) :
  operatingMode (experiData w) = ST_WAIT_BUTTON_REL ->
  let e := experiData w in
  let e' := experiData (task_round switches 0 w) in
  operatingMode e' = ST_SET_PATTERN
  /\ sf3_addr_start_val e' = sf3_addr_start_val e
  /\ sf3_start_at_zero e' = sf3_start_at_zero e.
Proof.
  intros Hm. cbv zeta.
  destruct (task_round_pure switches 0 w) as [leds ->];
    [rewrite Hm; reflexivity|].
  unfold Experiment_iterationTimer, fsm_pure, with_inputs. cbv zeta. rsimpl.
  rewrite Hm. unfold fsm_WAIT_BUTTON_REL. rsimpl.
  destruct (decide _); rsimpl; repeat split.
Qed.

(** No round of a state that satisfies the invariant decreases the error
    count, when the pages of the device hold no more bytes than the
    device. *)
Lemma task_round_err_le (switches buttons : Z) (w : world D) :
  Z.of_nat SF3_PAGE_SIZE * (experi_page_cnt_per_iter * total_iteration_count)
  <= max_possible_byte_count ->
  Inv (experiData w) ->
  sf3_err_count_val (experiData w)
  <= sf3_err_count_val (experiData (task_round switches buttons w)).
Proof.
  intros Hsize HI0.
  pose proof (Inv_before_fsm switches buttons w HI0) as HI.
  destruct (before_fsm_control switches buttons w)
    as (_ & _ & _ & _ & _ & <- & _).
  rewrite task_round_eq, experiData_upd.
  revert HI. generalize (before_fsm switches buttons w). intros w0 HI.
  assert (sf3_err_count_val (experiData w0)
          <= sf3_err_count_val (experiData (Experiment_operateFSM w0)))
    as Hle.
  { destruct (issuing_mode (operatingMode (experiData w0))) eqn:Hiss;
      [|destruct (operateFSM_pure w0 Hiss) as (_ & _ & -> & _); lia].
    unfold Experiment_operateFSM.
    destruct (operatingMode (experiData w0)) eqn:Hm; try discriminate Hiss.
    - destruct (fsm_CMD_ERASE_START_round w0) as [_ _ _ _ _ -> _ _]. lia.
    - destruct (page_program_rounds 32 w0) as [_ _ _ _ _ He _].
      fold (fsm_CMD_PAGE_START w0) in He. rewrite He. lia.
    - destruct HI as [Hr Hs Hi Ht Hb Hso Hc Hf He He32].
      destruct (page_read_rounds 32 w0) as [_ _ _ _ _ _ Re].
      fold (fsm_CMD_READ_START w0) in *.
      destruct (Re Hs ltac:(lia)) as (m & Hm0 & ->).
      inv_unfold. rewrite Hm in *. consts.
      change max_possible_byte_count with 33554432 in Hsize.
      change total_iteration_count with 32 in Hsize.
      destruct (sf3_start_at_zero (experiData w0));
        [specialize (Hf eq_refl); discriminate|].
      rewrite u32_small; [lia|].
      assert (0 <= sf3_addr_start_val (experiData w0) / 1048576 <= 31)
        by (Z.div_mod_to_equations; lia).
      assert (sf3_i_val (experiData w0) <= 4064)
        by (Z.div_mod_to_equations; lia).
      nia. }
  revert Hle. generalize (experiData (Experiment_operateFSM w0)).
  intros e1 Hle. unfold Experiment_iterationTimer. cbv zeta.
  destruct (decide _); rsimpl; exact Hle.
Qed.

Lemma task_rounds_err_le (inputs : list (Z * Z)) (w : world D) :
  Z.of_nat SF3_PAGE_SIZE * (experi_page_cnt_per_iter * total_iteration_count)
  <= max_possible_byte_count ->
  Inv (experiData w) ->
  sf3_err_count_val (experiData w)
  <= sf3_err_count_val (experiData (task_rounds inputs w)).
Proof.
  intros Hsize. revert w. induction inputs as [|i inputs IH]; intros w HI.
  - rewrite task_rounds_nil. lia.
  - rewrite task_rounds_cons.
    pose proof (task_round_err_le (fst i) (snd i) w Hsize HI).
    pose proof (IH _ (Inv_task_round (fst i) (snd i) w HI)). lia.
Qed.

Lemma Inv_task_rounds (inputs : list (Z * Z)) (w : world D) :
  Inv (experiData w) -> Inv (experiData (task_rounds inputs w)).
Proof.
  revert w. induction inputs as [|i inputs IH]; intros w HI.
  - exact HI.
  - rewrite task_rounds_cons. apply IH, Inv_task_round, HI.
Qed.

(** From the entry into [ST_SET_START_WAIT] the pass reaches
    [ST_DISPLAY_FINAL] in 1563 rounds, and [ST_CMD_READ_DONE] one round
    earlier. *)
Lemma pass_schedule :
  control_rounds 1563 (mk_control ST_SET_START_WAIT ST_SET_START_WAIT 0 0)
  = Some (mk_control ST_DISPLAY_FINAL ST_DISPLAY_FINAL 0 0).
Proof. vm_compute. reflexivity. Qed.

(** It enters [ST_CMD_READ_START] after 1135 rounds, and is back in
    [ST_WAIT_BUTTON_DEP] after 1863. *)
Lemma read_phase_schedule :
  control_rounds 1135 (mk_control ST_SET_START_WAIT ST_SET_START_WAIT 0 0)
  = Some (mk_control ST_CMD_READ_START ST_CMD_READ_START 0 0).
Proof. vm_compute. reflexivity. Qed.

Lemma whole_pass_schedule :
  control_rounds 1863 (mk_control ST_SET_START_WAIT ST_SET_START_WAIT 0 0)
  = Some (mk_control ST_WAIT_BUTTON_DEP ST_WAIT_BUTTON_DEP 0 0).
Proof. vm_compute. reflexivity. Qed.

End Rounds.

(** ** The controller on the fault-free flash *)

Section IdealFlash.

Context {hdr : PmodSF3_h}.

Local Abbreviation flash := (gmap Z (list Z)).

Lemma pattern_page_lookup (c s : Z) (i : nat) :
  (i < SF3_PAGE_SIZE)%nat -> pattern_page c s !! i = Some (pattern_byte c s i).
Proof.
  intros Hi. unfold pattern_page.
  rewrite list_lookup_fmap, lookup_seq_lt by exact Hi. reflexivity.
Qed.

Lemma pattern_page_length (c s : Z) : length (pattern_page c s) = SF3_PAGE_SIZE.
Proof. unfold pattern_page. rewrite length_map, length_seq. reflexivity. Qed.

(** The payload of a filled buffer is the pattern page. *)
Lemma payload_is_pattern_page (buf : list Z) (c s : Z) :
  length buf = (SF3_PAGE_SIZE + SF3_WRITE_EXTRA_BYTES)%nat ->
  (forall i : nat,
      (i < SF3_PAGE_SIZE)%nat ->
      buf !! (i + SF3_WRITE_EXTRA_BYTES)%nat = Some (pattern_byte c s i)) ->
  take SF3_PAGE_SIZE (drop SF3_WRITE_EXTRA_BYTES buf) = pattern_page c s.
Proof.
  intros Hlen Hbuf. apply list_eq. intros i.
  destruct (decide (i < SF3_PAGE_SIZE)%nat) as [Hi|Hi].
  - rewrite lookup_take_lt, lookup_drop by exact Hi.
    rewrite pattern_page_lookup by exact Hi.
    rewrite Nat.add_comm. apply Hbuf. exact Hi.
  - rewrite lookup_take_ge by lia. symmetry. apply lookup_ge_None.
    rewrite pattern_page_length. lia.
Qed.

(** A read buffer that carries the pattern page has no mismatch. *)
Lemma no_mismatches (c s : Z) (k : nat) :
  (k <= SF3_PAGE_SIZE)%nat ->
  mismatches_upto
    (repeat 0 SF3_READ_MIN_EXTRA_BYTES
     ++ take SF3_PAGE_SIZE (pattern_page c s))%list c s k = 0.
Proof.
  induction k as [|k IH]; intros Hk; [reflexivity|].
  rewrite mismatches_upto_S, IH by lia.
  rewrite (list_lookup_total_correct _ _ (pattern_byte c s k)).
  - rewrite Z.eqb_refl. reflexivity.
  - rewrite lookup_app_r; rewrite repeat_length; [|lia].
    replace (k + SF3_READ_MIN_EXTRA_BYTES - SF3_READ_MIN_EXTRA_BYTES)%nat
      with k by lia.
    rewrite lookup_take_lt by lia. apply pattern_page_lookup. lia.
Qed.

Lemma page_program_iter_ideal (w : world flash) :
  is_byte (sf3_pattern_start_val (experiData w)) ->
  sf3_pattern_track_val (experiData w) = sf3_pattern_start_val (experiData w) ->
  length (WriteBuffer (experiData w))
  = (SF3_PAGE_SIZE + SF3_WRITE_EXTRA_BYTES)%nat ->
  sf3Device (page_program_iter w)
  = <[address_of sf3_page_addr_incr (experiData w)
      := pattern_page (sf3_pattern_start_val (experiData w))
           (sf3_pattern_incr_val (experiData w))]> (sf3Device w).
Proof.
  intros Hb Ht Hl.
  destruct (page_program_iter_round w) as [_ _ _ _ _ _ _ (buf & Hd & Hlen & Hbuf)].
  rewrite Hd. cbn [SF3_FlashWrite SF3_FlashWriteEnable ideal_flash fst].
  unfold ideal_program. f_equal.
  apply payload_is_pattern_page; [congruence|].
  intros i Hi. rewrite <- Ht. apply Hbuf; [rewrite Ht; exact Hb|exact Hi|lia].
Qed.

Lemma page_read_iter_ideal (w : world flash) :
  is_byte (sf3_pattern_start_val (experiData w)) ->
  sf3_err_count_val (experiData w) = 0 ->
  sf3Device w !! address_of sf3_page_addr_incr (experiData w)
  = Some (pattern_page (sf3_pattern_start_val (experiData w))
            (sf3_pattern_incr_val (experiData w))) ->
  sf3Device (page_read_iter w) = sf3Device w
  /\ sf3_err_count_val (experiData (page_read_iter w)) = 0.
Proof.
  intros Hb He Hpage.
  destruct (page_read_iter_round w) as [_ _ _ _ _ _ (buf & Hd & Hr) Herr].
  cbn [SF3_FlashRead ideal_flash fst snd] in Hd, Hr.
  split; [exact Hd|].
  rewrite Herr, Hr, He by (rewrite ?He; try exact Hb; lia).
  unfold ideal_read. rewrite Hpage. cbn [default].
  unfold page_mismatches.
  change (Z.of_nat (length (filter _ (seq 0 SF3_PAGE_SIZE))))
    with (mismatches_upto
            (repeat 0 SF3_READ_MIN_EXTRA_BYTES
             ++ take SF3_PAGE_SIZE
                  (pattern_page (sf3_pattern_start_val (experiData w))
                     (sf3_pattern_incr_val (experiData w))))%list
            (sf3_pattern_start_val (experiData w))
            (sf3_pattern_incr_val (experiData w)) SF3_PAGE_SIZE).
  rewrite no_mismatches by lia. reflexivity.
Qed.

Lemma lookup_insert_same (d : flash) (a b : Z) (pg : list Z) :
  a = b \/ d !! b = Some pg -> <[a := pg]> d !! b = Some pg.
Proof.
  intros [->|H].
  - apply lookup_insert_eq.
  - destruct (decide (a = b)) as [->|Hne].
    + apply lookup_insert_eq.
    + rewrite lookup_insert_ne by exact Hne. exact H.
Qed.

(** [k] rounds of the program loop extend the programmed pages by [k]. *)
Lemma page_program_rounds_ideal (k : nat) (w : world flash) :
  Inv (experiData w) ->
  operatingMode (experiData w) = ST_CMD_PAGE_START ->
  sf3_i_val (experiData w) + Z.of_nat k <= experi_page_cnt_per_iter ->
  flash_pages w (sf3_i_val (experiData w)) ->
  flash_pages (for_loop 0 k (fun _ => page_program_iter) w)
    (sf3_i_val (experiData w) + Z.of_nat k).
Proof.
  intros HI Hm Hk Hpages.
  destruct HI as [Hr Hs Hi Ht Hb Hso Hc Hf He He32].
  specialize (Hc Hm). inv_unfold. rewrite Hm in Hso. consts.
  induction k as [|k IH].
  - rewrite for_loop_empty, Z.add_0_r. exact Hpages.
  - rewrite for_loop_step by lia.
    specialize (IH ltac:(lia)).
    destruct (page_program_rounds k w) as [Rf Ri Rm Rc Rb _ _].
    specialize (Ri ltac:(lia) ltac:(consts; lia)).
    set (s := for_loop 0 k (fun _ => page_program_iter) w) in *.
    assert (sf3_pattern_track_val (experiData s)
            = sf3_pattern_start_val (experiData s)) as Hts.
    { destruct k as [|k'].
      - unfold s. rewrite for_loop_empty. exact Hc.
      - rewrite Rc by lia. symmetry. apply Rf. }
    assert (is_byte (sf3_pattern_start_val (experiData s))) as Hbs
        by (rewrite (df_start _ _ Rf); exact Hs).
    pose proof (page_program_iter_ideal s Hbs Hts ltac:(congruence)) as Hdev.
    destruct (page_program_iter_round s) as [Sf _ _ _ _ _ _ _].
    intros j Hj. unfold flash_pages in IH.
    rewrite (df_addr_start _ _ Sf), (df_start _ _ Sf), (df_incr _ _ Sf), Hdev.
    apply lookup_insert_same.
    destruct (decide (j = sf3_i_val (experiData w) + Z.of_nat k)) as [->|Hne].
    + left. unfold address_of. rewrite Ri. reflexivity.
    + right. apply IH. lia.
Qed.

(** [k] rounds of the read loop over programmed pages count no error. *)
Lemma page_read_rounds_ideal (k : nat) (w : world flash) :
  Inv (experiData w) ->
  sf3_err_count_val (experiData w) = 0 ->
  0 <= sf3_i_val (experiData w) ->
  sf3_i_val (experiData w) + Z.of_nat k <= experi_page_cnt_per_iter ->
  flash_pages w experi_page_cnt_per_iter ->
  let w' := for_loop 0 k (fun _ => page_read_iter) w in
  sf3Device w' = sf3Device w /\ sf3_err_count_val (experiData w') = 0.
Proof.
  intros HI He0 H0 Hk Hpages. cbv zeta.
  destruct HI as [Hr Hs Hi Ht Hb Hso Hc Hf He He32]. consts.
  induction k as [|k IH].
  - rewrite for_loop_empty. split; [reflexivity|exact He0].
  - rewrite for_loop_step by lia.
    destruct (IH ltac:(lia)) as [IHd IHe].
    destruct (page_read_rounds k w) as [Rf Ri _ _ _ _ _].
    specialize (Ri ltac:(lia) ltac:(consts; lia)).
    set (s := for_loop 0 k (fun _ => page_read_iter) w) in *.
    assert (is_byte (sf3_pattern_start_val (experiData s))) as Hbs
        by (rewrite (df_start _ _ Rf); exact Hs).
    destruct (page_read_iter_ideal s Hbs IHe) as [Hd Herr].
    + unfold address_of.
      rewrite (df_addr_start _ _ Rf), (df_start _ _ Rf), (df_incr _ _ Rf),
        IHd, Ri.
      apply Hpages. lia.
    + split; [congruence|exact Herr].
Qed.

Lemma flash_pages_same (w w' : world flash) (n : Z) :
  sf3Device w' = sf3Device w ->
  sf3_addr_start_val (experiData w') = sf3_addr_start_val (experiData w) ->
  sf3_pattern_start_val (experiData w') = sf3_pattern_start_val (experiData w) ->
  sf3_pattern_incr_val (experiData w') = sf3_pattern_incr_val (experiData w) ->
  flash_pages w n -> flash_pages w' n.
Proof.
  intros Hd Ha Hs Hi Hp j Hj. rewrite Hd, Ha, Hs, Hi. apply Hp. exact Hj.
Qed.

Lemma flash_inv_same (w w' : world flash) :
  sf3Device w' = sf3Device w ->
  sf3_addr_start_val (experiData w') = sf3_addr_start_val (experiData w) ->
  sf3_pattern_start_val (experiData w') = sf3_pattern_start_val (experiData w) ->
  sf3_pattern_incr_val (experiData w') = sf3_pattern_incr_val (experiData w) ->
  sf3_pattern_track_val (experiData w') = sf3_pattern_track_val (experiData w) ->
  WriteBuffer (experiData w') = WriteBuffer (experiData w) ->
  operatingMode (experiData w') = operatingMode (experiData w) ->
  sf3_i_val (experiData w') = sf3_i_val (experiData w) ->
  sf3_start_at_zero (experiData w') = sf3_start_at_zero (experiData w) ->
  sf3_err_count_val (experiData w') = sf3_err_count_val (experiData w) ->
  flash_inv w -> flash_inv w'.
Proof.
  intros Hd H1 H2 H3 H4 H5 H6 H7 H8 H9 (HI & He & Hp).
  split; [|split].
  - eapply Inv_same; eassumption.
  - congruence.
  - rewrite H6, H7.
    destruct (operatingMode (experiData w)); try exact I;
      eapply flash_pages_same; eassumption.
Qed.

Lemma flash_inv_operateFSM (w : world flash) :
  flash_inv w -> flash_inv (Experiment_operateFSM w).
Proof.
  intros (HI & He & Hp).
  split; [apply Inv_operateFSM; exact HI|].
  pose proof HI as [Hr Hs Hi Ht Hb Hso Hc Hf He' He32].
  destruct (issuing_mode (operatingMode (experiData w))) eqn:Hiss.
  - unfold Experiment_operateFSM. inv_unfold.
    destruct (operatingMode (experiData w)) eqn:Hm; try discriminate Hiss.
    + destruct (fsm_CMD_ERASE_START_round w) as [_ _ Rm _ _ Re _ _].
      split; [congruence|]. rewrite Rm.
      destruct (_ <? _); exact I.
    + consts.
      assert (sf3_i_val (experiData w) + 32 <= 4096) as Hle
          by (Z.div_mod_to_equations; lia).
      destruct (page_program_rounds 32 w) as [Rf Ri Rm _ _ Re _].
      specialize (Ri ltac:(lia) ltac:(consts; lia)).
      specialize (Rm ltac:(lia)).
      pose proof (page_program_rounds_ideal 32 w HI Hm ltac:(consts; lia) Hp)
        as Hpages.
      fold (fsm_CMD_PAGE_START w) in *.
      split; [congruence|]. rewrite Rm, Ri. consts.
      destruct (Z.ltb_spec (sf3_i_val (experiData w) + Z.of_nat 32) 4096).
      * exact Hpages.
      * replace 4096 with (sf3_i_val (experiData w) + Z.of_nat 32) by lia.
        exact Hpages.
    + consts.
      assert (sf3_i_val (experiData w) + 32 <= 4096) as Hle
          by (Z.div_mod_to_equations; lia).
      destruct (page_read_rounds 32 w) as [Rf _ Rm _ _ _ _].
      specialize (Rm ltac:(lia)).
      destruct (page_read_rounds_ideal 32 w HI He ltac:(lia)
                  ltac:(consts; lia) Hp) as [Hd Herr].
      fold (fsm_CMD_READ_START w) in *.
      split; [exact Herr|]. rewrite Rm.
      destruct (_ <? _); [|exact I].
      eapply flash_pages_same; [exact Hd|apply Rf|apply Rf|apply Rf|exact Hp].
  - destruct (operateFSM_pure w Hiss) as (Hd & _ & Herr & _).
    split; [congruence|].
    unfold Experiment_operateFSM in *.
    destruct (operatingMode (experiData w)) eqn:Hm; try discriminate Hiss;
      rewrite experiData_upd; rewrite sf3Device_upd in Hd.
    + unfold fsm_WAIT_BUTTON_DEP, select_pattern. cbv zeta.
      repeat match goal with
             | |- context [if ?c then _ else _] => destruct c
             end; rsimpl; rewrite ?Hm; exact I.
    + unfold fsm_WAIT_BUTTON_REL.
      destruct (buttonsRead (experiData w) =? 0); rsimpl; rewrite ?Hm; exact I.
    + unfold fsm_SET_PATTERN. cbv zeta. rsimpl. exact I.
    + unfold fsm_SET_START_ADDR. cbv zeta.
      repeat match goal with
             | |- context [if ?c then _ else _] => destruct c
             end; rsimpl; exact I.
    + unfold fsm_SET_START_WAIT.
      destruct (cnt_t (experiData w) =? cnt_t_max / 2); rsimpl; rewrite ?Hm;
        exact I.
    + unfold fsm_DONE. cbv zeta. rsimpl.
      destruct (cnt_t_max - 1 <=? cnt_t (experiData w)); rsimpl; [|exact I].
      intros j Hj. lia.
    + assert (flash_pages
                (upd (fsm_DONE ST_CMD_PAGE_DONE ST_CMD_READ_START) w)
                experi_page_cnt_per_iter) as Hp'.
      { eapply flash_pages_same; [| | | |exact Hp];
          rewrite ?experiData_upd, ?sf3Device_upd; unfold fsm_DONE; cbv zeta;
          try destruct (cnt_t_max - 1 <=? _); reflexivity. }
      revert Hp'.
      generalize (upd (fsm_DONE ST_CMD_PAGE_DONE ST_CMD_READ_START) w).
      intros w' Hp'.
      unfold fsm_DONE. cbv zeta. rsimpl.
      destruct (cnt_t_max - 1 <=? cnt_t (experiData w)); rsimpl; exact Hp'.
    + unfold fsm_DONE. cbv zeta. rsimpl.
      destruct (cnt_t_max - 1 <=? cnt_t (experiData w)); rsimpl; exact I.
    + unfold fsm_DISPLAY_FINAL. cbv zeta. rsimpl.
      destruct (cnt_t (experiData w) =? cnt_t_max - 1); rsimpl; rewrite ?Hm;
        exact I.
    + rsimpl. exact I.
Qed.

Lemma flash_inv_iterationTimer (w : world flash) :
  flash_inv w -> flash_inv (upd Experiment_iterationTimer w).
Proof.
  apply flash_inv_same; rewrite ?experiData_upd, ?sf3Device_upd;
    try reflexivity;
    unfold Experiment_iterationTimer; cbv zeta;
    match goal with
    | |- context [decide ?P] => destruct (decide P); reflexivity
    end.
Qed.

Lemma flash_inv_before_fsm (switches buttons : Z) (w : world flash) :
  flash_inv w -> flash_inv (before_fsm switches buttons w).
Proof.
  destruct (before_fsm_frame switches buttons w) as ([leds Hl] & Hd & _).
  revert Hl Hd. generalize (before_fsm switches buttons w). intros w' Hl Hd.
  apply flash_inv_same; rewrite ?Hl; try reflexivity. exact Hd.
Qed.

Lemma flash_inv_task_round (switches buttons : Z) (w : world flash) :
  flash_inv w -> flash_inv (task_round switches buttons w).
Proof.
  intros HJ. rewrite task_round_eq.
  apply flash_inv_iterationTimer, flash_inv_operateFSM, flash_inv_before_fsm.
  exact HJ.
Qed.

Lemma flash_inv_initial (d : flash) : flash_inv (initial_world d).
Proof.
  split; [apply Inv_InitData|].
  split; [|exact I].
  unfold initial_world, Experiment_InitData. cbv zeta. rsimpl. reflexivity.
Qed.

Lemma reachable_flash_inv (w : world flash) : reachable w -> flash_inv w.
Proof.
  induction 1 as [d|w switches buttons _ IH].
  - apply flash_inv_initial.
  - apply flash_inv_task_round. exact IH.
Qed.

End IdealFlash.

(** * The properties of the specification *)

Section Claims.

Context {hdr : PmodSF3_h} {D : Type} {drv : PmodSF3_driver D}.

(** C7. In every reachable state the region start offset
    ([sf3_addr_start_val]) is a multiple of the byte span of a region
    ([per_iteration_byte_count]) and does not exceed the last region start;
    a step of the state machine and a whole round of the task keep it so. *)
Theorem region_start_stays_in_range (w : world D) :
  reachable w ->
  region_start_ok (experiData w)
  /\ region_start_ok (experiData (Experiment_operateFSM w))
  /\ forall switches buttons : Z,
      region_start_ok (experiData (task_round switches buttons w)).
Proof.
  intros Hw. pose proof (reachable_Inv w Hw) as HI.
  split; [apply HI|]. split.
  - apply (Inv_operateFSM w HI).
  - intros switches buttons. apply (Inv_task_round switches buttons w HI).
Qed.

(** C8. In every reachable state the sub-operation index ([sf3_i_val]) is
    at most the sub-operation count of the phase of the current mode, and
    strictly below it while the mode still issues commands; a step in an
    issuing mode keeps the index within the count and moves to the DONE
    mode exactly when the count is reached; no prefix of a batch of 32
    commands takes the index past the count. *)
Theorem sub_operation_index_bounded (w : world D) :
  reachable w ->
  let e := experiData w in
  let e' := experiData (Experiment_operateFSM w) in
  0 <= sf3_i_val e <= sub_operation_count (operatingMode e)
  /\ (issuing_mode (operatingMode e) = true ->
      sf3_i_val e < sub_operation_count (operatingMode e)
      /\ sf3_i_val e' <= sub_operation_count (operatingMode e)
      /\ operatingMode e'
         = if sf3_i_val e' <? sub_operation_count (operatingMode e)
           then operatingMode e else done_mode (operatingMode e))
  /\ (forall k : nat,
        (k <= 32)%nat ->
        (operatingMode e = ST_CMD_PAGE_START ->
         sf3_i_val (experiData (for_loop 0 k (fun _ => page_program_iter) w))
         <= experi_page_cnt_per_iter)
        /\ (operatingMode e = ST_CMD_READ_START ->
            sf3_i_val (experiData (for_loop 0 k (fun _ => page_read_iter) w))
            <= experi_page_cnt_per_iter)).
Proof.
  intros Hw. cbv zeta. pose proof (reachable_Inv w Hw) as HI.
  pose proof (Inv_operateFSM w HI) as HI'.
  destruct HI as [_ _ _ _ _ Hso _ _ _ _].
  destruct HI' as [_ _ _ _ _ Hso' _ _ _ _].
  unfold sub_operation_inv in *. unfold Experiment_operateFSM in *.
  split; [|split].
  - destruct (operatingMode (experiData w)); cbn [sub_operation_count];
      consts; try lia; try contradiction.
  - intros Hiss.
    destruct (operatingMode (experiData w)) eqn:Hm; try discriminate Hiss;
      cbn [sub_operation_count done_mode]; consts.
    + destruct (fsm_CMD_ERASE_START_round w) as [_ Ri Rm _ _ _ _ _].
      consts. rewrite u32_small in Ri by lia. rewrite Rm, Ri.
      split; [lia|]. split; [lia|reflexivity].
    + destruct (page_program_rounds 32 w) as [_ Ri Rm _ _ _ _].
      fold (fsm_CMD_PAGE_START w) in *. consts.
      assert (sf3_i_val (experiData w) + 32 <= 4096) as Hle
          by (Z.div_mod_to_equations; lia).
      specialize (Ri ltac:(lia) ltac:(lia)). rewrite Rm, Ri by lia.
      split; [lia|]. split; [lia|reflexivity].
    + destruct (page_read_rounds 32 w) as [_ Ri Rm _ _ _ _].
      fold (fsm_CMD_READ_START w) in *. consts.
      assert (sf3_i_val (experiData w) + 32 <= 4096) as Hle
          by (Z.div_mod_to_equations; lia).
      specialize (Ri ltac:(lia) ltac:(lia)). rewrite Rm, Ri by lia.
      split; [lia|]. split; [lia|reflexivity].
  - intros k Hk. split; intros Hm; rewrite Hm in Hso; consts.
    + destruct (page_program_rounds k w) as [_ Ri _ _ _ _ _]. consts.
      assert (sf3_i_val (experiData w) + 32 <= 4096) as Hle
          by (Z.div_mod_to_equations; lia).
      rewrite Ri; lia.
    + destruct (page_read_rounds k w) as [_ Ri _ _ _ _ _]. consts.
      assert (sf3_i_val (experiData w) + 32 <= 4096) as Hle
          by (Z.div_mod_to_equations; lia).
      rewrite Ri; lia.
Qed.

(** C10. The display function is throttled by the free-running counter:
    with [cnt_t_max / 15 = 20], a call hands exactly one item to the display
    queue and one to the console queue when [cnt_t_freerun mod 20 = 0], and
    changes nothing otherwise; as the counter is the number of rounds since
    the start modulo [cnt_t_max = 300], the rounds that emit are those whose
    index is a multiple of 20. *)
Theorem display_is_rate_limited (w : world D) :
  let e := experiData w in
  let w' := Experiment_updateClsDisplayAndTerminal w in
  cnt_t_max / 15 = 20
  /\ (if cnt_t_freerun e mod 20 =? 0 then
        xQueueClsDispl w'
        = (xQueueClsDispl w
           ++ [mk_cls_lines (Experiment_generateTextLine1 e)
                 (Experiment_generateTextLine2 e)])%list
        /\ xQueuePrint w'
           = (xQueuePrint w
              ++ [snprintf PRINTF_BUF_SZ
                    (Experiment_generateTextLine1 e +:+ " "
                       +:+ Experiment_generateTextLine2 e)])%list
        /\ xQueueLedConfig w' = xQueueLedConfig w
        /\ experiData w' = e
        /\ sf3Device w' = sf3Device w
      else w' = w)
  /\ forall (d : D) (inputs : list (Z * Z)),
      cnt_t_freerun (experiData (task_rounds inputs (initial_world d)))
      = Z.of_nat (length inputs) mod cnt_t_max.
Proof.
  cbv zeta. split; [reflexivity|]. split.
  - unfold Experiment_updateClsDisplayAndTerminal. cbv zeta.
    change (cnt_t_max / 15) with 20.
    destruct (cnt_t_freerun (experiData w) mod 20 =? 0); cbn [negb].
    + repeat split.
    + reflexivity.
  - intros d inputs. rewrite task_rounds_freerun.
    + unfold initial_world, Experiment_InitData. cbv zeta. rsimpl.
      reflexivity.
    + unfold initial_world, Experiment_InitData. cbv zeta. rsimpl.
      consts. lia.
Qed.

(** C6. Once the state machine idles in [ST_WAIT_BUTTON_DEP] with the
    region start offset at the last region start, it stays there: after
    every further round, whatever the buttons and switches read, the mode
    is [ST_WAIT_BUTTON_DEP], the offset is unchanged and [sf3_test_done] is
    true. *)
Theorem exhausted_controller_stays_idle (w : world D) (inputs : list (Z * Z)) :
  operatingMode (experiData w) = ST_WAIT_BUTTON_DEP ->
  sf3_addr_start_val (experiData w) = last_starting_byte_addr ->
  inputs <> [] ->
  let e' := experiData (task_rounds inputs w) in
  operatingMode e' = ST_WAIT_BUTTON_DEP
  /\ sf3_addr_start_val e' = last_starting_byte_addr
  /\ sf3_test_done e' = true.
Proof.
  intros Hm Ha Hne. cbv zeta.
  destruct inputs as [|i inputs]; [contradiction|]. clear Hne.
  rewrite task_rounds_cons.
  destruct (task_round_idle (fst i) (snd i) w Hm Ha) as (Hm1 & Ha1 & Hd1).
  revert Hm1 Ha1 Hd1. generalize (task_round (fst i) (snd i) w).
  clear w Hm Ha i.
  induction inputs as [|i inputs IH]; intros w Hm Ha Hd.
  - repeat split; assumption.
  - rewrite task_rounds_cons.
    destruct (task_round_idle (fst i) (snd i) w Hm Ha) as (Hm1 & Ha1 & Hd1).
    apply IH; assumption.
Qed.

(** C5 (as amended). In [ST_WAIT_BUTTON_DEP] with a region left to test,
    the inputs are scanned in the order A, B, C, D, and an input matches
    when the button mask read, or the switch mask read, equals the mask of
    that input alone; the first match selects its pattern and moves to
    [ST_WAIT_BUTTON_REL]; with no match the mode and the selection stay. *)
Theorem first_exact_match_wins (w : world D) :
  operatingMode (experiData w) = ST_WAIT_BUTTON_DEP ->
  sf3_addr_start_val (experiData w) < last_starting_byte_addr ->
  let e := experiData w in
  let e' := experiData (Experiment_operateFSM w) in
  match find (pattern_input_alone (buttonsRead e) (switchesRead e)) scan_order with
  | Some p =>
      operatingMode e' = ST_WAIT_BUTTON_REL
      /\ sf3_test_pattern_selected e' = p
  | None =>
      operatingMode e' = ST_WAIT_BUTTON_DEP
      /\ sf3_test_pattern_selected e' = sf3_test_pattern_selected e
  end.
Proof.
  intros Hm Ha. cbv zeta.
  rewrite operateFSM_pure_eq by (rewrite Hm; reflexivity).
  unfold fsm_pure. rewrite Hm. unfold fsm_WAIT_BUTTON_DEP, select_pattern.
  apply Z.ltb_lt in Ha. rewrite Ha. cbv zeta. rsimpl.
  unfold scan_order, pattern_input_alone.
  cbn [find button_mask switch_mask].
  destruct ((buttonsRead (experiData w) =? BTN0_MASK)
            || (switchesRead (experiData w) =? SWTCH0_MASK));
    [rsimpl; split; reflexivity|].
  destruct ((buttonsRead (experiData w) =? BTN1_MASK)
            || (switchesRead (experiData w) =? SWTCH1_MASK));
    [rsimpl; split; reflexivity|].
  destruct ((buttonsRead (experiData w) =? BTN2_MASK)
            || (switchesRead (experiData w) =? SWTCH2_MASK));
    [rsimpl; split; reflexivity|].
  destruct ((buttonsRead (experiData w) =? BTN3_MASK)
            || (switchesRead (experiData w) =? SWTCH3_MASK));
    rsimpl; split; try reflexivity; exact Hm.
Qed.

(** C9. A failed driver call in [ST_CMD_ERASE_START] is logged and changes
    nothing else: a step hands to the console queue one message per failed
    call ([SF3_FlashWriteEnable], then [SF3_SectorErase]) and none for a
    call that succeeds, and increments the sub-operation index by one in
    either case; so, whatever the driver returns, [n] rounds take the index
    from [i] to [i + n], and the mode is [ST_CMD_ERASE_DONE] exactly when
    the index has reached the subsector count. *)
Theorem erase_failure_does_not_stall (w : world D) :
  operatingMode (experiData w) = ST_CMD_ERASE_START ->
  0 <= sf3_i_val (experiData w) < experi_subsector_cnt_per_iter ->
  let e := experiData w in
  let a := address_of sf3_subsector_addr_incr e in
  let r1 := SF3_FlashWriteEnable (sf3Device w) in
  let r2 := SF3_SectorErase (fst r1) a in
  let w' := Experiment_operateFSM w in
  xQueuePrint w'
  = (xQueuePrint w
     ++ (if snd r1 =? XST_SUCCESS then []
         else [snprintf PRINTF_BUF_SZ "WEN Fail"])
     ++ (if snd r2 =? XST_SUCCESS then []
         else [snprintf PRINTF_BUF_SZ ("Ers Fail " +:+ fmt_08lx a)]))%list
  /\ sf3_i_val (experiData w') = sf3_i_val e + 1
  /\ forall inputs : list (Z * Z),
      sf3_i_val e + Z.of_nat (length inputs) <= experi_subsector_cnt_per_iter ->
      let e' := experiData (task_rounds inputs w) in
      sf3_i_val e' = sf3_i_val e + Z.of_nat (length inputs)
      /\ operatingMode e'
         = if sf3_i_val e' <? experi_subsector_cnt_per_iter
           then ST_CMD_ERASE_START else ST_CMD_ERASE_DONE.
Proof.
  intros Hm Hi. cbv zeta.
  assert (Experiment_operateFSM w = fsm_CMD_ERASE_START w) as ->
      by (unfold Experiment_operateFSM; rewrite Hm; reflexivity).
  destruct (fsm_CMD_ERASE_START_round w) as [_ Ri _ _ _ _ _ [_ Rp]].
  split; [exact Rp|]. split.
  - rewrite Ri. apply u32_small. consts. lia.
  - intros inputs Hn. apply task_rounds_erase; assumption.
Qed.

(** C4. The pattern is page-local in both phases. In a reachable state in
    [ST_CMD_PAGE_START], every page of the batch is handed to
    [SF3_FlashWrite] with payload byte [i] equal to
    [(start + i * stride) mod 256], and the cursor is back at the start
    value after the page; in a reachable state in [ST_CMD_READ_START],
    every page of the batch adds to the error count the number of payload
    bytes that differ from [(start + i * stride) mod 256], and the cursor
    is back at the start value after the page. [ST_SET_PATTERN] latches
    start [0x00] and stride [0x01] for pattern A, where byte [i] is
    [i mod 256], and start [0x18] and stride [0x17] for pattern D. *)
Theorem pattern_is_page_local (w : world D) (k : nat) :
  reachable w ->
  (k < 32)%nat ->
  let e := experiData w in
  let start := sf3_pattern_start_val e in
  let stride := sf3_pattern_incr_val e in
  (operatingMode e = ST_CMD_PAGE_START ->
   let s := for_loop 0 k (fun _ => page_program_iter) w in
   (exists buf : list Z,
      sf3Device (page_program_iter s)
      = fst (SF3_FlashWrite (fst (SF3_FlashWriteEnable (sf3Device s)))
               (address_of sf3_page_addr_incr (experiData s))
               SF3_PAGE_SIZE SF3_COMMAND_PAGE_PROGRAM buf)
      /\ forall i : nat,
          (i < SF3_PAGE_SIZE)%nat ->
          buf !! (i + SF3_WRITE_EXTRA_BYTES)%nat
          = Some (pattern_byte start stride i))
   /\ sf3_pattern_track_val (experiData (page_program_iter s)) = start)
  /\ (operatingMode e = ST_CMD_READ_START ->
      let s := for_loop 0 k (fun _ => page_read_iter) w in
      sf3_err_count_val (experiData (page_read_iter s))
      = u32 (sf3_err_count_val (experiData s)
             + page_mismatches (ReadBuffer (experiData (page_read_iter s)))
                 start stride)
      /\ sf3_pattern_track_val (experiData (page_read_iter s)) = start)
  /\ (forall e0 : t_experiment_data,
        (sf3_test_pattern_selected e0 = TEST_PATTERN_A ->
         sf3_pattern_start_val (fsm_SET_PATTERN e0) = 0x00
         /\ sf3_pattern_incr_val (fsm_SET_PATTERN e0) = 0x01)
        /\ (sf3_test_pattern_selected e0 = TEST_PATTERN_D ->
            sf3_pattern_start_val (fsm_SET_PATTERN e0) = 0x18
            /\ sf3_pattern_incr_val (fsm_SET_PATTERN e0) = 0x17))
  /\ forall i : nat, pattern_byte 0x00 0x01 i = Z.of_nat i mod 256.
Proof.
  intros Hw Hk. cbv zeta. pose proof (reachable_Inv w Hw) as HI.
  destruct HI as [Hr Hs Hi Ht Hb Hso Hc Hf He He32].
  split; [|split; [|split]].
  - intros Hm. specialize (Hc Hm).
    destruct (page_program_rounds k w) as [Rf _ _ Rc Rb _ _].
    set (s := for_loop 0 k (fun _ => page_program_iter) w) in *.
    assert (sf3_pattern_track_val (experiData s)
            = sf3_pattern_start_val (experiData w)) as Hts.
    { destruct k as [|k'].
      - unfold s. rewrite for_loop_empty. exact Hc.
      - apply Rc. lia. }
    destruct (page_program_iter_round s)
      as [Sf _ _ Sc _ _ _ (buf & Hd & Hlen & Hbuf)].
    rewrite Hts, (df_incr _ _ Rf) in Hbuf. split.
    + exists buf. split; [exact Hd|].
      intros i Hi'. apply Hbuf; [exact Hs|exact Hi'|lia].
    + rewrite Sc. apply Rf.
  - intros Hm.
    destruct (page_read_rounds k w) as [Rf _ _ _ _ _ Re].
    set (s := for_loop 0 k (fun _ => page_read_iter) w) in *.
    destruct (page_read_iter_round s) as [_ _ _ Sc _ _ _ Se].
    rewrite (df_start _ _ Rf), (df_incr _ _ Rf) in Se.
    split; [|rewrite Sc; apply Rf].
    apply Se; [exact Hs|].
    destruct (Re Hs ltac:(lia)) as (m & _ & ->). apply u32_range.
  - intros e0. unfold fsm_SET_PATTERN, set_pattern_seed. cbv zeta.
    split; intros ->; split; reflexivity.
  - intros i. unfold pattern_byte. f_equal. lia.
Qed.

(** C2 (as amended). The error count is zero when the task starts and is
    never reset: a step of the state machine leaves it unchanged in every
    mode but [ST_CMD_READ_START] (so [ST_SET_PATTERN] and
    [ST_SET_START_ADDR] start a pass with the count of the passes before,
    and [ST_DISPLAY_FINAL] reads it without changing it), and, the pages of
    the device taking no more bytes than the device has, no round of a
    reachable state decreases it. *)
Theorem error_count_accumulates (w : world D) (switches buttons : Z) :
  Z.of_nat SF3_PAGE_SIZE * (experi_page_cnt_per_iter * total_iteration_count)
  <= max_possible_byte_count ->
  reachable w ->
  (forall d : D, sf3_err_count_val (experiData (initial_world d)) = 0)
  /\ (operatingMode (experiData w) <> ST_CMD_READ_START ->
      sf3_err_count_val (experiData (Experiment_operateFSM w))
      = sf3_err_count_val (experiData w))
  /\ sf3_err_count_val (experiData w)
     <= sf3_err_count_val (experiData (task_round switches buttons w)).
Proof.
  intros Hsize Hw. split; [|split].
  - intros d. unfold initial_world, Experiment_InitData. cbv zeta. rsimpl.
    reflexivity.
  - intros Hm.
    destruct (issuing_mode (operatingMode (experiData w))) eqn:Hiss.
    + unfold Experiment_operateFSM.
      destruct (operatingMode (experiData w)); try discriminate Hiss.
      * apply (fsm_CMD_ERASE_START_round w).
      * apply (page_program_rounds 32 w).
      * contradiction.
    + apply (operateFSM_pure w Hiss).
  - apply task_round_err_le; [exact Hsize|]. apply reachable_Inv. exact Hw.
Qed.

End Claims.

Section ClearingLoop.

Context {hdr : PmodSF3_h}.

Lemma clear_checked_prefix (buf : list Z) (k : nat) :
  (k <= SF3_PAGE_SIZE)%nat ->
  length buf = (SF3_PAGE_SIZE + SF3_READ_MIN_EXTRA_BYTES)%nat ->
  exists b : list Z,
    for_loop 0 k
      (fun iByte r =>
         buf ← r; store_checked (iByte + SF3_READ_MIN_EXTRA_BYTES) 0 buf)
      (Some buf) = Some b
    /\ length b = length buf.
Proof.
  intros Hk Hlen. induction k as [|k IH].
  - exists buf. rewrite for_loop_empty. split; reflexivity.
  - destruct (IH ltac:(lia)) as (b & Hb & Hlb).
    rewrite for_loop_step, Hb by lia. cbn [mbind option_bind].
    unfold store_checked.
    destruct (Nat.ltb_spec (k + SF3_READ_MIN_EXTRA_BYTES) (length b)); [|lia].
    eexists. split; [reflexivity|]. rewrite length_insert. exact Hlb.
Qed.

Lemma clear_checked_overrun (buf : list Z) (k : nat) :
  length buf = (SF3_PAGE_SIZE + SF3_READ_MIN_EXTRA_BYTES)%nat ->
  for_loop 0 (SF3_PAGE_SIZE + 1 + k)
    (fun iByte r =>
       buf ← r; store_checked (iByte + SF3_READ_MIN_EXTRA_BYTES) 0 buf)
    (Some buf) = None.
Proof.
  intros Hlen. induction k as [|k IH].
  - rewrite Nat.add_0_r, Nat.add_1_r, for_loop_step by lia.
    destruct (clear_checked_prefix buf SF3_PAGE_SIZE ltac:(lia) Hlen)
      as (b & -> & Hlb).
    cbn [mbind option_bind]. unfold store_checked.
    destruct (Nat.ltb_spec (SF3_PAGE_SIZE + SF3_READ_MIN_EXTRA_BYTES) (length b));
      [lia|reflexivity].
  - replace (SF3_PAGE_SIZE + 1 + S k)%nat with (S (SF3_PAGE_SIZE + 1 + k))
      by lia.
    rewrite for_loop_step, IH by lia. reflexivity.
Qed.

(** C3 (the code departs from it). With at least one extra byte in front
    of the payload, the clearing loop of [ST_CMD_READ_START] leaves
    [ReadBuffer]: [iByte = SF3_PAGE_SIZE] is an index of the loop, the store
    it makes is at [SF3_PAGE_SIZE + SF3_READ_MIN_EXTRA_BYTES], the length of
    the array, and the loop with checked indexing ends in the out-of-bounds
    branch. *)
Theorem clearing_loop_leaves_ReadBuffer (buf : list Z) :
  (0 < SF3_READ_MIN_EXTRA_BYTES)%nat ->
  length buf = (SF3_PAGE_SIZE + SF3_READ_MIN_EXTRA_BYTES)%nat ->
  (SF3_PAGE_SIZE < SF3_PAGE_SIZE + SF3_READ_MIN_EXTRA_BYTES)%nat
  /\ ~ (SF3_PAGE_SIZE + SF3_READ_MIN_EXTRA_BYTES < length buf)%nat
  /\ store_checked (SF3_PAGE_SIZE + SF3_READ_MIN_EXTRA_BYTES) 0 buf = None
  /\ clear_ReadBuffer_checked buf = None.
Proof.
  intros Hx Hlen. split; [lia|]. split; [lia|]. split.
  - unfold store_checked.
    destruct (Nat.ltb_spec (SF3_PAGE_SIZE + SF3_READ_MIN_EXTRA_BYTES) (length buf));
      [lia|reflexivity].
  - unfold clear_ReadBuffer_checked.
    replace (SF3_PAGE_SIZE + SF3_READ_MIN_EXTRA_BYTES)%nat
      with (SF3_PAGE_SIZE + 1 + (SF3_READ_MIN_EXTRA_BYTES - 1))%nat by lia.
    apply clear_checked_overrun.
    rewrite Hlen. lia.
Qed.

End ClearingLoop.

Section FaultFreePass.

Context {hdr : PmodSF3_h}.

(** C1. On the fault-free flash, a pass started from any reachable state in
    [ST_SET_PATTERN], for each region [k] of the 32 and each pattern [p],
    is in [ST_DISPLAY_FINAL] after 1565 rounds of the task, with the region
    start offset [k * per_iteration_byte_count], the pattern [p] and an
    error count of zero; the next round latches [sf3_test_pass = true]. *)
Theorem full_pass_without_errors (k : Z) (p : TEST_PATTERN_TAG)
    (w : world (gmap Z (list Z))) (inputs : list (Z * Z))
    (switches buttons : Z) :
  reachable w ->
  0 <= k < total_iteration_count ->
  operatingMode (experiData w) = ST_SET_PATTERN ->
  sf3_test_pattern_selected (experiData w) = p ->
  (if sf3_start_at_zero (experiData w) then k = 0
   else 1 <= k
        /\ sf3_addr_start_val (experiData w)
           = (k - 1) * per_iteration_byte_count) ->
  length inputs = 1565%nat ->
  let w' := task_rounds inputs w in
  operatingMode (experiData w') = ST_DISPLAY_FINAL
  /\ sf3_addr_start_val (experiData w') = k * per_iteration_byte_count
  /\ sf3_test_pattern_selected (experiData w') = p
  /\ sf3_err_count_val (experiData w') = 0
  /\ sf3_test_pass (experiData (task_round switches buttons w')) = true.
Proof.
  intros Hw Hk Hm Hp Hregion Hlen. cbv zeta.
  destruct inputs as [|i1 [|i2 rest]]; try discriminate Hlen.
  cbn [length] in Hlen. assert (length rest = 1563%nat) as Hrest by lia.
  rewrite !task_rounds_cons.
  pose proof (reachable_Inv w Hw) as HI.
  destruct (task_round_SET_PATTERN (fst i1) (snd i1) w Hm)
    as (Hm1 & Hp1 & Ha1 & Hz1 & Hs1 & _).
  pose proof (Inv_task_round (fst i1) (snd i1) w HI) as HI1.
  pose proof (reachable_round w (fst i1) (snd i1) Hw) as Hw1.
  revert Hm1 Hp1 Ha1 Hz1 Hs1 HI1 Hw1.
  generalize (task_round (fst i1) (snd i1) w). intros w1 Hm1 Hp1 Ha1 Hz1 Hs1 HI1 Hw1.
  change total_iteration_count with 32 in Hk.
  assert (sf3_start_at_zero (experiData w1) = true
          \/ sf3_addr_start_val (experiData w1) < last_starting_byte_addr)
    as Hgo.
  { rewrite Hz1, Ha1. destruct (sf3_start_at_zero (experiData w));
      [left; reflexivity|right]. destruct Hregion as [Hk1 ->]. consts. lia. }
  destruct (task_round_SET_START_ADDR (fst i2) (snd i2) w1 Hm1 Hp1 Hgo)
    as (Hc2 & Ha2 & Hs2 & _).
  pose proof (Inv_task_round (fst i2) (snd i2) w1 HI1) as HI2.
  pose proof (reachable_round w1 (fst i2) (snd i2) Hw1) as Hw2.
  revert Hc2 Ha2 Hs2 HI2 Hw2.
  generalize (task_round (fst i2) (snd i2) w1). intros w2 Hc2 Ha2 Hs2 HI2 Hw2.
  destruct (task_rounds_control rest w2
              (mk_control ST_DISPLAY_FINAL ST_DISPLAY_FINAL 0 0) HI2)
    as [Hcf Hpf].
  { rewrite Hrest, Hc2. apply pass_schedule. }
  pose proof (reachable_flash_inv _ (reachable_task_rounds rest w2 Hw2))
    as (_ & Herr & _).
  revert Hcf Hpf Herr. generalize (task_rounds rest w2).
  intros w3 Hcf Hpf Herr.
  assert (operatingMode (experiData w3) = ST_DISPLAY_FINAL) as Hm3
      by (apply (f_equal c_mode) in Hcf; exact Hcf).
  split; [exact Hm3|]. split; [|split; [|split]].
  - rewrite (pf_addr_start _ _ Hpf), Ha2, Hz1, Ha1.
    destruct (sf3_start_at_zero (experiData w)).
    + rewrite Hregion. reflexivity.
    + destruct Hregion as [Hk1 ->]. consts. rewrite u32_small; lia.
  - rewrite (pf_selected _ _ Hpf), Hs2, Hs1. exact Hp.
  - exact Herr.
  - rewrite task_round_DISPLAY_FINAL, Herr by exact Hm3. reflexivity.
Qed.

End FaultFreePass.

(** * The properties on concrete runs *)

Section Examples.

#[local] Existing Instance example_header.

Lemma press_button_0_selects_A :
  operatingMode (experiData first_pass_start) = ST_SET_PATTERN
  /\ sf3_test_pattern_selected (experiData first_pass_start) = TEST_PATTERN_A
  /\ sf3_start_at_zero (experiData first_pass_start) = true.
Proof. vm_compute. repeat split. Qed.

Lemma erase_phase_start_state :
  operatingMode (experiData erase_phase_start) = ST_CMD_ERASE_START
  /\ sf3_i_val (experiData erase_phase_start) = 0.
Proof. vm_compute. repeat split. Qed.

Lemma program_phase_start_state :
  operatingMode (experiData program_phase_start) = ST_CMD_PAGE_START
  /\ sf3_i_val (experiData program_phase_start) = 0.
Proof. vm_compute. repeat split. Qed.

(** On the flash that stays erased, a page of pattern A differs from what
    is read in 255 of its 256 bytes. *)
Lemma erased_page_mismatches :
  page_mismatches (repeat 0xFF (SF3_PAGE_SIZE + SF3_READ_MIN_EXTRA_BYTES))
    sf3_test_pattern_startval_a sf3_test_pattern_incrval_a = 255.
Proof. vm_compute. reflexivity. Qed.

Lemma device_size :
  Z.of_nat SF3_PAGE_SIZE * (experi_page_cnt_per_iter * total_iteration_count)
  <= max_possible_byte_count.
Proof. vm_compute. discriminate. Qed.

Lemma page_read_iter_erased (w : world unit) :
  sf3_pattern_start_val (experiData w) = sf3_test_pattern_startval_a ->
  sf3_pattern_incr_val (experiData w) = sf3_test_pattern_incrval_a ->
  0 <= sf3_err_count_val (experiData w) ->
  sf3_err_count_val (experiData w) + 255 < 4294967296 ->
  sf3_err_count_val (experiData (page_read_iter w))
  = sf3_err_count_val (experiData w) + 255.
Proof.
  intros Hs Hi H0 Hlt.
  destruct (page_read_iter_round w) as [_ _ _ _ _ _ (buf & _ & Hr) Herr].
  cbn [SF3_FlashRead erased_flash snd] in Hr.
  rewrite Herr, Hr, Hs, Hi, erased_page_mismatches.
  - apply u32_small. lia.
  - rewrite Hs. unfold is_byte, sf3_test_pattern_startval_a. lia.
  - lia.
Qed.

Lemma page_read_rounds_erased (k : nat) (w : world unit) :
  sf3_pattern_start_val (experiData w) = sf3_test_pattern_startval_a ->
  sf3_pattern_incr_val (experiData w) = sf3_test_pattern_incrval_a ->
  0 <= sf3_err_count_val (experiData w) ->
  sf3_err_count_val (experiData w) + 255 * Z.of_nat k < 4294967296 ->
  sf3_err_count_val (experiData (for_loop 0 k (fun _ => page_read_iter) w))
  = sf3_err_count_val (experiData w) + 255 * Z.of_nat k.
Proof.
  intros Hs Hi H0. induction k as [|k IH]; intros Hlt.
  - rewrite for_loop_empty. lia.
  - rewrite for_loop_step by lia.
    destruct (page_read_rounds k w) as [Rf _ _ _ _ _ _].
    specialize (IH ltac:(lia)).
    rewrite page_read_iter_erased; rewrite ?IH;
      rewrite ?(df_start _ _ Rf), ?(df_incr _ _ Rf); try assumption; lia.
Qed.

(** A round in [ST_CMD_READ_START] of pattern A on the flash that stays
    erased counts 32 times 255 mismatches. *)
Lemma task_round_read_erased (switches buttons : Z) (w : world unit) :
  operatingMode (experiData w) = ST_CMD_READ_START ->
  sf3_pattern_start_val (experiData w) = sf3_test_pattern_startval_a ->
  sf3_pattern_incr_val (experiData w) = sf3_test_pattern_incrval_a ->
  sf3_err_count_val (experiData w) = 0 ->
  sf3_err_count_val (experiData (task_round switches buttons w)) = 8160.
Proof.
  intros Hm Hs Hi He.
  destruct (before_fsm_control switches buttons w)
    as (Hbm & _ & _ & _ & Hpf & Hbe & _).
  rewrite task_round_eq, experiData_upd.
  rewrite <- Hbm in Hm. rewrite <- (pf_start _ _ Hpf) in Hs.
  rewrite <- (pf_incr _ _ Hpf) in Hi. rewrite <- Hbe in He.
  revert Hm Hs Hi He. generalize (before_fsm switches buttons w).
  intros w0 Hm Hs Hi He.
  assert (sf3_err_count_val (experiData (Experiment_operateFSM w0)) = 8160)
    as H.
  { unfold Experiment_operateFSM. rewrite Hm. unfold fsm_CMD_READ_START.
    rewrite page_read_rounds_erased; rewrite ?He; try assumption;
      try reflexivity; lia. }
  revert H. generalize (experiData (Experiment_operateFSM w0)). intros e1 H.
  unfold Experiment_iterationTimer. cbv zeta.
  destruct (decide _); rsimpl; exact H.
Qed.

Lemma first_pass_start_erased_state :
  operatingMode (experiData first_pass_start_erased) = ST_SET_PATTERN
  /\ sf3_test_pattern_selected (experiData first_pass_start_erased)
     = TEST_PATTERN_A
  /\ sf3_start_at_zero (experiData first_pass_start_erased) = true.
Proof. vm_compute. repeat split. Qed.

(** The first pass on the flash that stays erased leaves an error count of
    at least 8160, and the second pass starts with it. *)
Lemma second_pass_start_state :
  operatingMode (experiData second_pass_start) = ST_SET_START_ADDR
  /\ sf3_start_at_zero (experiData second_pass_start) = false
  /\ sf3_addr_start_val (experiData second_pass_start) = 0
  /\ 8160 <= sf3_err_count_val (experiData second_pass_start).
Proof.
  destruct first_pass_start_erased_state as (Hm0 & Hs0 & Hz0).
  assert (reachable first_pass_start_erased) as Hw0
      by (apply reachable_task_rounds, reachable_init).
  unfold second_pass_start, second_pass_inputs.
  rewrite task_rounds_app. fold first_pass_start_erased.
  revert Hm0 Hs0 Hz0 Hw0. generalize first_pass_start_erased.
  intros w0 Hm0 Hs0 Hz0 Hw0.
  rewrite task_rounds_app.
  (* the pass *)
  change (repeat (0, 0) 2) with [(0, 0); (0, 0)].
  change ([(0, 0); (0, 0)] ++ repeat (0, 0) 1135 ++ [(0, 0)]
          ++ repeat (0, 0) 727)%list
    with ((0, 0) :: (0, 0) :: (repeat (0, 0) 1135 ++ [(0, 0)]
                               ++ repeat (0, 0) 727))%list.
  rewrite !task_rounds_cons. cbn [fst snd].
  pose proof (reachable_Inv w0 Hw0) as HI0.
  destruct (task_round_SET_PATTERN 0 0 w0 Hm0)
    as (Hm1 & Hp1 & Ha1 & Hz1 & Hs1 & _ & Hseed).
  destruct (Hseed Hs0) as (Hst1 & Hin1). clear Hseed.
  pose proof (Inv_task_round 0 0 w0 HI0) as HI1.
  rewrite Hz0 in Hz1.
  revert Hm1 Hp1 Hz1 Hst1 Hin1 HI1. clear. generalize (task_round 0 0 w0).
  intros w1 Hm1 Hp1 Hz1 Hst1 Hin1 HI1.
  destruct (task_round_SET_START_ADDR 0 0 w1 Hm1 Hp1 (or_introl Hz1))
    as (Hc2 & Ha2 & _ & Hst2 & Hin2 & Hz2).
  rewrite Hz1 in Ha2. rewrite Hst1 in Hst2. rewrite Hin1 in Hin2.
  pose proof (Inv_task_round 0 0 w1 HI1) as HI2.
  revert Hc2 Ha2 Hst2 Hin2 Hz2 HI2. clear. generalize (task_round 0 0 w1).
  intros w2 Hc2 Ha2 Hst2 Hin2 Hz2 HI2.
  (* control state at the end of the pass *)
  destruct (task_rounds_control
              (repeat (0, 0) 1135 ++ [(0, 0)] ++ repeat (0, 0) 727) w2
              (mk_control ST_WAIT_BUTTON_DEP ST_WAIT_BUTTON_DEP 0 0) HI2)
    as [Hc5 Hpf5].
  { rewrite !length_app, !repeat_length, Hc2. apply whole_pass_schedule. }
  (* error count of the first round of the read phase *)
  pose proof (Inv_task_rounds
                (repeat (0, 0) 1135 ++ [(0, 0)] ++ repeat (0, 0) 727) w2 HI2)
    as HI5.
  revert Hc5 Hpf5 HI5. rewrite !task_rounds_app. intros Hc5 Hpf5 HI5.
  destruct (task_rounds_control (repeat (0, 0) 1135) w2
              (mk_control ST_CMD_READ_START ST_CMD_READ_START 0 0) HI2)
    as [Hc3 Hpf3].
  { rewrite repeat_length, Hc2. apply read_phase_schedule. }
  pose proof (Inv_task_rounds (repeat (0, 0) 1135) w2 HI2) as HI3.
  rewrite <- (pf_start _ _ Hpf3) in Hst2. rewrite <- (pf_incr _ _ Hpf3) in Hin2.
  pose proof Hz2 as Hz3. rewrite <- (pf_start_at_zero _ _ Hpf3) in Hz3.
  pose proof Ha2 as Ha3. rewrite <- (pf_addr_start _ _ Hpf3) in Ha3.
  revert Hc5 Hpf5 HI5 Hc3 HI3 Hst2 Hin2 Hz3 Ha3.
  generalize (task_rounds (repeat (0, 0) 1135) w2).
  intros w3 Hc5 Hpf5 HI5 Hc3 HI3 Hst3 Hin3 Hz3 Ha3.
  assert (operatingMode (experiData w3) = ST_CMD_READ_START) as Hm3
      by (apply (f_equal c_mode) in Hc3; exact Hc3).
  assert (sf3_i_val (experiData w3) = 0) as Hi3
      by (apply (f_equal c_i_val) in Hc3; exact Hc3).
  assert (sf3_err_count_val (experiData w3) = 0) as He3.
  { destruct HI3 as [_ _ _ _ _ _ _ _ He _]. unfold pages_compared in He.
    rewrite Hz3, Ha3, Hm3, Hi3 in He. vm_compute in He. 
    destruct He as [He1 He2].
    apply Z.le_antisymm; [exact He2|exact He1]. }
  rewrite task_rounds_cons in Hc5, Hpf5, HI5. unfold press_button_0.
  rewrite !task_rounds_cons. cbn [fst snd] in *.
  rewrite task_rounds_nil in Hc5, Hpf5, HI5. rewrite !task_rounds_nil.
  pose proof (task_round_read_erased 0 0 w3 Hm3 Hst3 Hin3 He3) as He4.
  pose proof (Inv_task_round 0 0 w3 HI3) as HI4.
  revert Hc5 Hpf5 HI5 He4 HI4. generalize (task_round 0 0 w3).
  intros w4 Hc5 Hpf5 HI5 He4 HI4.
  pose proof (task_rounds_err_le (repeat (0, 0) 727) w4 device_size HI4)
    as He5.
  rewrite He4 in He5.
  rewrite <- (pf_start_at_zero _ _ Hpf5) in Hz2.
  rewrite <- (pf_addr_start _ _ Hpf5) in Ha2.
  revert Hc5 Hz2 Ha2 He5. clear.
  generalize (task_rounds (repeat (0, 0) 727) w4).
  intros w5 Hc5 Hz5 Ha5 He5.
  assert (operatingMode (experiData w5) = ST_WAIT_BUTTON_DEP) as Hm5
      by (apply (f_equal c_mode) in Hc5; exact Hc5).
  (* button 0 again *)
  assert (sf3_addr_start_val (experiData w5) < last_starting_byte_addr)
    as Hlt5 by (rewrite Ha5; reflexivity).
  destruct (task_round_press_button_0 0 w5 Hm5 Hlt5) as (Hm6 & Ha6 & Hz6).
  pose proof (task_round_pure_err 0 BTN0_MASK w5) as He6.
  rewrite Hm5 in He6. specialize (He6 eq_refl).
  rewrite Ha5 in Ha6. rewrite Hz5 in Hz6. rewrite <- He6 in He5.
  revert Hm6 Ha6 Hz6 He5. clear. generalize (task_round 0 BTN0_MASK w5).
  intros w6 Hm6 Ha6 Hz6 He6.
  destruct (task_round_release 0 w6 Hm6) as (Hm7 & Ha7 & Hz7).
  pose proof (task_round_pure_err 0 0 w6) as He7.
  rewrite Hm6 in He7. specialize (He7 eq_refl).
  rewrite Ha6 in Ha7. rewrite Hz6 in Hz7. rewrite <- He7 in He6.
  revert Hm7 Ha7 Hz7 He6. clear. generalize (task_round 0 0 w6).
  intros w7 Hm7 Ha7 Hz7 He7.
  destruct (task_round_SET_PATTERN 0 0 w7 Hm7)
    as (Hm8 & _ & Ha8 & Hz8 & _ & He8 & _).
  rewrite Ha7 in Ha8. rewrite Hz7 in Hz8. rewrite <- He8 in He7.
  repeat split; assumption.
Qed.

(** Witness of C1: the first pass, pattern A, region 0. *)
Lemma full_pass_without_errors_witness :
  reachable first_pass_start
  /\ operatingMode (experiData first_pass_start) = ST_SET_PATTERN
  /\ length (repeat (0, 0) 1565) = 1565%nat
  /\ sf3_err_count_val
       (experiData (task_rounds (repeat (0, 0) 1565) first_pass_start)) = 0.
Proof.
  destruct press_button_0_selects_A as (Hm & Hs & Hz).
  assert (reachable first_pass_start) as Hw
      by (apply reachable_task_rounds, reachable_init).
  assert (length (repeat (0, 0) 1565) = 1565%nat) as Hl
      by (vm_compute; reflexivity).
  split; [exact Hw|]. split; [exact Hm|]. split; [exact Hl|].
  assert (if sf3_start_at_zero (experiData first_pass_start) then 0 = 0
          else 1 <= 0
               /\ sf3_addr_start_val (experiData first_pass_start)
                  = (0 - 1) * per_iteration_byte_count) as Hr
      by (rewrite Hz; reflexivity).
  assert (0 <= 0 < total_iteration_count) as Hk
      by (change total_iteration_count with 32; lia).
  pose proof (full_pass_without_errors 0 TEST_PATTERN_A first_pass_start
                (repeat (0, 0) 1565) 0 0 Hw Hk Hm Hs Hr Hl) as H.
  cbv zeta in H. destruct H as (_ & _ & _ & He & _). exact He.
Defined.

(** Witness of the amended C2. *)
Lemma error_count_accumulates_witness :
  reachable erase_phase_start
  /\ sf3_err_count_val (experiData erase_phase_start)
     <= sf3_err_count_val (experiData (task_round 0 0 erase_phase_start)).
Proof.
  assert (reachable erase_phase_start) as Hw
      by (apply reachable_task_rounds, reachable_init).
  split; [exact Hw|].
  assert (Z.of_nat SF3_PAGE_SIZE
          * (experi_page_cnt_per_iter * total_iteration_count)
          <= max_possible_byte_count) as Hsize
      by (vm_compute; discriminate).
  pose proof (error_count_accumulates erase_phase_start 0 0 Hsize Hw) as H.
  destruct H as (_ & _ & H). exact H.
Defined.

(** C2 as stated fails: on the flash that stays erased the second pass
    begins with the error count of the first. In [ST_SET_START_ADDR], with the start-at-zero flag cleared and
    regions left, the step that leads to [ST_SET_START_WAIT] leaves a count
    that is not zero. *)
Lemma error_count_is_not_reset :
  reachable second_pass_start
  /\ operatingMode (experiData second_pass_start) = ST_SET_START_ADDR
  /\ sf3_addr_start_val (experiData second_pass_start)
     < last_starting_byte_addr
  /\ operatingMode (experiData (Experiment_operateFSM second_pass_start))
     = ST_SET_START_WAIT
  /\ sf3_err_count_val (experiData (Experiment_operateFSM second_pass_start))
     <> 0.
Proof.
  split; [apply reachable_task_rounds, reachable_init|].
  destruct second_pass_start_state as (Hm & Hz & Ha & He).
  revert Hm Hz Ha He. generalize second_pass_start. intros w Hm Hz Ha He.
  split; [exact Hm|]. split; [rewrite Ha; reflexivity|].
  assert (issuing_mode (operatingMode (experiData w)) = false)
    as Hiss by (rewrite Hm; reflexivity).
  destruct (operateFSM_pure w Hiss) as (_ & _ & Herr & _).
  rewrite Herr, (operateFSM_pure_eq w Hiss).
  revert Hm Hz Ha He. generalize (experiData w).
  intros e Hm Hz Ha He. split; [|lia].
  unfold fsm_pure. rewrite Hm. unfold fsm_SET_START_ADDR. cbv zeta.
  rewrite Hz, Ha. reflexivity.
Qed.

(** Witness of C3. *)
Lemma clearing_loop_leaves_ReadBuffer_witness :
  (0 < SF3_READ_MIN_EXTRA_BYTES)%nat
  /\ length (repeat 0 260)
     = (SF3_PAGE_SIZE + SF3_READ_MIN_EXTRA_BYTES)%nat
  /\ clear_ReadBuffer_checked (repeat 0 260) = None.
Proof.
  assert (0 < SF3_READ_MIN_EXTRA_BYTES)%nat as Hx by (vm_compute; lia).
  assert (length (repeat 0 260)
          = (SF3_PAGE_SIZE + SF3_READ_MIN_EXTRA_BYTES)%nat) as Hl
      by (vm_compute; reflexivity).
  split; [exact Hx|]. split; [exact Hl|].
  destruct (clearing_loop_leaves_ReadBuffer (repeat 0 260) Hx Hl)
    as (_ & _ & _ & H).
  exact H.
Defined.

(** Witness of C4: the first page of the first program batch. *)
Lemma pattern_is_page_local_witness :
  reachable program_phase_start
  /\ operatingMode (experiData program_phase_start) = ST_CMD_PAGE_START
  /\ sf3_pattern_track_val
       (experiData
          (page_program_iter
             (for_loop 0 0 (fun _ => page_program_iter) program_phase_start)))
     = sf3_pattern_start_val (experiData program_phase_start).
Proof.
  destruct program_phase_start_state as (Hm & _).
  assert (reachable program_phase_start) as Hw
      by (apply reachable_task_rounds, reachable_init).
  split; [exact Hw|]. split; [exact Hm|].
  assert (0 < 32)%nat as Hk by lia.
  pose proof (pattern_is_page_local program_phase_start 0 Hw Hk) as H.
  cbv zeta in H. destruct H as (H & _). destruct (H Hm) as (_ & Hc).
  exact Hc.
Defined.

(** C5 as stated fails: with buttons 0 and 1 held together, an input of
    pattern A is active and regions are left, yet the step selects nothing
    and stays in [ST_WAIT_BUTTON_DEP]. *)
Lemma first_active_input_does_not_win :
  let e := experiData two_buttons_held in
  let e' := experiData (Experiment_operateFSM two_buttons_held) in
  operatingMode e = ST_WAIT_BUTTON_DEP
  /\ sf3_addr_start_val e < last_starting_byte_addr
  /\ find (pattern_input_active (buttonsRead e) (switchesRead e)) scan_order
     = Some TEST_PATTERN_A
  /\ ~ (operatingMode e' = ST_WAIT_BUTTON_REL
        /\ sf3_test_pattern_selected e' = TEST_PATTERN_A).
Proof.
  vm_compute. repeat split. intros [H _]. discriminate H.
Qed.

(** Witness of the amended C5: button 0 alone beats switch 1 alone. *)
Lemma first_exact_match_wins_witness :
  operatingMode (experiData button_0_and_switch_1) = ST_WAIT_BUTTON_DEP
  /\ sf3_addr_start_val (experiData button_0_and_switch_1)
     < last_starting_byte_addr
  /\ operatingMode (experiData (Experiment_operateFSM button_0_and_switch_1))
     = ST_WAIT_BUTTON_REL
  /\ sf3_test_pattern_selected
       (experiData (Experiment_operateFSM button_0_and_switch_1))
     = TEST_PATTERN_A.
Proof.
  assert (operatingMode (experiData button_0_and_switch_1)
          = ST_WAIT_BUTTON_DEP) as Hm by (vm_compute; reflexivity).
  assert (sf3_addr_start_val (experiData button_0_and_switch_1)
          < last_starting_byte_addr) as Ha by (vm_compute; reflexivity).
  split; [exact Hm|]. split; [exact Ha|].
  pose proof (first_exact_match_wins button_0_and_switch_1 Hm Ha) as H.
  cbv zeta in H.
  change (find _ scan_order) with (Some TEST_PATTERN_A) in H.
  exact H.
Defined.

(** Witness of C6. *)
Lemma exhausted_controller_stays_idle_witness :
  operatingMode (experiData regions_exhausted) = ST_WAIT_BUTTON_DEP
  /\ sf3_addr_start_val (experiData regions_exhausted)
     = last_starting_byte_addr
  /\ operatingMode
       (experiData (task_rounds [(0, BTN0_MASK); (0, 0)] regions_exhausted))
     = ST_WAIT_BUTTON_DEP.
Proof.
  assert (operatingMode (experiData regions_exhausted) = ST_WAIT_BUTTON_DEP)
    as Hm by (vm_compute; reflexivity).
  assert (sf3_addr_start_val (experiData regions_exhausted)
          = last_starting_byte_addr) as Ha by (vm_compute; reflexivity).
  split; [exact Hm|]. split; [exact Ha|].
  assert ([(0, BTN0_MASK); (0, 0)] <> []) as Hne by discriminate.
  pose proof (exhausted_controller_stays_idle regions_exhausted
                [(0, BTN0_MASK); (0, 0)] Hm Ha Hne) as H.
  cbv zeta in H. destruct H as (H & _). exact H.
Defined.

(** Witness of C7. *)
Lemma region_start_stays_in_range_witness :
  reachable program_phase_start
  /\ region_start_ok (experiData program_phase_start).
Proof.
  assert (reachable program_phase_start) as Hw
      by (apply reachable_task_rounds, reachable_init).
  split; [exact Hw|].
  destruct (region_start_stays_in_range program_phase_start Hw) as (H & _).
  exact H.
Defined.

(** Witness of C8. *)
Lemma sub_operation_index_bounded_witness :
  reachable program_phase_start
  /\ 0 <= sf3_i_val (experiData program_phase_start)
     <= sub_operation_count (operatingMode (experiData program_phase_start)).
Proof.
  assert (reachable program_phase_start) as Hw
      by (apply reachable_task_rounds, reachable_init).
  split; [exact Hw|].
  pose proof (sub_operation_index_bounded program_phase_start Hw) as H.
  cbv zeta in H. destruct H as (H & _). exact H.
Defined.

(** Witness of C9. *)
Lemma erase_failure_does_not_stall_witness :
  operatingMode (experiData erase_phase_start) = ST_CMD_ERASE_START
  /\ 0 <= sf3_i_val (experiData erase_phase_start)
     < experi_subsector_cnt_per_iter
  /\ sf3_i_val (experiData (Experiment_operateFSM erase_phase_start))
     = sf3_i_val (experiData erase_phase_start) + 1.
Proof.
  destruct erase_phase_start_state as (Hm & Hi).
  assert (0 <= sf3_i_val (experiData erase_phase_start)
          < experi_subsector_cnt_per_iter) as Hr
      by (rewrite Hi; change experi_subsector_cnt_per_iter with 256; lia).
  split; [exact Hm|]. split; [exact Hr|].
  pose proof (erase_failure_does_not_stall erase_phase_start Hm Hr) as H.
  cbv zeta in H. destruct H as (_ & H & _). exact H.
Defined.

End Examples.
(** * Further properties of the code *)

(** ** Strings *)

Lemma string_length_app (s1 s2 : string) :
  String.length (s1 +:+ s2) = (String.length s1 + String.length s2)%nat.
Proof. induction s1 as [|c s1 IH]; simpl; [reflexivity|]. rewrite IH. reflexivity. Qed.

Lemma append_cons (c : ascii) (s1 s2 : string) :
  String c s1 +:+ s2 = String c (s1 +:+ s2).
Proof. reflexivity. Qed.

Lemma substring_0_all (n : nat) (s : string) :
  (String.length s <= n)%nat -> substring 0 n s = s.
Proof.
  revert n. induction s as [|c s IH]; intros n Hn.
  - destruct n; reflexivity.
  - destruct n as [|n]; simpl in Hn; [lia|]. simpl. rewrite IH by lia.
    reflexivity.
Qed.

Lemma substring_0_length (n : nat) (s : string) :
  String.length (substring 0 n s) = Nat.min n (String.length s).
Proof.
  revert n. induction s as [|c s IH]; intros n.
  - destruct n; reflexivity.
  - destruct n as [|n]; simpl; [reflexivity|]. rewrite IH. reflexivity.
Qed.

Lemma substring_0_app (s1 s2 : string) :
  substring 0 (String.length s1) (s1 +:+ s2) = s1.
Proof. induction s1 as [|c s1 IH]; simpl.
  - destruct s2; reflexivity.
  - rewrite IH. reflexivity.
Qed.

Lemma list_ascii_of_string_app (s1 s2 : string) :
  list_ascii_of_string (s1 +:+ s2)
  = (list_ascii_of_string s1 ++ list_ascii_of_string s2)%list.
Proof. induction s1 as [|c s1 IH]; simpl; [reflexivity|]. rewrite IH. reflexivity. Qed.

Lemma hex_digits_length (n : nat) (v : Z) : String.length (hex_digits n v) = n.
Proof.
  revert v. induction n as [|n IH]; intros v; simpl; [reflexivity|].
  rewrite string_length_app, IH. simpl. lia.
Qed.

Lemma zeros_cons (k : nat) :
  String.concat "" (repeat "0" (S k))
  = String "0" (String.concat "" (repeat "0" k)).
Proof. destruct k; reflexivity. Qed.

Lemma zeros_length (k : nat) :
  String.length (String.concat "" (repeat "0" k)) = k.
Proof.
  induction k as [|k IH]; [reflexivity|].
  rewrite zeros_cons. cbn [String.length]. rewrite IH. reflexivity.
Qed.

Lemma zero_pad_length (width : nat) (s : string) :
  String.length (zero_pad width s) = Nat.max width (String.length s).
Proof. unfold zero_pad. rewrite string_length_app, zeros_length. lia. Qed.

Lemma fmt_08ld_length (v : Z) : (8 <= String.length (fmt_08ld v))%nat.
Proof.
  unfold fmt_08ld. destruct (v <? 2147483648).
  - rewrite zero_pad_length. lia.
  - change ("-" +:+ ?s) with (String "-" s). simpl String.length.
    rewrite zero_pad_length. lia.
Qed.

(** ** Reading digits back *)

Lemma digit_value_char (d : Z) :
  0 <= d < 16 -> digit_value (digit_char d) = d.
Proof.
  intros H. rewrite <- (Z2Nat.id d) by lia.
  assert (Z.to_nat d < 16)%nat as Hn by lia.
  revert Hn. generalize (Z.to_nat d). intros n Hn.
  do 16 (destruct n as [|n]; [reflexivity|]). lia.
Qed.

Lemma digits_value_snoc (base : Z) (s : string) (c : ascii) :
  digits_value base (s +:+ String c "")
  = digits_value base s * base + digit_value c.
Proof.
  unfold digits_value. rewrite list_ascii_of_string_app, fold_left_app.
  reflexivity.
Qed.

Lemma hex_digits_value (n : nat) (v : Z) :
  0 <= v -> digits_value 16 (hex_digits n v) = v mod 16 ^ Z.of_nat n.
Proof.
  revert v. induction n as [|n IH]; intros v Hv.
  - simpl. rewrite Z.mod_1_r. reflexivity.
  - cbn [hex_digits]. rewrite digits_value_snoc, IH
      by (apply Z.div_pos; lia).
    rewrite digit_value_char by (apply Z.mod_pos_bound; lia).
    rewrite Nat2Z.inj_succ, Z.pow_succ_r by lia.
    assert (0 < 16 ^ Z.of_nat n) as Hp by (apply Z.pow_pos_nonneg; lia).
    rewrite (Z.rem_mul_r v 16 (16 ^ Z.of_nat n)) by lia. lia.
Qed.

Lemma dec_digits_value (fuel : nat) (v : Z) :
  0 <= v < 10 ^ Z.of_nat fuel -> digits_value 10 (dec_digits fuel v) = v.
Proof.
  revert v. induction fuel as [|fuel IH]; intros v Hv.
  - change (10 ^ Z.of_nat 0) with 1 in Hv.
    assert (v = 0) as -> by lia. reflexivity.
  - cbn [dec_digits]. destruct (v <? 10) eqn:Hlt.
    + apply Z.ltb_lt in Hlt. unfold digits_value. cbn [list_ascii_of_string fold_left].
      rewrite digit_value_char by lia. lia.
    + apply Z.ltb_ge in Hlt.
      rewrite Nat2Z.inj_succ, Z.pow_succ_r in Hv by lia.
      rewrite digits_value_snoc, IH.
      * pose proof (Z.mod_pos_bound v 10 ltac:(lia)).
        rewrite digit_value_char by lia.
        pose proof (Z.div_mod v 10 ltac:(lia)). lia.
      * split; [apply Z.div_pos; lia|].
        apply Z.div_lt_upper_bound; lia.
Qed.

Lemma dec_digits_length (fuel : nat) (v : Z) (k : nat) :
  (1 <= k <= fuel)%nat -> 0 <= v < 10 ^ Z.of_nat k ->
  (1 <= String.length (dec_digits fuel v) <= k)%nat.
Proof.
  revert v k. induction fuel as [|fuel IH]; intros v k Hk Hv; [lia|].
  cbn [dec_digits]. destruct (v <? 10) eqn:Hlt.
  - simpl. lia.
  - apply Z.ltb_ge in Hlt. rewrite string_length_app. simpl String.length.
    destruct k as [|k]; [lia|].
    destruct k as [|k]; [simpl in Hv; lia|].
    rewrite Nat2Z.inj_succ, Z.pow_succ_r in Hv by lia.
    specialize (IH (v / 10) (S k) ltac:(lia)).
    assert (0 <= v / 10 < 10 ^ Z.of_nat (S k)) as Hd.
    { split; [apply Z.div_pos; lia|]. apply Z.div_lt_upper_bound; lia. }
    specialize (IH Hd). lia.
Qed.

Lemma zeros_value (base : Z) (k : nat) (s : string) :
  digits_value base (String.concat "" (repeat "0" k) +:+ s)
  = digits_value base s.
Proof.
  induction k as [|k IH]; [reflexivity|].
  rewrite zeros_cons. rewrite append_cons.
  unfold digits_value in *. cbn [list_ascii_of_string fold_left].
  change (digit_value "0") with 0. rewrite Z.mul_0_l. exact IH.
Qed.

Lemma zero_pad_value (base : Z) (width : nat) (s : string) :
  digits_value base (zero_pad width s) = digits_value base s.
Proof. unfold zero_pad. apply zeros_value. Qed.

(** ** The text of the display *)

Section Display.

Lemma Experiment_generateTextLine1_eq (e : t_experiment_data) :
  exists c : ascii,
    Experiment_generateTextLine1 e
    = "SF3 P" +:+ String c (" h" +:+ fmt_08lx (sf3_addr_start_val e)).
Proof.
  unfold Experiment_generateTextLine1, snprintf, fmt_08lx.
  pose proof (hex_digits_length 8 (sf3_addr_start_val e)) as Hl.
  revert Hl. generalize (hex_digits 8 (sf3_addr_start_val e)). intros h Hl.
  change (17 - 1)%nat with 16%nat.
  destruct (sf3_test_pattern_selected e); eexists;
    cbv [String.append]; cbn [substring];
    rewrite (substring_0_all 8 h) by lia; reflexivity.
Qed.

Lemma Experiment_generateTextLine2_eq (e : t_experiment_data) :
  exists m : string,
    String.length m = 3%nat
    /\ Experiment_generateTextLine2 e
       = m +:+ " ERR " +:+ substring 0 8 (fmt_08ld (sf3_err_count_val e)).
Proof.
  unfold Experiment_generateTextLine2, snprintf.
  generalize (fmt_08ld (sf3_err_count_val e)). intros d.
  change (17 - 1)%nat with 16%nat.
  destruct (operatingMode e);
    first [exists "GO "; split; [reflexivity|];
           cbv [String.append]; cbn [substring]; reflexivity
          |exists "ERS"; split; [reflexivity|];
           cbv [String.append]; cbn [substring]; reflexivity
          |exists "PRO"; split; [reflexivity|];
           cbv [String.append]; cbn [substring]; reflexivity
          |exists "TST"; split; [reflexivity|];
           cbv [String.append]; cbn [substring]; reflexivity
          |exists "END"; split; [reflexivity|];
           cbv [String.append]; cbn [substring]; reflexivity].
Qed.

End Display.

Lemma text_lines_length (e : t_experiment_data) :
  String.length (Experiment_generateTextLine1 e) = 16%nat
  /\ String.length (Experiment_generateTextLine2 e) = 16%nat.
Proof.
  split.
  - destruct (Experiment_generateTextLine1_eq e) as [c ->].
    rewrite string_length_app. cbn [String.length].
    rewrite string_length_app. unfold fmt_08lx.
    rewrite hex_digits_length. reflexivity.
  - destruct (Experiment_generateTextLine2_eq e) as (m & Hm & ->).
    rewrite !string_length_app, Hm, substring_0_length.
    pose proof (fmt_08ld_length (sf3_err_count_val e)).
    change (String.length " ERR ") with 5%nat. lia.
Qed.

(** X1. Every update of the text display carries two lines of exactly 16
    characters, the width of the display and of [line1] and [line2] less
    the terminator, whatever the state is; the string for the terminal,
    the two lines with a space between them, has 33 characters and is
    never cut by the buffer of [PRINTF_BUF_SZ]. *)
Theorem display_update_fills_both_lines (e : t_experiment_data) :
  String.length (Experiment_generateTextLine1 e) = 16%nat
  /\ String.length (Experiment_generateTextLine2 e) = 16%nat
  /\ snprintf PRINTF_BUF_SZ
       (Experiment_generateTextLine1 e +:+ " "
          +:+ Experiment_generateTextLine2 e)
     = Experiment_generateTextLine1 e +:+ " "
         +:+ Experiment_generateTextLine2 e
  /\ String.length
       (Experiment_generateTextLine1 e +:+ " "
          +:+ Experiment_generateTextLine2 e) = 33%nat.
Proof.
  destruct (text_lines_length e) as [H1 H2].
  assert (String.length
            (Experiment_generateTextLine1 e +:+ " "
               +:+ Experiment_generateTextLine2 e) = 33%nat) as H3.
  { rewrite !string_length_app, H1, H2. reflexivity. }
  repeat split; try assumption.
  unfold snprintf. apply substring_0_all. rewrite H3.
  unfold PRINTF_BUF_SZ. lia.
Qed.

Lemma display_reads_back (e : t_experiment_data) :
  0 <= sf3_addr_start_val e < 4294967296 ->
  0 <= sf3_err_count_val e < 100000000 ->
  digits_value 16 (substring 8 8 (Experiment_generateTextLine1 e))
  = sf3_addr_start_val e
  /\ digits_value 10 (substring 8 8 (Experiment_generateTextLine2 e))
     = sf3_err_count_val e.
Proof.
  intros Ha He. split.
  - destruct (Experiment_generateTextLine1_eq e) as [c ->].
    pose proof (hex_digits_length 8 (sf3_addr_start_val e)) as Hl.
    pose proof (hex_digits_value 8 (sf3_addr_start_val e) ltac:(lia)) as Hv.
    unfold fmt_08lx. revert Hl Hv.
    generalize (hex_digits 8 (sf3_addr_start_val e)). intros h Hl Hv.
    cbv [String.append]. cbn [substring].
    rewrite (substring_0_all 8 h) by lia. rewrite Hv.
    apply Z.mod_small. change (16 ^ Z.of_nat 8) with 4294967296. exact Ha.
  - destruct (Experiment_generateTextLine2_eq e) as (m & Hm & ->).
    assert (fmt_08ld (sf3_err_count_val e)
            = zero_pad 8 (dec_digits 10 (sf3_err_count_val e))) as Hf.
    { unfold fmt_08ld.
      destruct (sf3_err_count_val e <? 2147483648) eqn:Hlt; [reflexivity|].
      apply Z.ltb_ge in Hlt. lia. }
    pose proof (dec_digits_length 10 (sf3_err_count_val e) 8 ltac:(lia)
                  ltac:(change (10 ^ Z.of_nat 8) with 100000000; lia)) as Hd.
    pose proof (zero_pad_length 8 (dec_digits 10 (sf3_err_count_val e)))
      as Hl.
    pose proof (zero_pad_value 10 8 (dec_digits 10 (sf3_err_count_val e)))
      as Hv.
    rewrite dec_digits_value in Hv
      by (change (10 ^ Z.of_nat 10) with 10000000000; lia).
    rewrite Hf. revert Hl Hv.
    generalize (zero_pad 8 (dec_digits 10 (sf3_err_count_val e))).
    intros d Hl Hv.
    rewrite (substring_0_all 8 d) by lia.
    destruct m as [|c1 [|c2 [|c3 [|c4 m]]]]; try discriminate Hm.
    cbv [String.append]. cbn [substring].
    rewrite (substring_0_all 8 d) by lia. exact Hv.
Qed.

(** ** The error count and the region in reachable states *)

Section Bounds.

Context {hdr : PmodSF3_h} {D : Type} {drv : PmodSF3_driver D}.

Lemma pages_compared_bound (e : t_experiment_data) :
  Inv e ->
  0 <= pages_compared e <= experi_page_cnt_per_iter * total_iteration_count.
Proof.
  intros [[Hm [H0 Hl]] _ _ _ _ Hso _ _ _ _].
  unfold pages_compared. unfold sub_operation_inv in Hso.
  unfold last_starting_byte_addr in Hl. consts.
  change total_iteration_count with 32 in *.
  change (u32 (1048576 * (32 - 1))) with 32505856 in Hl.
  destruct (sf3_start_at_zero e); [lia|].
  assert (0 <= sf3_addr_start_val e / 1048576 <= 31) as Hq.
  { split; [apply Z.div_pos; lia|].
    apply Z.div_le_upper_bound; lia. }
  destruct (operatingMode e); lia.
Qed.

Lemma err_count_bound (e : t_experiment_data) :
  Z.of_nat SF3_PAGE_SIZE * (experi_page_cnt_per_iter * total_iteration_count)
  <= max_possible_byte_count ->
  Inv e -> 0 <= sf3_err_count_val e <= max_possible_byte_count.
Proof.
  intros Hsz HI. pose proof (pages_compared_bound e HI) as Hp.
  destruct HI as [_ _ _ _ _ _ _ _ He _]. split; [lia|].
  etransitivity; [apply He|]. etransitivity; [|exact Hsz].
  apply Z.mul_le_mono_nonneg_l; lia.
Qed.

(** X2. In every state that the task reaches, the error count is at most
    the number of bytes of the device (given that the pages of a region
    hold no more bytes than the device): it is far from the range of
    [uint32_t], so the additions of the compare loop never wrap. *)
Theorem error_count_is_bounded_by_device_size (w : world D) :
  Z.of_nat SF3_PAGE_SIZE * (experi_page_cnt_per_iter * total_iteration_count)
  <= max_possible_byte_count ->
  reachable w ->
  0 <= sf3_err_count_val (experiData w) <= max_possible_byte_count
  /\ max_possible_byte_count < 4294967296.
Proof.
  intros Hsz Hr. split; [|reflexivity].
  apply err_count_bound; [exact Hsz|]. apply reachable_Inv. exact Hr.
Qed.

(** X3. In every state that the task reaches, the display lines show the
    region start offset and the error count in full: the eight digits
    behind ["SF3 Px h"] read back, in base 16, as [sf3_addr_start_val], and
    the eight digits behind ["xxx ERR "] read back, in base 10, as
    [sf3_err_count_val] (given that the pages of a region hold no more
    bytes than the device, so that the count has at most eight digits). *)
Theorem display_shows_offset_and_count (w : world D) :
  Z.of_nat SF3_PAGE_SIZE * (experi_page_cnt_per_iter * total_iteration_count)
  <= max_possible_byte_count ->
  reachable w ->
  digits_value 16
    (substring 8 8 (Experiment_generateTextLine1 (experiData w)))
  = sf3_addr_start_val (experiData w)
  /\ digits_value 10
       (substring 8 8 (Experiment_generateTextLine2 (experiData w)))
     = sf3_err_count_val (experiData w).
Proof.
  intros Hsz Hr. pose proof (reachable_Inv w Hr) as HI.
  pose proof (err_count_bound _ Hsz HI) as He.
  destruct HI as [[_ [H0 Hl]] _ _ _ _ _ _ _ _ _].
  apply display_reads_back.
  - change last_starting_byte_addr with 32505856 in Hl. lia.
  - change max_possible_byte_count with 33554432 in He. lia.
Qed.

End Bounds.

(** ** The LED items of a round *)

Section LedEvents.

Context {hdr : PmodSF3_h} {D : Type} {drv : PmodSF3_driver D}.

Lemma Experiment_SetLedUpdate_length (silk : nat) (r g b : Z)
    (e : t_experiment_data) :
  length (ledUpdate (Experiment_SetLedUpdate silk r g b e))
  = length (ledUpdate e).
Proof.
  unfold Experiment_SetLedUpdate. destruct (silk <? 6)%nat; [|reflexivity].
  rsimpl. apply length_insert.
Qed.

Lemma fsm_pure_ledUpdate (e : t_experiment_data) :
  ledUpdate (fsm_pure e) = ledUpdate e.
Proof.
  unfold fsm_pure, fsm_WAIT_BUTTON_DEP, fsm_WAIT_BUTTON_REL, fsm_SET_PATTERN,
    fsm_SET_START_ADDR, fsm_SET_START_WAIT, fsm_DONE, fsm_DISPLAY_FINAL,
    select_pattern, set_pattern_seed.
  cbv zeta. destruct (operatingMode e); rsimpl;
    repeat match goal with
           | |- context [if ?c then _ else _] => destruct c; rsimpl
           | |- context [match ?c with TEST_PATTERN_A => _ | _ => _ end] =>
               destruct c; rsimpl
           end; reflexivity.
Qed.

(** The state machine leaves the LED palettes and the two display queues
    alone. *)
Lemma operateFSM_leds (w : world D) :
  ledUpdate (experiData (Experiment_operateFSM w)) = ledUpdate (experiData w)
  /\ keeps_displays w (Experiment_operateFSM w).
Proof.
  destruct (issuing_mode (operatingMode (experiData w))) eqn:Hiss.
  - unfold Experiment_operateFSM.
    destruct (operatingMode (experiData w)); try discriminate Hiss.
    + destruct (fsm_CMD_ERASE_START_round w) as [Hf _ _ _ _ _ Hd _].
      split; [apply Hf|exact Hd].
    + destruct (page_program_rounds 32 w) as [Hf _ _ _ _ _ Hd].
      split; [apply Hf|exact Hd].
    + destruct (page_read_rounds 32 w) as [Hf _ _ _ _ Hd _].
      split; [apply Hf|exact Hd].
  - rewrite (operateFSM_pure_eq w Hiss), fsm_pure_ledUpdate.
    split; [reflexivity|].
    unfold Experiment_operateFSM.
    destruct (operatingMode (experiData w)); try discriminate Hiss;
      split; reflexivity.
Qed.

Lemma Experiment_iterationTimer_ledUpdate (e : t_experiment_data) :
  ledUpdate (Experiment_iterationTimer e) = ledUpdate e.
Proof.
  unfold Experiment_iterationTimer. cbv zeta.
  destruct (decide _); rsimpl; reflexivity.
Qed.

Lemma Experiment_updateLedsDisplayMode_items (w : world D) :
  length (ledUpdate (experiData w)) = 6%nat ->
  let w' := Experiment_updateLedsDisplayMode w in
  length (ledUpdate (experiData w')) = 6%nat
  /\ exists red0 green0 blue0 red1 green1 blue1 : Z,
      xQueueLedConfig w'
      = (xQueueLedConfig w
         ++ [led_item 0 red0 green0 blue0; led_item 1 red1 green1 blue1])%list.
Proof.
  intros Hl. cbv zeta.
  destruct (ledUpdate (experiData w))
    as [|l0 [|l1 [|l2 [|l3 [|l4 [|l5 [|l6 l]]]]]]] eqn:Hleds;
    try discriminate Hl.
  unfold Experiment_updateLedsDisplayMode. cbv zeta.
  unfold for_loop. cbn [Nat.sub seq fold_left].
  unfold Experiment_SendLedUpdate. cbn [Nat.ltb Nat.leb].
  destruct (operatingMode (experiData w)); rsimpl.
  all: unfold Experiment_SetLedUpdate; cbn [Nat.ltb Nat.leb]; rsimpl.
  all: rewrite Hleds; cbn [insert list_insert lookup_total list_lookup_total
                             length Z.of_nat].
  all: split; [reflexivity|].
  all: rewrite <- app_assoc; cbn [app].
  all: do 6 eexists; reflexivity.
Qed.

Lemma Experiment_updateLedsStatuses_items (w : world D) :
  length (ledUpdate (experiData w)) = 6%nat ->
  let w' := Experiment_updateLedsStatuses w in
  length (ledUpdate (experiData w')) = 6%nat
  /\ xQueueLedConfig w'
     = (xQueueLedConfig w
        ++ [led_item 2 0 (if sf3_test_pass (experiData w) then 100 else 0) 0;
            led_item 3 0 (if sf3_test_done (experiData w) then 100 else 0) 0;
            led_item 4 0 0 0; led_item 5 0 0 0])%list.
Proof.
  intros Hl. cbv zeta.
  destruct (ledUpdate (experiData w))
    as [|l0 [|l1 [|l2 [|l3 [|l4 [|l5 [|l6 l]]]]]]] eqn:Hleds;
    try discriminate Hl.
  unfold Experiment_updateLedsStatuses. cbv zeta.
  unfold for_loop. cbn [Nat.sub seq fold_left].
  unfold Experiment_SendLedUpdate. cbn [Nat.ltb Nat.leb].
  rsimpl.
  unfold Experiment_SetLedUpdate; cbn [Nat.ltb Nat.leb]; rsimpl.
  rewrite Hleds; cbn [insert list_insert lookup_total list_lookup_total
                        length Z.of_nat Pos.of_succ_nat Pos.succ].
  split; [reflexivity|].
  rewrite <- !app_assoc; cbn [app]. reflexivity.
Qed.

(** The LED helpers of a round, up to the state machine. *)
Lemma before_fsm_leds (switches buttons : Z) (w : world D) :
  length (ledUpdate (experiData w)) = 6%nat ->
  length (ledUpdate (experiData (before_fsm switches buttons w))) = 6%nat
  /\ exists red0 green0 blue0 red1 green1 blue1 : Z,
      xQueueLedConfig (before_fsm switches buttons w)
      = (xQueueLedConfig w
         ++ [led_item 0 red0 green0 blue0; led_item 1 red1 green1 blue1;
             led_item 2 0
               (if sf3_test_pass (experiData w) then 100 else 0) 0;
             led_item 3 0
               (if sf3_test_done (experiData w) then 100 else 0) 0;
             led_item 4 0 0 0; led_item 5 0 0 0])%list.
Proof.
  intros Hl. unfold before_fsm.
  pose proof (Experiment_updateLedsDisplayMode_items w Hl) as H1.
  pose proof (Experiment_updateLedsDisplayMode_frame w) as F1.
  cbv zeta in H1, F1. revert H1 F1.
  generalize (Experiment_updateLedsDisplayMode w).
  intros w1 (Hl1 & r0 & g0 & b0 & r1 & g1 & b1 & Hq1) ([leds1 He1] & _).
  pose proof (Experiment_updateLedsStatuses_items w1 Hl1) as H2.
  cbv zeta in H2. revert H2.
  generalize (Experiment_updateLedsStatuses w1). intros w2 [Hl2 Hq2].
  pose proof (Experiment_updateClsDisplayAndTerminal_events w2) as H3.
  cbv zeta in H3. revert H3.
  generalize (Experiment_updateClsDisplayAndTerminal w2).
  intros w3 (He3 & _ & Hq3 & _).
  unfold Experiment_readUserInputs.
  rewrite experiData_upd, xQueueLedConfig_upd.
  split.
  - rewrite He3. revert Hl2. generalize (experiData w2). intros e2 Hl2.
    exact Hl2.
  - exists r0, g0, b0, r1, g1, b1.
    rewrite Hq3, Hq2, Hq1, He1, <- app_assoc. reflexivity.
Qed.

Lemma task_round_ledUpdate_length (switches buttons : Z) (w : world D) :
  length (ledUpdate (experiData w)) = 6%nat ->
  length (ledUpdate (experiData (task_round switches buttons w))) = 6%nat.
Proof.
  intros Hl. rewrite task_round_eq, experiData_upd,
    Experiment_iterationTimer_ledUpdate.
  destruct (before_fsm_leds switches buttons w Hl) as [Hl1 _].
  revert Hl1. generalize (before_fsm switches buttons w). intros w1 Hl1.
  destruct (operateFSM_leds w1) as [He _]. rewrite He. exact Hl1.
Qed.

Lemma Experiment_InitData_ledUpdate_length (e : t_experiment_data) :
  length (ledUpdate (Experiment_InitData e)) = length (ledUpdate e).
Proof.
  unfold Experiment_InitData. cbv zeta. rsimpl.
  apply (for_loop_ind
           (fun _ s => length (ledUpdate s) = length (ledUpdate e))); [lia| |].
  - reflexivity.
  - intros i s _ IH. rewrite Experiment_SetLedUpdate_length. exact IH.
Qed.

Lemma reachable_ledUpdate_length (w : world D) :
  reachable w -> length (ledUpdate (experiData w)) = 6%nat.
Proof.
  induction 1 as [d|w switches buttons _ IH].
  - unfold initial_world. cbn [experiData].
    rewrite Experiment_InitData_ledUpdate_length. reflexivity.
  - apply task_round_ledUpdate_length. exact IH.
Qed.

Lemma task_round_led_items (switches buttons : Z) (w : world D) :
  reachable w ->
  exists red0 green0 blue0 red1 green1 blue1 : Z,
    xQueueLedConfig (task_round switches buttons w)
    = (xQueueLedConfig w
       ++ [led_item 0 red0 green0 blue0; led_item 1 red1 green1 blue1;
           led_item 2 0 (if sf3_test_pass (experiData w) then 100 else 0) 0;
           led_item 3 0 (if sf3_test_done (experiData w) then 100 else 0) 0;
           led_item 4 0 0 0; led_item 5 0 0 0])%list.
Proof.
  intros Hr. pose proof (reachable_ledUpdate_length w Hr) as Hl.
  rewrite task_round_eq, xQueueLedConfig_upd.
  destruct (before_fsm_leds switches buttons w Hl) as [_ Hq].
  revert Hq. generalize (before_fsm switches buttons w). intros w1 Hq.
  destruct (operateFSM_leds w1) as [_ [Hk _]]. rewrite Hk. exact Hq.
Qed.

(** X4. Every round of the task hands exactly six items to the LED queue,
    for the LEDs 0, 1, 2, 3, 4 and 5 in this order, each tagged with its
    LED: two for the colour LEDs of the mode display, then the green
    values of the four basic LEDs, which are 100 for LED 2 when the last
    verdict was a pass, 100 for LED 3 when all regions are done, and 0
    for the LEDs 4 and 5, always. *)
Theorem round_sends_six_led_items (switches buttons : Z) (w : world D) :
  reachable w ->
  exists red0 green0 blue0 red1 green1 blue1 : Z,
    xQueueLedConfig (task_round switches buttons w)
    = (xQueueLedConfig w
       ++ [led_item 0 red0 green0 blue0; led_item 1 red1 green1 blue1;
           led_item 2 0 (if sf3_test_pass (experiData w) then 100 else 0) 0;
           led_item 3 0 (if sf3_test_done (experiData w) then 100 else 0) 0;
           led_item 4 0 0 0; led_item 5 0 0 0])%list.
Proof.
  intros Hr. pose proof (reachable_ledUpdate_length w Hr) as Hl.
  rewrite task_round_eq, xQueueLedConfig_upd.
  destruct (before_fsm_leds switches buttons w Hl) as [_ Hq].
  revert Hq. generalize (before_fsm switches buttons w). intros w1 Hq.
  destruct (operateFSM_leds w1) as [_ [Hk _]]. rewrite Hk. exact Hq.
Qed.

End LedEvents.

(** ** The verdict flags *)

Section Verdict.

Context {hdr : PmodSF3_h} {D : Type} {drv : PmodSF3_driver D}.

Lemma verdict_inv_same (e e' : t_experiment_data) :
  operatingMode e' = operatingMode e ->
  operatingModePrev e' = operatingModePrev e ->
  sf3_test_done e' = sf3_test_done e ->
  sf3_test_pass e' = sf3_test_pass e ->
  sf3_addr_start_val e' = sf3_addr_start_val e ->
  sf3_err_count_val e' = sf3_err_count_val e ->
  cnt_t e' = cnt_t e ->
  verdict_inv e -> verdict_inv e'.
Proof.
  intros Hm Hp Hd Hs Ha He Hc [V1 V2 V3].
  split; unfold verdict_pending in *; rewrite ?Hm, ?Hp, ?Hd, ?Hs, ?Ha, ?He, ?Hc;
    assumption.
Qed.

Lemma verdict_step_pure (e : t_experiment_data) :
  Inv e -> verdict_inv e ->
  issuing_mode (operatingMode e) = false ->
  verdict_step (fsm_pure e).
Proof.
  intros [[_ [_ Hl]] _ _ _ _ Hso _ _ _ _] [Vp Vd Vs] Hiss.
  unfold verdict_pending in Vs. unfold sub_operation_inv in Hso.
  unfold verdict_step, fsm_pure, fsm_WAIT_BUTTON_DEP, fsm_WAIT_BUTTON_REL,
    fsm_SET_PATTERN, fsm_SET_START_ADDR, fsm_SET_START_WAIT, fsm_DONE,
    fsm_DISPLAY_FINAL, select_pattern, set_pattern_seed.
  cbv zeta.
  destruct (operatingMode e) eqn:Hm; try discriminate Hiss;
    try contradiction; rsimpl.
  all: repeat match goal with
         | |- context [if ?c then _ else _] =>
             let E := fresh "E" in destruct c eqn:E; rsimpl
         | |- context [match ?c with TEST_PATTERN_A => _ | _ => _ end] =>
             destruct c; rsimpl
         end.
  all: rewrite ?Hm.
  all: split; intros H.
  all: try discriminate H.
  all: try (destruct (Vd H) as [Hx _]; discriminate Hx).
  all: try (destruct (Vs H) as [Hx|[Hx|[Hx|[Hx _]]]]; try discriminate Hx;
            left; exact Hx).
  all: try (split; [reflexivity|];
            match goal with
            | E : (_ <? _) = false |- _ => apply Z.ltb_ge in E; lia
            end).
  all: try (right; right; right; split; [reflexivity|]; rewrite Vp;
            discriminate).
  all: try (left; apply Z.eqb_eq; assumption).
  all: try (destruct (Vs H) as [Hx|[Hx|[Hx|[Hx _]]]]; try discriminate Hx;
            right; right; left; reflexivity).
Qed.

Lemma verdict_step_issuing (w : world D) :
  verdict_inv (experiData w) ->
  issuing_mode (operatingMode (experiData w)) = true ->
  verdict_step (experiData (Experiment_operateFSM w)).
Proof.
  intros [Vp Vd Vs] Hiss. unfold verdict_pending in Vs.
  unfold verdict_step, Experiment_operateFSM.
  destruct (operatingMode (experiData w)) eqn:Hm; try discriminate Hiss.
  - destruct (fsm_CMD_ERASE_START_round w) as [Hf _ _ _ _ He _ _].
    rewrite (df_done _ _ Hf), (df_pass _ _ Hf), He. split; intros H.
    + destruct (Vd H) as [Hx _]. discriminate Hx.
    + destruct (Vs H) as [Hx|[Hx|[Hx|[Hx _]]]]; try discriminate Hx.
      left. exact Hx.
  - destruct (page_program_rounds 32 w) as [Hf _ _ _ _ He _].
    unfold fsm_CMD_PAGE_START.
    rewrite (df_done _ _ Hf), (df_pass _ _ Hf), He. split; intros H.
    + destruct (Vd H) as [Hx _]. discriminate Hx.
    + destruct (Vs H) as [Hx|[Hx|[Hx|[Hx _]]]]; try discriminate Hx.
      left. exact Hx.
  - destruct (page_read_rounds 32 w) as [Hf _ Hmode _ _ _ _].
    unfold fsm_CMD_READ_START.
    rewrite (df_done _ _ Hf), (Hmode ltac:(lia)). split; intros H.
    + destruct (Vd H) as [Hx _]. discriminate Hx.
    + destruct (_ <? _); [right; left|right; right; left]; reflexivity.
Qed.

Lemma verdict_step_timer (e1 : t_experiment_data) :
  verdict_step e1 -> verdict_inv (Experiment_iterationTimer e1).
Proof.
  intros [Sd Ss]. unfold Experiment_iterationTimer. cbv zeta.
  destruct (decide (operatingMode e1 = operatingModePrev e1)) as [Heq|Hne];
    split; unfold verdict_pending; rsimpl; try reflexivity; try exact Sd.
  - intros H. destruct (Ss H) as [Hx|[Hx|[Hx|[Hx Hy]]]]; auto.
    exfalso. rewrite <- Heq in Hy. contradiction.
  - intros H. destruct (Ss H) as [Hx|[Hx|[Hx|[Hx Hy]]]]; auto.
Qed.

Lemma verdict_inv_task_round (switches buttons : Z) (w : world D) :
  Inv (experiData w) -> verdict_inv (experiData w) ->
  verdict_inv (experiData (task_round switches buttons w)).
Proof.
  intros HI HV. rewrite task_round_eq, experiData_upd.
  apply verdict_step_timer.
  pose proof (Inv_before_fsm switches buttons w HI) as HI0.
  assert (verdict_inv (experiData (before_fsm switches buttons w))) as HV0.
  { destruct (before_fsm_frame switches buttons w) as ([leds He] & _).
    revert He. generalize (experiData (before_fsm switches buttons w)).
    intros e0 ->. revert HV. apply verdict_inv_same; reflexivity. }
  revert HI0 HV0. generalize (before_fsm switches buttons w).
  intros w0 HI0 HV0.
  destruct (issuing_mode (operatingMode (experiData w0))) eqn:Hiss.
  - apply verdict_step_issuing; assumption.
  - rewrite (operateFSM_pure_eq w0 Hiss).
    apply verdict_step_pure; assumption.
Qed.

Lemma verdict_inv_InitData : verdict_inv (Experiment_InitData experiData_zero).
Proof.
  unfold Experiment_InitData. cbv zeta.
  split; unfold verdict_pending; rsimpl; try reflexivity; discriminate.
Qed.

Lemma reachable_verdict_inv (w : world D) :
  reachable w -> verdict_inv (experiData w).
Proof.
  induction 1 as [d|w switches buttons Hr IH].
  - apply verdict_inv_InitData.
  - apply verdict_inv_task_round; [apply reachable_Inv; exact Hr|exact IH].
Qed.

(** X5. [sf3_test_done], which lights LED 3, is true in a state that the
    task reaches only if the state machine idles in [ST_WAIT_BUTTON_DEP]
    and the region start offset is that of the last region: the flag is
    never up while a pass runs or while a region is left to test. *)
Theorem done_flag_means_all_regions_tested (w : world D) :
  reachable w ->
  sf3_test_done (experiData w) = true ->
  operatingMode (experiData w) = ST_WAIT_BUTTON_DEP
  /\ sf3_addr_start_val (experiData w) = last_starting_byte_addr.
Proof. intros Hr. apply (vi_done _ (reachable_verdict_inv w Hr)). Qed.

(** X6. [sf3_test_pass], which lights LED 2, is written in
    [ST_DISPLAY_FINAL] only; it lags behind the error count during the read
    phase of the next pass and in the round that enters
    [ST_DISPLAY_FINAL]. In a state that the task reaches, outside the read
    phase and the first round of [ST_DISPLAY_FINAL] (where the mode timer
    is zero), a pass flag that is up tells that no mismatch has been
    counted since power-on. *)
Theorem pass_flag_means_no_mismatch (w : world D) :
  reachable w ->
  sf3_test_pass (experiData w) = true ->
  operatingMode (experiData w) <> ST_CMD_READ_START ->
  operatingMode (experiData w) <> ST_CMD_READ_DONE ->
  (operatingMode (experiData w) = ST_DISPLAY_FINAL ->
   cnt_t (experiData w) <> 0) ->
  sf3_err_count_val (experiData w) = 0.
Proof.
  intros Hr Hp H1 H2 H3.
  destruct (vi_pass _ (reachable_verdict_inv w Hr) Hp) as [He|Hpend];
    [exact He|].
  exfalso. destruct Hpend as [Hx|[Hx|[Hx Hc]]]; [auto|auto|].
  apply (H3 Hx Hc).
Qed.

End Verdict.

(** ** The schedule of a pass *)

Section Schedule.

Context {hdr : PmodSF3_h} {D : Type} {drv : PmodSF3_driver D}.

Lemma control_rounds_app (n m : nat) (c c' : control) :
  control_rounds (n + m) c = Some c' ->
  exists c'' : control,
    control_rounds n c = Some c'' /\ control_rounds m c'' = Some c'.
Proof.
  revert c. induction n as [|n IH]; intros c H.
  - exists c. split; [reflexivity|exact H].
  - cbn [Nat.add control_rounds] in *.
    destruct (pass_mode (c_mode c)); [|discriminate H].
    apply IH. exact H.
Qed.

Lemma control_rounds_pass (m : nat) (c c' : control) :
  control_rounds (S m) c = Some c' -> pass_mode (c_mode c) = true.
Proof.
  cbn [control_rounds]. destruct (pass_mode (c_mode c)); [reflexivity|].
  discriminate.
Qed.

Lemma task_round_select_switch (switches : Z) (w : world D) :
  operatingMode (experiData w) = ST_WAIT_BUTTON_DEP ->
  sf3_addr_start_val (experiData w) < last_starting_byte_addr ->
  pattern_of_switch switches <> TEST_PATTERN_NONE ->
  let e := experiData w in
  let e' := experiData (task_round switches 0 w) in
  operatingMode e' = ST_WAIT_BUTTON_REL
  /\ sf3_addr_start_val e' = sf3_addr_start_val e
  /\ sf3_start_at_zero e' = sf3_start_at_zero e
  /\ sf3_test_pattern_selected e' = pattern_of_switch switches.
Proof.
  intros Hm Ha Hp. cbv zeta.
  destruct (task_round_pure switches 0 w) as [leds ->];
    [rewrite Hm; reflexivity|].
  unfold Experiment_iterationTimer, fsm_pure, with_inputs. cbv zeta. rsimpl.
  rewrite Hm. unfold fsm_WAIT_BUTTON_DEP, select_pattern. cbv zeta. rsimpl.
  apply Z.ltb_lt in Ha. rewrite Ha.
  change (0 =? BTN0_MASK) with false. change (0 =? BTN1_MASK) with false.
  change (0 =? BTN2_MASK) with false. change (0 =? BTN3_MASK) with false.
  cbn [orb]. unfold pattern_of_switch in *.
  destruct (switches =? SWTCH0_MASK);
    [|destruct (switches =? SWTCH1_MASK);
      [|destruct (switches =? SWTCH2_MASK);
        [|destruct (switches =? SWTCH3_MASK); [|contradiction]]]].
  all: rsimpl; destruct (decide _); rsimpl; repeat split.
Qed.

Lemma task_round_release_selected (switches : Z) (w : world D) :
  operatingMode (experiData w) = ST_WAIT_BUTTON_REL ->
  let e := experiData w in
  let e' := experiData (task_round switches 0 w) in
  operatingMode e' = ST_SET_PATTERN
  /\ sf3_addr_start_val e' = sf3_addr_start_val e
  /\ sf3_start_at_zero e' = sf3_start_at_zero e
  /\ sf3_test_pattern_selected e' = sf3_test_pattern_selected e.
Proof.
  intros Hm. cbv zeta.
  destruct (task_round_pure switches 0 w) as [leds ->];
    [rewrite Hm; reflexivity|].
  unfold Experiment_iterationTimer, fsm_pure, with_inputs. cbv zeta. rsimpl.
  rewrite Hm. unfold fsm_WAIT_BUTTON_REL. rsimpl.
  destruct (decide _); rsimpl; repeat split.
Qed.

(** The rounds of a pass behind the two that latch the pattern and the
    region start: none of the first 1863 starts in [ST_WAIT_BUTTON_DEP],
    and after 1863 the pass is over. *)
Lemma pass_rounds_control (inputs : list (Z * Z)) (w : world D) :
  Inv (experiData w) ->
  control_of (experiData w)
  = mk_control ST_SET_START_WAIT ST_SET_START_WAIT 0 0 ->
  (length inputs <= 1863)%nat ->
  let e' := experiData (task_rounds inputs w) in
  pass_frame (experiData w) e'
  /\ ((length inputs < 1863)%nat -> pass_mode (operatingMode e') = true)
  /\ (length inputs = 1863%nat ->
      control_of e'
      = mk_control ST_WAIT_BUTTON_DEP ST_WAIT_BUTTON_DEP 0 0).
Proof.
  intros HI Hc Hlen. cbv zeta.
  pose proof whole_pass_schedule as Hs.
  replace 1863%nat with (length inputs + (1863 - length inputs))%nat in Hs
    by lia.
  destruct (control_rounds_app _ _ _ _ Hs) as (c'' & H1 & H2).
  rewrite <- Hc in H1.
  destruct (task_rounds_control inputs w c'' HI H1) as [Hc' Hpf].
  split; [exact Hpf|]. split.
  - intros Hlt.
    destruct (1863 - length inputs)%nat as [|m] eqn:Hm; [lia|].
    apply control_rounds_pass in H2. rewrite <- Hc' in H2. exact H2.
  - intros Heq. rewrite Heq, Nat.sub_diag in H2. cbn [control_rounds] in H2.
    rewrite Hc'. congruence.
Qed.

(** A pass from [ST_SET_PATTERN]. *)
Lemma pass_rounds (inputs : list (Z * Z)) (w : world D) :
  Inv (experiData w) ->
  operatingMode (experiData w) = ST_SET_PATTERN ->
  sf3_start_at_zero (experiData w) = true
  \/ sf3_addr_start_val (experiData w) < last_starting_byte_addr ->
  (length inputs <= 1865)%nat ->
  let e := experiData w in
  let e' := experiData (task_rounds inputs w) in
  sf3_test_pattern_selected e' = sf3_test_pattern_selected e
  /\ ((length inputs < 1865)%nat -> operatingMode e' <> ST_WAIT_BUTTON_DEP)
  /\ ((2 <= length inputs)%nat ->
      sf3_start_at_zero e' = false
      /\ sf3_addr_start_val e'
         = if sf3_start_at_zero e then 0
           else sf3_addr_start_val e + per_iteration_byte_count)
  /\ (length inputs = 1865%nat ->
      control_of e'
      = mk_control ST_WAIT_BUTTON_DEP ST_WAIT_BUTTON_DEP 0 0).
Proof.
  intros HI Hm Hgo Hlen. cbv zeta.
  destruct inputs as [|i1 inputs].
  { rewrite task_rounds_nil. cbn [length]. split; [reflexivity|].
    split; [intros _; rewrite Hm; discriminate|].
    split; [lia|discriminate]. }
  rewrite task_rounds_cons.
  destruct (task_round_SET_PATTERN (fst i1) (snd i1) w Hm)
    as (Hm1 & Hp1 & Ha1 & Hz1 & Hs1 & _).
  pose proof (Inv_task_round (fst i1) (snd i1) w HI) as HI1.
  rewrite <- Ha1, <- Hz1 in Hgo. rewrite <- Hs1, <- Hz1, <- Ha1.
  assert (0 <= sf3_addr_start_val (experiData w)
          <= last_starting_byte_addr) as Hreg
      by (destruct HI as [[_ Hx] _ _ _ _ _ _ _ _ _]; exact Hx).
  rewrite <- Ha1 in Hreg.
  revert Hm1 Hp1 Hgo HI1 Hreg Hlen. clear.
  generalize (task_round (fst i1) (snd i1) w).
  intros w1 Hm1 Hp1 Hgo HI1 Hreg Hlen.
  destruct inputs as [|i2 inputs].
  { rewrite task_rounds_nil. cbn [length]. split; [reflexivity|].
    split; [intros _; rewrite Hm1; discriminate|].
    split; [lia|discriminate]. }
  rewrite task_rounds_cons.
  destruct (task_round_SET_START_ADDR (fst i2) (snd i2) w1 Hm1 Hp1 Hgo)
    as (Hc2 & Ha2 & Hs2 & _ & _ & Hz2).
  pose proof (Inv_task_round (fst i2) (snd i2) w1 HI1) as HI2.
  assert (sf3_addr_start_val (experiData (task_round (fst i2) (snd i2) w1))
          = if sf3_start_at_zero (experiData w1) then 0
            else sf3_addr_start_val (experiData w1)
                 + per_iteration_byte_count) as Ha2'.
  { rewrite Ha2. destruct (sf3_start_at_zero (experiData w1));
      [reflexivity|].
    destruct Hgo as [Hx|Hx]; [discriminate Hx|].
    apply u32_small. change last_starting_byte_addr with 32505856 in *.
    consts. lia. }
  rewrite <- Hs2, <- Ha2'.
  revert Hc2 Hz2 HI2 Hlen. clear.
  generalize (task_round (fst i2) (snd i2) w1).
  intros w2 Hc2 Hz2 HI2 Hlen. cbn [length] in *.
  destruct (pass_rounds_control inputs w2 HI2 Hc2 ltac:(lia))
    as (Hpf & Hlt & Heq).
  split; [apply Hpf|]. split; [|split].
  - intros H. specialize (Hlt ltac:(lia)). intros Hx. rewrite Hx in Hlt.
    discriminate Hlt.
  - intros _. rewrite (pf_start_at_zero _ _ Hpf), (pf_addr_start _ _ Hpf).
    split; [exact Hz2|reflexivity].
  - intros H. apply Heq. lia.
Qed.

(** X7. A pass takes the same number of rounds whatever the device answers
    and whatever the buttons and switches read meanwhile: from a state in
    [ST_SET_PATTERN] with a region left, the state machine is back in
    [ST_WAIT_BUTTON_DEP] after exactly 1865 rounds (18.65 s at 10 ms a
    round) and not before, with the pattern selection unchanged and the
    region start offset advanced by one region (or set to zero before the
    first pass). *)
Theorem pass_takes_1865_rounds (inputs : list (Z * Z)) (w : world D) :
  reachable w ->
  operatingMode (experiData w) = ST_SET_PATTERN ->
  sf3_start_at_zero (experiData w) = true
  \/ sf3_addr_start_val (experiData w) < last_starting_byte_addr ->
  (length inputs <= 1865)%nat ->
  (operatingMode (experiData (task_rounds inputs w)) = ST_WAIT_BUTTON_DEP
   <-> length inputs = 1865%nat)
  /\ sf3_test_pattern_selected (experiData (task_rounds inputs w))
     = sf3_test_pattern_selected (experiData w)
  /\ (length inputs = 1865%nat ->
      sf3_addr_start_val (experiData (task_rounds inputs w))
      = if sf3_start_at_zero (experiData w) then 0
        else sf3_addr_start_val (experiData w) + per_iteration_byte_count).
Proof.
  intros Hr Hm Hgo Hlen.
  destruct (pass_rounds inputs w (reachable_Inv w Hr) Hm Hgo Hlen)
    as (Hs & Hlt & Ha & Heq).
  revert Hs Hlt Ha Heq. generalize (experiData (task_rounds inputs w)).
  intros e' Hs Hlt Ha Heq.
  split; [split|split].
  - intros Hx. destruct (decide (length inputs = 1865%nat)) as [|Hne];
      [assumption|].
    exfalso. apply Hlt; [lia|exact Hx].
  - intros H. specialize (Heq H). apply (f_equal c_mode) in Heq. exact Heq.
  - exact Hs.
  - intros H. apply Ha. lia.
Qed.

(** One cycle with a switch on and no button held: a round that selects,
    a round that sees no button, and a pass. *)
Lemma switch_cycle (switches : Z) (k : nat) (w : world D) :
  pattern_of_switch switches <> TEST_PATTERN_NONE ->
  (k < 32)%nat ->
  Inv (experiData w) -> idle_after k (experiData w) ->
  let w' := task_rounds (repeat (switches, 0) 1867) w in
  Inv (experiData w') /\ idle_after (S k) (experiData w')
  /\ sf3_test_pattern_selected (experiData w') = pattern_of_switch switches.
Proof.
  intros Hsw Hk HI [Hm Hreg]. cbv zeta.
  split; [apply Inv_task_rounds; exact HI|].
  change (repeat (switches, 0) 1867)
    with ((switches, 0) :: (switches, 0) :: repeat (switches, 0) 1865).
  rewrite !task_rounds_cons. cbn [fst snd].
  assert (sf3_addr_start_val (experiData w) < last_starting_byte_addr
          /\ (if sf3_start_at_zero (experiData w) then 0
              else sf3_addr_start_val (experiData w)
                   + per_iteration_byte_count)
             = Z.of_nat k * per_iteration_byte_count) as [Hlt Hnext].
  { change last_starting_byte_addr with 32505856. consts.
    destruct k as [|k']; destruct Hreg as [-> ->]; [split; reflexivity|].
    split; lia. }
  destruct (task_round_select_switch switches w Hm Hlt Hsw)
    as (Hm1 & Ha1 & Hz1 & Hs1).
  pose proof (Inv_task_round switches 0 w HI) as HI1.
  rewrite <- Ha1 in Hlt. rewrite <- Ha1, <- Hz1 in Hnext.
  revert Hm1 Hs1 HI1 Hlt Hnext. clear.
  generalize (task_round switches 0 w). intros w1 Hm1 Hs1 HI1 Hlt Hnext.
  destruct (task_round_release_selected switches w1 Hm1)
    as (Hm2 & Ha2 & Hz2 & Hs2).
  pose proof (Inv_task_round switches 0 w1 HI1) as HI2.
  rewrite <- Ha2 in Hlt. rewrite <- Ha2, <- Hz2 in Hnext.
  rewrite <- Hs2 in Hs1.
  revert Hm2 Hs1 HI2 Hlt Hnext. clear.
  generalize (task_round switches 0 w1). intros w2 Hm2 Hs2 HI2 Hlt Hnext.
  destruct (pass_rounds (repeat (switches, 0) 1865) w2 HI2 Hm2
              (or_intror Hlt) ltac:(rewrite repeat_length; lia))
    as (Hs & _ & Ha & Hc).
  specialize (Ha ltac:(rewrite repeat_length; lia)).
  specialize (Hc ltac:(apply repeat_length)).
  revert Hs Ha Hc.
  generalize (experiData (task_rounds (repeat (switches, 0) 1865) w2)).
  intros e' Hs [Hz Ha] Hc. apply (f_equal c_mode) in Hc.
  split; [split; [exact Hc|split; [exact Hz|]]|].
  - rewrite Ha. exact Hnext.
  - rewrite Hs. exact Hs2.
Qed.

Lemma switch_cycles (switches : Z) (k : nat) (w : world D) :
  pattern_of_switch switches <> TEST_PATTERN_NONE ->
  (k <= 32)%nat ->
  Inv (experiData w) -> idle_after 0 (experiData w) ->
  let w' := task_rounds (repeat (switches, 0) (k * 1867)) w in
  Inv (experiData w') /\ idle_after k (experiData w')
  /\ (k <> 0%nat ->
      sf3_test_pattern_selected (experiData w') = pattern_of_switch switches).
Proof.
  intros Hsw Hk HI H0. cbv zeta. induction k as [|k IH].
  - change (repeat (switches, 0) (0 * 1867)) with (@nil (Z * Z)).
    rewrite task_rounds_nil. split; [exact HI|]. split; [exact H0|].
    intros H. contradiction.
  - rewrite Nat.mul_succ_l, repeat_app, task_rounds_app.
    destruct (IH ltac:(lia)) as (HIk & Hidle & _).
    revert HIk Hidle. generalize (task_rounds (repeat (switches, 0) (k * 1867)) w).
    intros wk HIk Hidle.
    destruct (switch_cycle switches k wk Hsw ltac:(lia) HIk Hidle)
      as (HI' & Hidle' & Hs').
    split; [exact HI'|]. split; [exact Hidle'|]. intros _. exact Hs'.
Qed.

Lemma held_switch_run (d : D) (switches : Z) :
  pattern_of_switch switches <> TEST_PATTERN_NONE ->
  (forall k : nat,
     (1 <= k <= 32)%nat ->
     let e := experiData
                (task_rounds (repeat (switches, 0) (k * 1867))
                   (initial_world d)) in
     operatingMode e = ST_WAIT_BUTTON_DEP
     /\ sf3_addr_start_val e = (Z.of_nat k - 1) * per_iteration_byte_count
     /\ sf3_test_pattern_selected e = pattern_of_switch switches)
  /\ (let e := experiData
                 (task_rounds (repeat (switches, 0) (32 * 1867 + 1))
                    (initial_world d)) in
      operatingMode e = ST_WAIT_BUTTON_DEP
      /\ sf3_addr_start_val e = last_starting_byte_addr
      /\ sf3_test_done e = true).
Proof.
  intros Hsw.
  assert (Inv (experiData (initial_world d))) as HI0 by apply Inv_InitData.
  assert (idle_after 0 (experiData (initial_world d))) as H0.
  { unfold idle_after, initial_world, Experiment_InitData. cbv zeta. rsimpl.
    repeat split. }
  revert HI0 H0. generalize (initial_world d). intros w0 HI0 H0.
  split.
  - intros k Hk. cbv zeta.
    destruct (switch_cycles switches k w0 Hsw ltac:(lia) HI0 H0)
      as (_ & [Hm Hreg] & Hs).
    destruct k as [|k']; [lia|]. destruct Hreg as [_ Ha].
    split; [exact Hm|]. split; [rewrite Ha; lia|]. apply Hs. lia.
  - cbv zeta. rewrite repeat_app, task_rounds_app.
    destruct (switch_cycles switches 32 w0 Hsw ltac:(lia) HI0 H0)
      as (_ & [Hm [_ Ha]] & _).
    revert Hm Ha.
    generalize (task_rounds (repeat (switches, 0) (32 * 1867)) w0).
    intros w32 Hm Ha.
    change (repeat (switches, 0) 1) with [(switches, 0)].
    rewrite task_rounds_cons, task_rounds_nil. cbn [fst snd].
    apply task_round_idle; [exact Hm|]. rewrite Ha. reflexivity.
Qed.


(** X8. With one of the four switches left on and no button held, the
    tester works through the whole device without further input and for
    every driver: [k] cycles of 1867 rounds after power-on, for [k] from 1
    to 32, the state machine idles in [ST_WAIT_BUTTON_DEP] with the
    pattern of the switch selected and region [k - 1] behind it, and one
    round after the 32nd cycle [sf3_test_done] is up at the last region
    start. *)
Theorem held_switch_tests_every_region (d : D) (switches : Z) :
  pattern_of_switch switches <> TEST_PATTERN_NONE ->
  (forall k : nat,
     (1 <= k <= 32)%nat ->
     let e := experiData
                (task_rounds (repeat (switches, 0) (k * 1867))
                   (initial_world d)) in
     operatingMode e = ST_WAIT_BUTTON_DEP
     /\ sf3_addr_start_val e = (Z.of_nat k - 1) * per_iteration_byte_count
     /\ sf3_test_pattern_selected e = pattern_of_switch switches)
  /\ (let e := experiData
                 (task_rounds (repeat (switches, 0) (32 * 1867 + 1))
                    (initial_world d)) in
      operatingMode e = ST_WAIT_BUTTON_DEP
      /\ sf3_addr_start_val e = last_starting_byte_addr
      /\ sf3_test_done e = true).
Proof. apply held_switch_run. Qed.

(** A pass up to a round of its timeline. *)
Lemma pass_point (n : nat) (c : control) (inputs : list (Z * Z))
    (w : world D) :
  control_rounds n (mk_control ST_SET_START_WAIT ST_SET_START_WAIT 0 0)
  = Some c ->
  Inv (experiData w) ->
  operatingMode (experiData w) = ST_SET_PATTERN ->
  sf3_start_at_zero (experiData w) = true
  \/ sf3_addr_start_val (experiData w) < last_starting_byte_addr ->
  length inputs = (2 + n)%nat ->
  control_of (experiData (task_rounds inputs w)) = c.
Proof.
  intros Hc HI Hm Hgo Hlen.
  destruct inputs as [|i1 [|i2 inputs]]; try discriminate Hlen.
  rewrite !task_rounds_cons.
  destruct (task_round_SET_PATTERN (fst i1) (snd i1) w Hm)
    as (Hm1 & Hp1 & Ha1 & Hz1 & _).
  pose proof (Inv_task_round (fst i1) (snd i1) w HI) as HI1.
  rewrite <- Ha1, <- Hz1 in Hgo.
  revert Hm1 Hp1 Hgo HI1. generalize (task_round (fst i1) (snd i1) w).
  intros w1 Hm1 Hp1 Hgo HI1.
  destruct (task_round_SET_START_ADDR (fst i2) (snd i2) w1 Hm1 Hp1 Hgo)
    as (Hc2 & _).
  pose proof (Inv_task_round (fst i2) (snd i2) w1 HI1) as HI2.
  revert Hc2 HI2. generalize (task_round (fst i2) (snd i2) w1).
  intros w2 Hc2 HI2.
  apply task_rounds_control; [exact HI2|].
  rewrite Hc2. cbn [length] in Hlen.
  replace (length inputs) with n by lia. exact Hc.
Qed.

Lemma timeline_from_rounds (n k : nat) (c : control) :
  timeline_from n k c = true ->
  forall j : nat,
    (j <= n)%nat ->
    exists c' : control,
      control_rounds j c = Some c'
      /\ c_mode c' = phase_of_round (k + j).
Proof.
  revert k c. induction n as [|n IH]; intros k c H j Hj.
  - assert (j = 0%nat) as -> by lia. exists c. split; [reflexivity|].
    cbn [timeline_from] in H. rewrite andb_true_r in H.
    apply bool_decide_eq_true in H. rewrite Nat.add_0_r. exact H.
  - cbn [timeline_from] in H.
    apply andb_true_iff in H. destruct H as [H1 H].
    apply andb_true_iff in H. destruct H as [H2 H3].
    destruct j as [|j].
    + exists c. split; [reflexivity|].
      apply bool_decide_eq_true in H1. rewrite Nat.add_0_r. exact H1.
    + destruct (IH (S k) (control_round c) H3 j ltac:(lia)) as (c' & Hc' & Hm').
      exists c'. split.
      * cbn [control_rounds]. rewrite H2. exact Hc'.
      * rewrite Hm'. f_equal. lia.
Qed.

Lemma pass_timeline_computed :
  timeline_from 1863 0
    (mk_control ST_SET_START_WAIT ST_SET_START_WAIT 0 0) = true.
Proof. vm_compute. reflexivity. Qed.

(** X20. The timeline of a pass is the same for every driver and for all
    inputs. Counted from the round that starts in [ST_SET_START_WAIT] with
    the mode timer at zero, the state machine waits for 151 rounds, erases
    for 256 (one subsector a round), pauses for 300, programs for 128 (32
    pages a round), pauses for 300, reads and compares for 128, pauses
    for 300, shows the verdict for 300 and is back in
    [ST_WAIT_BUTTON_DEP] at round 1863: the mode at the start of round [n]
    is [phase_of_round n]. *)
Theorem pass_follows_the_timeline (inputs : list (Z * Z)) (w : world D) :
  reachable w ->
  control_of (experiData w)
  = mk_control ST_SET_START_WAIT ST_SET_START_WAIT 0 0 ->
  (length inputs <= 1863)%nat ->
  operatingMode (experiData (task_rounds inputs w))
  = phase_of_round (length inputs).
Proof.
  intros Hr Hc Hlen.
  destruct (timeline_from_rounds 1863 0 _ pass_timeline_computed
              (length inputs) Hlen) as (c' & Hc' & Hm').
  rewrite <- Hc in Hc'.
  destruct (task_rounds_control inputs w c' (reachable_Inv w Hr) Hc')
    as [Hcc _].
  apply (f_equal c_mode) in Hcc. cbn [Nat.add] in Hm'. rewrite <- Hm'.
  exact Hcc.
Qed.

End Schedule.

(** ** The calls that the driver receives *)

Section Recorder.

Context {hdr : PmodSF3_h}.
Context (status : list sf3_call -> Z) (data : list sf3_call -> list Z).

Local Abbreviation recorder := (recording_driver status data).

Lemma write_enabled_nil : write_enabled [].
Proof. intros i c H. rewrite lookup_nil in H. discriminate H. Qed.

Lemma write_enabled_snoc (d : list sf3_call) (c : sf3_call) :
  changes_flash c = false -> write_enabled d -> write_enabled (d ++ [c]).
Proof.
  intros Hc Hd i c' Hi Hch.
  destruct (decide (i < length d)%nat) as [Hlt|Hge].
  - rewrite lookup_app_l in Hi by exact Hlt.
    destruct (Hd i c' Hi Hch) as (j & -> & Hj). exists j. split; [reflexivity|].
    rewrite lookup_app_l by lia. exact Hj.
  - rewrite lookup_app_r in Hi by lia.
    destruct (i - length d)%nat as [|n]; cbn in Hi; [|discriminate Hi].
    injection Hi as <-. rewrite Hc in Hch. discriminate Hch.
Qed.

Lemma write_enabled_block (d : list sf3_call) (c : sf3_call) :
  write_enabled d -> write_enabled (d ++ [call_FlashWriteEnable; c]).
Proof.
  intros Hd.
  change [call_FlashWriteEnable; c] with ([call_FlashWriteEnable] ++ [c])%list.
  rewrite app_assoc.
  pose proof (write_enabled_snoc d call_FlashWriteEnable eq_refl Hd) as Hd'.
  intros i c' Hi Hch.
  destruct (decide (i < length (d ++ [call_FlashWriteEnable]))%nat) as [Hlt|Hge].
  - rewrite lookup_app_l in Hi by exact Hlt.
    destruct (Hd' i c' Hi Hch) as (j & -> & Hj). exists j.
    split; [reflexivity|]. rewrite lookup_app_l by lia. exact Hj.
  - rewrite length_app in Hge. cbn [length] in Hge.
    exists (length d). split.
    + apply lookup_lt_Some in Hi. rewrite !length_app in Hi.
      cbn [length] in Hi. lia.
    + rewrite lookup_app_l by (rewrite length_app; cbn [length]; lia).
      rewrite lookup_app_r by lia. rewrite Nat.sub_diag. reflexivity.
Qed.

(** The address of sub-operation [i] of a region. *)
Lemma address_in_region (start i incr count : Z) :
  start mod per_iteration_byte_count = 0 ->
  0 <= start <= last_starting_byte_addr ->
  0 < incr -> incr * count = per_iteration_byte_count ->
  0 <= i < count ->
  let a := u32 (start + u32 (i * incr)) in
  a = start + i * incr
  /\ 0 <= a /\ a + incr <= max_possible_byte_count /\ a mod incr = 0.
Proof.
  intros Hmod [H0 Hl] Hincr Hcount Hi. cbv zeta.
  change last_starting_byte_addr with 32505856 in Hl.
  change max_possible_byte_count with 33554432.
  change per_iteration_byte_count with 1048576 in *.
  assert (0 <= i * incr /\ i * incr + incr <= 1048576) as [Hp1 Hp2] by nia.
  assert (u32 (start + u32 (i * incr)) = start + i * incr) as Ha.
  { rewrite (u32_small (i * incr)) by lia. apply u32_small. lia. }
  rewrite Ha. split; [reflexivity|]. split; [lia|]. split; [lia|].
  apply Z.mod_divide in Hmod; [|lia]. destruct Hmod as [q Hq].
  rewrite Hq, <- Hcount.
  replace (q * (incr * count) + i * incr) with ((q * count + i) * incr)
    by ring.
  apply Z.mod_mul. lia.
Qed.

Lemma erase_calls_ok (w : world (list sf3_call)) :
  Inv (experiData w) ->
  operatingMode (experiData w) = ST_CMD_ERASE_START ->
  calls_ok (sf3Device w) ->
  calls_ok (sf3Device (fsm_CMD_ERASE_START (drv := recorder) w)).
Proof.
  intros HI Hm [Hf Hw].
  destruct (fsm_CMD_ERASE_START_round (drv := recorder) w)
    as [_ _ _ _ _ _ _ Hd].
  cbv zeta in Hd. destruct Hd as [Hd _]. rewrite Hd.
  cbn [SF3_FlashWriteEnable SF3_SectorErase recording_driver fst].
  rewrite <- app_assoc. cbn [app].
  assert (0 <= sf3_i_val (experiData w) < experi_subsector_cnt_per_iter)
    as Hi.
  { destruct HI as [_ _ _ _ _ Hso _ _ _ _]. unfold sub_operation_inv in Hso.
    rewrite Hm in Hso. exact Hso. }
  destruct HI as [[Hmod Hreg] _ _ _ _ _ _ _ _ _].
  destruct (address_in_region (sf3_addr_start_val (experiData w))
              (sf3_i_val (experiData w)) sf3_subsector_addr_incr
              experi_subsector_cnt_per_iter Hmod Hreg ltac:(reflexivity)
              ltac:(reflexivity) Hi) as (_ & H0 & Hle & Hmod').
  fold (address_of sf3_subsector_addr_incr (experiData w)) in H0, Hle, Hmod'.
  split.
  - apply Forall_app. split; [exact Hf|].
    repeat constructor; assumption.
  - apply write_enabled_block. exact Hw.
Qed.

Lemma program_calls_ok (k : nat) (w : world (list sf3_call)) :
  Inv (experiData w) ->
  operatingMode (experiData w) = ST_CMD_PAGE_START ->
  (k <= 32)%nat ->
  calls_ok (sf3Device w) ->
  calls_ok
    (sf3Device (for_loop 0 k (fun _ => page_program_iter (drv := recorder)) w)).
Proof.
  intros HI Hm Hk Hok. induction k as [|k IH].
  - rewrite for_loop_empty. exact Hok.
  - rewrite for_loop_step by lia. specialize (IH ltac:(lia)).
    destruct (page_program_rounds (drv := recorder) k w)
      as [Hf Hi _ _ Hb _ _].
    assert (0 <= sf3_i_val (experiData w) < experi_page_cnt_per_iter
            /\ sf3_i_val (experiData w) mod 32 = 0) as [Hi0 Hi32].
    { destruct HI as [_ _ _ _ _ Hso _ _ _ _]. unfold sub_operation_inv in Hso.
      rewrite Hm in Hso. exact Hso. }
    assert (sf3_i_val (experiData w) + 32 <= experi_page_cnt_per_iter) as Hi1.
    { change experi_page_cnt_per_iter with 4096 in *.
      pose proof (Z.div_mod (sf3_i_val (experiData w)) 32 ltac:(lia)). lia. }
    specialize (Hi ltac:(lia) ltac:(lia)).
    revert IH Hf Hi Hb.
    generalize (for_loop 0 k (fun _ => page_program_iter (drv := recorder)) w).
    intros s [Hfs Hws] Hf Hi Hb.
    destruct (page_program_iter_round (drv := recorder) s)
      as [_ _ _ _ _ _ _ (buf & Hd & Hlen & _)].
    rewrite Hd.
    cbn [SF3_FlashWriteEnable SF3_FlashWrite recording_driver fst].
    rewrite <- app_assoc. cbn [app].
    destruct HI as [[Hmod Hreg] _ _ _ Hbuf _ _ _ _ _].
    destruct (address_in_region (sf3_addr_start_val (experiData w))
                (sf3_i_val (experiData w) + Z.of_nat k) sf3_page_addr_incr
                experi_page_cnt_per_iter Hmod Hreg ltac:(reflexivity)
                ltac:(reflexivity) ltac:(lia)) as (_ & H0 & Hle & Hmod').
    rewrite <- Hi, <- (df_addr_start _ _ Hf) in H0, Hle, Hmod'.
    fold (address_of sf3_page_addr_incr (experiData s)) in H0, Hle, Hmod'.
    split.
    + apply Forall_app. split; [exact Hfs|].
      repeat constructor; try assumption.
      rewrite Hlen, Hb. exact Hbuf.
    + apply write_enabled_block. exact Hws.
Qed.

Lemma read_calls_ok (k : nat) (w : world (list sf3_call)) :
  Inv (experiData w) ->
  operatingMode (experiData w) = ST_CMD_READ_START ->
  (k <= 32)%nat ->
  calls_ok (sf3Device w) ->
  calls_ok
    (sf3Device (for_loop 0 k (fun _ => page_read_iter (drv := recorder)) w)).
Proof.
  intros HI Hm Hk Hok. induction k as [|k IH].
  - rewrite for_loop_empty. exact Hok.
  - rewrite for_loop_step by lia. specialize (IH ltac:(lia)).
    destruct (page_read_rounds (drv := recorder) k w) as [Hf Hi _ _ _ _ _].
    assert (0 <= sf3_i_val (experiData w) < experi_page_cnt_per_iter
            /\ sf3_i_val (experiData w) mod 32 = 0) as [Hi0 Hi32].
    { destruct HI as [_ _ _ _ _ Hso _ _ _ _]. unfold sub_operation_inv in Hso.
      rewrite Hm in Hso. exact Hso. }
    assert (sf3_i_val (experiData w) + 32 <= experi_page_cnt_per_iter) as Hi1.
    { change experi_page_cnt_per_iter with 4096 in *.
      pose proof (Z.div_mod (sf3_i_val (experiData w)) 32 ltac:(lia)). lia. }
    specialize (Hi ltac:(lia) ltac:(lia)).
    revert IH Hf Hi.
    generalize (for_loop 0 k (fun _ => page_read_iter (drv := recorder)) w).
    intros s [Hfs Hws] Hf Hi.
    destruct (page_read_iter_round (drv := recorder) s)
      as [_ _ _ _ _ _ (buf & Hd) _].
    cbv zeta in Hd. destruct Hd as [Hd _]. rewrite Hd.
    cbn [SF3_FlashRead recording_driver fst].
    destruct HI as [[Hmod Hreg] _ _ _ _ _ _ _ _ _].
    destruct (address_in_region (sf3_addr_start_val (experiData w))
                (sf3_i_val (experiData w) + Z.of_nat k) sf3_page_addr_incr
                experi_page_cnt_per_iter Hmod Hreg ltac:(reflexivity)
                ltac:(reflexivity) ltac:(lia)) as (_ & H0 & Hle & Hmod').
    rewrite <- Hi, <- (df_addr_start _ _ Hf) in H0, Hle, Hmod'.
    fold (address_of sf3_page_addr_incr (experiData s)) in H0, Hle, Hmod'.
    split.
    + apply Forall_app. split; [exact Hfs|].
      repeat constructor; assumption.
    + apply write_enabled_snoc; [reflexivity|exact Hws].
Qed.

Lemma operateFSM_calls_ok (w : world (list sf3_call)) :
  Inv (experiData w) ->
  calls_ok (sf3Device w) ->
  calls_ok (sf3Device (Experiment_operateFSM (drv := recorder) w)).
Proof.
  intros HI Hok.
  destruct (issuing_mode (operatingMode (experiData w))) eqn:Hiss.
  - unfold Experiment_operateFSM.
    destruct (operatingMode (experiData w)) eqn:Hm; try discriminate Hiss.
    + apply erase_calls_ok; assumption.
    + apply program_calls_ok; try assumption. lia.
    + apply read_calls_ok; try assumption. lia.
  - destruct (operateFSM_pure (drv := recorder) w Hiss) as (-> & _).
    exact Hok.
Qed.

Lemma task_rounds_calls_ok (inputs : list (Z * Z))
    (w : world (list sf3_call)) :
  Inv (experiData w) ->
  calls_ok (sf3Device w) ->
  calls_ok (sf3Device (task_rounds (drv := recorder) inputs w)).
Proof.
  revert w. induction inputs as [|i inputs IH]; intros w HI Hok.
  - exact Hok.
  - rewrite task_rounds_cons. apply IH.
    + apply Inv_task_round. exact HI.
    + rewrite task_round_eq, sf3Device_upd.
      pose proof (Inv_before_fsm (fst i) (snd i) w HI)
        as HI0.
      destruct (before_fsm_frame (fst i) (snd i) w)
        as (_ & Hd & _).
      rewrite <- Hd in Hok. revert HI0 Hok.
      generalize (before_fsm (fst i) (snd i) w).
      intros w0 HI0 Hok. apply operateFSM_calls_ok; assumption.
Qed.

(** X9. Whatever the driver answers, every address that the task hands to
    it lies in the device: a subsector erase is at a multiple of 4096 with
    the subsector below [max_possible_byte_count], a page program and a
    page read are at a multiple of 256 with the page below
    [max_possible_byte_count], for [SF3_PAGE_SIZE] bytes, with the command
    code of the operation and, for a program, a buffer of the length of
    [WriteBuffer]. *)
Theorem driver_calls_stay_in_device (inputs : list (Z * Z)) :
  Forall call_in_device
    (sf3Device (task_rounds (drv := recording_driver status data) inputs
                  (initial_world []))).
Proof.
  apply task_rounds_calls_ok.
  - apply Inv_InitData.
  - split; [constructor|apply write_enabled_nil].
Qed.

(** X10. Whatever the driver answers, the task never erases a subsector
    and never programs a page without a write enable right before it:
    every [SF3_SectorErase] and every [SF3_FlashWrite] among the calls
    that the driver has received comes directly after an
    [SF3_FlashWriteEnable]. *)
Theorem flash_changes_follow_write_enable (inputs : list (Z * Z)) :
  write_enabled
    (sf3Device (task_rounds (drv := recording_driver status data) inputs
                  (initial_world []))).
Proof.
  apply task_rounds_calls_ok.
  - apply Inv_InitData.
  - split; [constructor|apply write_enabled_nil].
Qed.

End Recorder.

(** ** The bytes of a pattern page *)

Section PatternBytes.

Context {hdr : PmodSF3_h}.

Lemma odd_cancels_power_of_two (k : nat) (s d q : Z) :
  Z.odd s = true -> d * s = 2 ^ Z.of_nat k * q ->
  exists d' : Z, d = 2 ^ Z.of_nat k * d'.
Proof.
  intros Hs. revert d q. induction k as [|k IH]; intros d q H.
  - exists d. change (2 ^ Z.of_nat 0) with 1. lia.
  - rewrite Nat2Z.inj_succ, Z.pow_succ_r in * by lia.
    assert (Z.even d = true) as Hd.
    { assert (Z.even (d * s) = true) as He.
      { rewrite H, <- Z.mul_assoc, Z.even_mul. reflexivity. }
      assert (Z.even s = false) as Hes
          by (rewrite <- Z.negb_odd, Hs; reflexivity).
      rewrite Z.even_mul, Hes, orb_false_r in He. exact He. }
    apply Z.even_spec in Hd. destruct Hd as [d1 ->].
    destruct (IH d1 q ltac:(lia)) as [d' ->].
    exists d'. ring.
Qed.

Lemma pattern_byte_injective (start stride : Z) (i j : nat) :
  Z.odd stride = true -> (i < 256)%nat -> (j < 256)%nat ->
  pattern_byte start stride i = pattern_byte start stride j -> i = j.
Proof.
  intros Hs Hi Hj H. unfold pattern_byte in H.
  pose proof (Z.div_mod (start + Z.of_nat i * stride) 256 ltac:(lia)) as H1.
  pose proof (Z.div_mod (start + Z.of_nat j * stride) 256 ltac:(lia)) as H2.
  assert ((Z.of_nat i - Z.of_nat j) * stride
          = 2 ^ Z.of_nat 8
            * ((start + Z.of_nat i * stride) / 256
               - (start + Z.of_nat j * stride) / 256)) as Hd.
  { change (2 ^ Z.of_nat 8) with 256. lia. }
  destruct (odd_cancels_power_of_two 8 stride _ _ Hs Hd) as [d' Hd'].
  change (2 ^ Z.of_nat 8) with 256 in Hd'. lia.
Qed.

Lemma pattern_page_NoDup (start stride : Z) :
  Z.odd stride = true -> (SF3_PAGE_SIZE <= 256)%nat ->
  NoDup (pattern_page start stride).
Proof.
  intros Hs Hsz. unfold pattern_page.
  apply (NoDup_fmap_2_strong (pattern_byte start stride)).
  - intros i j Hi Hj. apply elem_of_seq in Hi, Hj.
    apply pattern_byte_injective; [exact Hs|lia|lia].
  - apply NoDup_seq.
Qed.

(** X11. For each of the four patterns, the page that the state machine
    builds holds no byte value twice, as every stride is odd: after
    [ST_SET_PATTERN] has latched the seed of the selected pattern and the
    cursor is at the start value, the payload that the fill loop of
    [ST_CMD_PAGE_START] leaves in [WriteBuffer] consists of pairwise
    distinct bytes (for pages of at most 256 bytes; with 256 bytes every
    page holds each byte value exactly once). *)
Theorem pattern_fill_repeats_no_byte (e : t_experiment_data) :
  (SF3_PAGE_SIZE <= 256)%nat ->
  length (WriteBuffer e) = (SF3_PAGE_SIZE + SF3_WRITE_EXTRA_BYTES)%nat ->
  sf3_test_pattern_selected e <> TEST_PATTERN_NONE ->
  NoDup
    (take SF3_PAGE_SIZE
       (drop SF3_WRITE_EXTRA_BYTES
          (WriteBuffer
             (fill_WriteBuffer
                (set_sf3_pattern_track_val
                   (sf3_pattern_start_val (fsm_SET_PATTERN e))
                   (fsm_SET_PATTERN e)))))).
Proof.
  intros Hsz Hlen Hsel.
  assert (exists start stride : Z,
            is_byte start /\ Z.odd stride = true
            /\ sf3_pattern_start_val (fsm_SET_PATTERN e) = start
            /\ sf3_pattern_incr_val (fsm_SET_PATTERN e) = stride
            /\ WriteBuffer (fsm_SET_PATTERN e) = WriteBuffer e)
    as (start & stride & Hb & Hodd & Hst & Hin & Hbuf).
  { unfold fsm_SET_PATTERN, set_pattern_seed. cbv zeta.
    destruct (sf3_test_pattern_selected e); [| | | |contradiction];
      rsimpl; eexists _, _; (split; [|split; [|repeat split]]);
      try reflexivity; unfold is_byte; cbv; split; congruence. }
  rewrite Hst. revert Hin Hbuf. generalize (fsm_SET_PATTERN e).
  intros e1 Hin Hbuf.
  rewrite (payload_is_pattern_page _ start stride).
  - apply pattern_page_NoDup; assumption.
  - rewrite fill_WriteBuffer_length. rsimpl. rewrite Hbuf. exact Hlen.
  - intros i Hi. rewrite fill_WriteBuffer_lookup.
    + rsimpl. rewrite Hin. reflexivity.
    + rsimpl. exact Hb.
    + exact Hi.
    + rsimpl. rewrite Hbuf, Hlen. lia.
Qed.

End PatternBytes.

(** ** The LED driver layer *)

Section LedPwmS7.

Context {xpar : xparameters_h}.

#[local] Existing Instance S7_tables.

Lemma SetColorLedPercent_S7 (ledSilk : Z) (color : ascii) (percentFixPt : Z)
    (pwm : list pwm_call) :
  SetColorLedPercent ledSilk color percentFixPt pwm
  = if ((ledSilk =? 0) || (ledSilk =? 1)) && is_filament color then
      ((pwm ++ [PWM_Set_Duty XPAR_PWM_0_PWM_AXI_BASEADDR
                  (u32 (percentFixPt * PWM_DUTY_CYCLE_SEVEN_MILLISECOND)
                   / 1000)
                  (3 * ledSilk + filament_offset color)])%list, 0)
    else (pwm, 1).
Proof.
  unfold SetColorLedPercent, for_loop, is_filament, filament_offset.
  cbn [N_COLOR_LEDS Nat.sub seq fold_left c_color_leds S7_tables
       lookup_total list_lookup_total color_silkLedIndex filamentColor
       color_baseAddr color_pwmIndex color_maxDutyCycle fst snd].
  rewrite !(Z.eqb_sym _ ledSilk), !(Ascii.eqb_sym _ color).
  destruct (Z.eqb_spec ledSilk 0) as [->|H0];
    [|destruct (Z.eqb_spec ledSilk 1) as [->|H1]];
    destruct (Ascii.eqb_spec color "r") as [->|Hr];
    try (destruct (Ascii.eqb_spec color "g") as [->|Hg]);
    try (destruct (Ascii.eqb_spec color "b") as [->|Hb]);
    reflexivity.
Qed.

Lemma SetBasicLedPercent_S7 (ledSilk : Z) (percentFixPt : Z)
    (pwm : list pwm_call) :
  SetBasicLedPercent ledSilk percentFixPt pwm
  = if (ledSilk =? 2) || (ledSilk =? 3) || (ledSilk =? 4) || (ledSilk =? 5)
    then
      ((pwm ++ [PWM_Set_Duty XPAR_PWM_1_PWM_AXI_BASEADDR
                  (u32 (percentFixPt * PWM_DUTY_CYCLE_NINE_MILLISECOND)
                   / 1000)
                  (ledSilk - 2)])%list, 0)
    else (pwm, 1).
Proof.
  unfold SetBasicLedPercent, for_loop.
  cbn [N_BASIC_LEDS Nat.sub seq fold_left c_basic_leds S7_tables
       lookup_total list_lookup_total basic_silkLedIndex
       basic_baseAddr basic_pwmIndex basic_maxDutyCycle fst snd].
  rewrite !(Z.eqb_sym _ ledSilk).
  destruct (Z.eqb_spec ledSilk 2) as [->|H2];
    [|destruct (Z.eqb_spec ledSilk 3) as [->|H3];
      [|destruct (Z.eqb_spec ledSilk 4) as [->|H4];
        [|destruct (Z.eqb_spec ledSilk 5) as [->|H5]]]];
    reflexivity.
Qed.

Lemma duty_of_percent (percentFixPt maxDutyCycle : Z) :
  0 <= percentFixPt -> 0 <= maxDutyCycle ->
  percentFixPt * (maxDutyCycle * 1000) < 4294967296 ->
  u32 (percentFixPt * (maxDutyCycle * 1000)) / 1000
  = percentFixPt * maxDutyCycle.
Proof.
  intros Hp Hm Hlt. rewrite u32_small by nia.
  rewrite Z.mul_assoc. apply Z.div_mul. lia.
Qed.

Lemma palette_percent (c : Z) : is_byte c -> 0 <= c * 1000 / 255 <= 1000.
Proof.
  intros [H0 H1]. split; [apply Z.div_pos; lia|].
  apply Z.div_le_upper_bound; lia.
Qed.

(** X12. On the tables of the Arty S7 build, [SetColorLedPercent] finds a
    filament exactly for the LEDs 0 and 1 and the colours ['r'], ['g'] and
    ['b']: it then makes one call, [PWM_Set_Duty] on the colour PWM block
    at channel [3 * ledSilk] plus the place of the colour, and returns
    0; for every other LED or colour it returns 1 and calls nothing. *)
Theorem S7_colour_filament_lookup (ledSilk : Z) (color : ascii)
    (percentFixPt : Z) (pwm : list pwm_call) :
  SetColorLedPercent ledSilk color percentFixPt pwm
  = if ((ledSilk =? 0) || (ledSilk =? 1)) && is_filament color then
      ((pwm ++ [PWM_Set_Duty XPAR_PWM_0_PWM_AXI_BASEADDR
                  (u32 (percentFixPt * PWM_DUTY_CYCLE_SEVEN_MILLISECOND)
                   / 1000)
                  (3 * ledSilk + filament_offset color)])%list, 0)
    else (pwm, 1).
Proof. apply SetColorLedPercent_S7. Qed.

(** X13. On the Arty S7 build, [SetRgbPaletteLed] for LED 0 or 1 and a
    palette of bytes sets the three filaments of the LED, red, green and
    blue in this order, to [350 * (c * 1000 / 255)] clocks for the palette
    value [c], and returns 0; the duty is at most the 7 ms maximum, which
    is below the PWM period, and the product of the computation does not
    leave [u32]. For every other LED it returns 1 and calls nothing. *)
Theorem S7_palette_duty_within_period (ledSilk : Z)
    (palette : t_rgb_led_palette) (pwm : list pwm_call) :
  is_byte (paletteRed palette) -> is_byte (paletteGreen palette) ->
  is_byte (paletteBlue palette) ->
  let duty (c : Z) := 350 * (c * 1000 / 255) in
  SetRgbPaletteLed ledSilk palette pwm
  = (if (ledSilk =? 0) || (ledSilk =? 1) then
       ((pwm ++ [PWM_Set_Duty XPAR_PWM_0_PWM_AXI_BASEADDR
                   (duty (paletteRed palette)) (3 * ledSilk);
                 PWM_Set_Duty XPAR_PWM_0_PWM_AXI_BASEADDR
                   (duty (paletteGreen palette)) (3 * ledSilk + 1);
                 PWM_Set_Duty XPAR_PWM_0_PWM_AXI_BASEADDR
                   (duty (paletteBlue palette)) (3 * ledSilk + 2)])%list, 0)
     else (pwm, 1))
  /\ (forall c : Z,
        is_byte c ->
        0 <= duty c <= PWM_DUTY_CYCLE_SEVEN_MILLISECOND
        /\ (c = 255 -> duty c = PWM_DUTY_CYCLE_SEVEN_MILLISECOND))
  /\ PWM_DUTY_CYCLE_SEVEN_MILLISECOND < PWM_PERIOD_TEN_MILLISECOND.
Proof.
  intros Hr Hg Hb. cbv zeta. split; [|split; [|reflexivity]].
  - unfold SetRgbPaletteLed. cbv zeta. rewrite !SetColorLedPercent_S7.
    change (is_filament "r") with true. change (is_filament "g") with true.
    change (is_filament "b") with true. rewrite andb_true_r.
    change (filament_offset "r") with 0. change (filament_offset "g") with 1.
    change (filament_offset "b") with 2.
    change PWM_DUTY_CYCLE_SEVEN_MILLISECOND with (350 * 1000).
    pose proof (palette_percent _ Hr). pose proof (palette_percent _ Hg).
    pose proof (palette_percent _ Hb).
    rewrite !duty_of_percent by lia.
    destruct ((ledSilk =? 0) || (ledSilk =? 1)); cbn [fst snd].
    + rewrite <- !app_assoc. cbn [app Z.eqb negb orb].
      rewrite Z.add_0_r, !(Z.mul_comm _ 350). reflexivity.
    + reflexivity.
  - intros c Hc. pose proof (palette_percent c Hc).
    change PWM_DUTY_CYCLE_SEVEN_MILLISECOND with 350000.
    split; [lia|]. intros ->. reflexivity.
Qed.

(** X14. On the Arty S7 build, [SetBasicLedPercent] finds a filament
    exactly for the LEDs 2, 3, 4 and 5: it then makes one call,
    [PWM_Set_Duty] on the basic PWM block at channel [ledSilk - 2], and
    returns 0; for every other LED it returns 1 and calls nothing. For a
    value of at most 9544 tenths of a percent the product does not leave
    [u32] and the duty is [450 * percentFixPt] clocks, which is within the
    9 ms maximum when the value is at most 1000. *)
Theorem S7_basic_filament_lookup (ledSilk : Z) (percentFixPt : Z)
    (pwm : list pwm_call) :
  0 <= percentFixPt <= 9544 ->
  SetBasicLedPercent ledSilk percentFixPt pwm
  = (if (ledSilk =? 2) || (ledSilk =? 3) || (ledSilk =? 4) || (ledSilk =? 5)
     then
       ((pwm ++ [PWM_Set_Duty XPAR_PWM_1_PWM_AXI_BASEADDR
                   (450 * percentFixPt) (ledSilk - 2)])%list, 0)
     else (pwm, 1))
  /\ (percentFixPt <= 1000 ->
      450 * percentFixPt <= PWM_DUTY_CYCLE_NINE_MILLISECOND)
  /\ PWM_DUTY_CYCLE_NINE_MILLISECOND < PWM_PERIOD_TEN_MILLISECOND.
Proof.
  intros Hp. split; [|split; [|reflexivity]].
  - rewrite SetBasicLedPercent_S7.
    change PWM_DUTY_CYCLE_NINE_MILLISECOND with (450 * 1000).
    rewrite duty_of_percent by lia. rewrite (Z.mul_comm _ 450). reflexivity.
  - change PWM_DUTY_CYCLE_NINE_MILLISECOND with 450000. lia.
Qed.

End LedPwmS7.

(** ** The tasks behind the queues *)

Lemma duty_of_app (l1 l2 : list pwm_call) (baseAddr pwmIndex : Z) :
  duty_of (l1 ++ l2) baseAddr pwmIndex
  = match duty_of l2 baseAddr pwmIndex with
    | Some d => Some d
    | None => duty_of l1 baseAddr pwmIndex
    end.
Proof.
  induction l1 as [|c l1 IH].
  - cbn [app duty_of]. destruct (duty_of l2 baseAddr pwmIndex); reflexivity.
  - cbn [app duty_of]. rewrite IH.
    destruct (duty_of l2 baseAddr pwmIndex); reflexivity.
Qed.

Lemma duty_of_snoc_same (l : list pwm_call) (baseAddr clocks pwmIndex : Z) :
  duty_of (l ++ [PWM_Set_Duty baseAddr clocks pwmIndex]) baseAddr pwmIndex
  = Some clocks.
Proof.
  rewrite duty_of_app. cbn [duty_of]. rewrite !Z.eqb_refl. reflexivity.
Qed.

Lemma duty_of_snoc_other (l : list pwm_call) (baseAddr clocks i j : Z) :
  i <> j ->
  duty_of (l ++ [PWM_Set_Duty baseAddr clocks i]) baseAddr j
  = duty_of l baseAddr j.
Proof.
  intros Hne. rewrite duty_of_app. cbn [duty_of].
  apply Z.eqb_neq in Hne. rewrite Hne, andb_false_r. reflexivity.
Qed.

Section TasksS7.

Context {hdr : PmodSF3_h} {D : Type} {drv : PmodSF3_driver D}.
Context {xpar : xparameters_h}.

#[local] Existing Instance S7_tables.

Lemma prvLedTask_app (q1 q2 : list t_rgb_led_palette_silk)
    (pwm : list pwm_call) :
  prvLedTask (q1 ++ q2) pwm
  = fold_left (fun pwm item => prvLedTask_round item pwm) q2
      (prvLedTask q1 pwm).
Proof. unfold prvLedTask. apply fold_left_app. Qed.

Lemma prvLedTask_round_basic (silk green : Z) (pwm : list pwm_call) :
  silk = 2 \/ silk = 3 \/ silk = 4 \/ silk = 5 ->
  prvLedTask_round (led_item silk 0 green 0) pwm
  = (pwm ++ [PWM_Set_Duty XPAR_PWM_1_PWM_AXI_BASEADDR
               (u32 (green * PWM_DUTY_CYCLE_NINE_MILLISECOND) / 1000)
               (silk - 2)])%list.
Proof.
  intros Hs. unfold prvLedTask_round, led_item. cbn [ledSilk rgb paletteGreen].
  rewrite SetBasicLedPercent_S7.
  destruct Hs as [->|[->|[->| ->]]]; reflexivity.
Qed.

(** X15. The LED task is at the other end of the LED queue. When it has
    received the items of a round of the experiment task (none is lost as
    long as the queue has room for them), the duty cycles of the four
    basic LEDs are those of the status flags: channel 0 of the basic PWM
    block, LED 2, is at 45000 clocks, a tenth of the 9 ms maximum, when
    the last verdict was a pass and at 0 otherwise; channel 1, LED 3,
    likewise for [sf3_test_done]; the channels 2 and 3 are at 0. *)
Theorem status_leds_show_the_flags (switches buttons : Z) (w : world D)
    (pwm : list pwm_call) :
  reachable w ->
  let pwm' :=
    prvLedTask (xQueueLedConfig (task_round switches buttons w)) pwm in
  duty_of pwm' XPAR_PWM_1_PWM_AXI_BASEADDR 0
  = Some (if sf3_test_pass (experiData w) then 45000 else 0)
  /\ duty_of pwm' XPAR_PWM_1_PWM_AXI_BASEADDR 1
     = Some (if sf3_test_done (experiData w) then 45000 else 0)
  /\ duty_of pwm' XPAR_PWM_1_PWM_AXI_BASEADDR 2 = Some 0
  /\ duty_of pwm' XPAR_PWM_1_PWM_AXI_BASEADDR 3 = Some 0
  /\ 45000 * 10 = PWM_DUTY_CYCLE_NINE_MILLISECOND.
Proof.
  intros Hr. cbv zeta.
  destruct (task_round_led_items switches buttons w Hr)
    as (r0 & g0 & b0 & r1 & g1 & b1 & ->).
  rewrite prvLedTask_app.
  generalize (prvLedTask (xQueueLedConfig w) pwm). intros t.
  cbn [fold_left].
  generalize (prvLedTask_round (led_item 1 r1 g1 b1)
                (prvLedTask_round (led_item 0 r0 g0 b0) t)).
  intros t2.
  rewrite !prvLedTask_round_basic by tauto.
  change (2 - 2) with 0. change (3 - 2) with 1. change (4 - 2) with 2.
  change (5 - 2) with 3.
  repeat split.
  - rewrite !duty_of_snoc_other by lia. rewrite duty_of_snoc_same.
    destruct (sf3_test_pass (experiData w)); reflexivity.
  - rewrite !duty_of_snoc_other by lia. rewrite duty_of_snoc_same.
    destruct (sf3_test_done (experiData w)); reflexivity.
  - rewrite !duty_of_snoc_other by lia. rewrite duty_of_snoc_same.
    reflexivity.
  - rewrite duty_of_snoc_same. reflexivity.
Qed.

(** X16. The display task is at the other end of the display queue. For
    every update that the experiment task builds, it clears the display
    and writes both lines, at the start of row 0 and of row 1: the
    branch that only clears, for two empty lines, is never taken, as both
    lines have 16 characters. *)
Theorem display_task_writes_both_lines (e : t_experiment_data)
    (cls : list cls_call) :
  prvClsTask_round
    (mk_cls_lines (Experiment_generateTextLine1 e)
       (Experiment_generateTextLine2 e)) cls
  = (cls ++ [CLS_DisplayClear;
             CLS_WriteStringAtPos 0 0 (Experiment_generateTextLine1 e);
             CLS_WriteStringAtPos 1 0 (Experiment_generateTextLine2 e)])%list
  /\ strnlen (Experiment_generateTextLine1 e) 16 = 16%nat
  /\ strnlen (Experiment_generateTextLine2 e) 16 = 16%nat.
Proof.
  destruct (text_lines_length e) as [H1 H2].
  unfold prvClsTask_round, strnlen. cbn [line1 line2].
  rewrite H1, H2. repeat split.
Qed.

(** X17. Before the LED task has received an item, and whatever the state
    of the PWM blocks was, [InitAllLedsOff] has left the duty cycle of
    every channel of the tables at 0: the six channels of the colour PWM
    block and the four of the basic PWM block. *)
Theorem led_task_starts_with_all_leds_off (pwm : list pwm_call) (i : Z) :
  (0 <= i < 6 ->
   duty_of (prvLedTask [] pwm) XPAR_PWM_0_PWM_AXI_BASEADDR i = Some 0)
  /\ (0 <= i < 4 ->
      duty_of (prvLedTask [] pwm) XPAR_PWM_1_PWM_AXI_BASEADDR i = Some 0).
Proof.
  unfold prvLedTask, InitAllLedsOff, InitBasicLedsOff, InitColorLedsOff,
    for_loop.
  cbn [fold_left N_COLOR_PWMS N_COLOR_LEDS N_BASIC_PWMS N_BASIC_LEDS Nat.sub
       seq c_color_pwms c_color_leds c_basic_pwms c_basic_leds S7_tables
       lookup_total list_lookup_total pwm_baseAddr pwmPeriod color_baseAddr
       color_pwmIndex basic_baseAddr basic_pwmIndex].
  rewrite <- !app_assoc. cbn [app].
  split; intros Hi; rewrite duty_of_app.
  - assert (i = 0 \/ i = 1 \/ i = 2 \/ i = 3 \/ i = 4 \/ i = 5)
      as [->|[->|[->|[->|[->| ->]]]]] by lia;
      cbn [duty_of]; rewrite ?Z.eqb_refl; cbn [andb Z.eqb];
      destruct (_ =? _); reflexivity.
  - assert (i = 0 \/ i = 1 \/ i = 2 \/ i = 3) as [->|[->|[->| ->]]] by lia;
      cbn [duty_of]; rewrite ?Z.eqb_refl; cbn [andb Z.eqb];
      try destruct (_ =? _); reflexivity.
Qed.

End TasksS7.

(** ** The Zynq build of the LED driver layer *)

Section LedPwmZynq.

Context {xpar : xparameters_h}.

#[local] Existing Instance Zynq_tables.

(** X18. On the tables of the Zynq build, [SetColorLedPercent] finds a
    filament exactly for the LEDs 5 and 6 and the colours ['r'], ['g'] and
    ['b'], with the filaments of an LED on the PWM channels in the order
    blue, green, red: it then calls [PWM_Set_Duty] once, on channel
    [3 * (ledSilk - 5) + 2] less the place of the colour, and returns 0;
    for every other LED or colour it returns 1 and calls nothing.
    [SetBasicLedPercent] finds a filament exactly for the LEDs 0 to 3, on
    the channel of the same number. *)
Theorem Zynq_filament_lookup (ledSilk : Z) (color : ascii)
    (percentFixPt : Z) (pwm : list pwm_call) :
  SetColorLedPercent ledSilk color percentFixPt pwm
  = (if ((ledSilk =? 5) || (ledSilk =? 6)) && is_filament color then
       ((pwm ++ [PWM_Set_Duty XPAR_PWM_0_PWM_AXI_BASEADDR
                   (u32 (percentFixPt * PWM_DUTY_CYCLE_FIVE_MILLISECOND)
                    / 1000)
                   (3 * (ledSilk - 5) + 2 - filament_offset color)])%list, 0)
     else (pwm, 1))
  /\ SetBasicLedPercent ledSilk percentFixPt pwm
     = (if (ledSilk =? 0) || (ledSilk =? 1) || (ledSilk =? 2)
           || (ledSilk =? 3)
        then
          ((pwm ++ [PWM_Set_Duty XPAR_PWM_1_PWM_AXI_BASEADDR
                      (u32 (percentFixPt * PWM_DUTY_CYCLE_NINE_MILLISECOND)
                       / 1000)
                      ledSilk])%list, 0)
        else (pwm, 1)).
Proof.
  split.
  - unfold SetColorLedPercent, for_loop, is_filament, filament_offset.
    cbn [N_COLOR_LEDS Nat.sub seq fold_left c_color_leds Zynq_tables
         lookup_total list_lookup_total color_silkLedIndex filamentColor
         color_baseAddr color_pwmIndex color_maxDutyCycle fst snd].
    rewrite !(Z.eqb_sym _ ledSilk), !(Ascii.eqb_sym _ color).
    destruct (Z.eqb_spec ledSilk 5) as [->|H0];
      [|destruct (Z.eqb_spec ledSilk 6) as [->|H1]];
      destruct (Ascii.eqb_spec color "r") as [->|Hr];
      try (destruct (Ascii.eqb_spec color "g") as [->|Hg]);
      try (destruct (Ascii.eqb_spec color "b") as [->|Hb]);
      reflexivity.
  - unfold SetBasicLedPercent, for_loop.
    cbn [N_BASIC_LEDS Nat.sub seq fold_left c_basic_leds Zynq_tables
         lookup_total list_lookup_total basic_silkLedIndex
         basic_baseAddr basic_pwmIndex basic_maxDutyCycle fst snd].
    rewrite !(Z.eqb_sym _ ledSilk).
    destruct (Z.eqb_spec ledSilk 0) as [->|H0];
      [|destruct (Z.eqb_spec ledSilk 1) as [->|H1];
        [|destruct (Z.eqb_spec ledSilk 2) as [->|H2];
          [|destruct (Z.eqb_spec ledSilk 3) as [->|H3]]]];
      reflexivity.
Qed.

End LedPwmZynq.

(** X19. [WaitLedPeriodTimerTick] keeps a timer that is loaded within
    [(0, waitLoad]] within that range, for every elapsed time of at most
    [waitLoad]: it returns 1 and counts the timer down when the timer has
    more than the elapsed time left, and otherwise returns 0 and reloads
    the timer with [waitLoad] less the overshoot, so that no time is lost
    between periods; no subtraction wraps. *)
Theorem WaitLedPeriodTimerTick_keeps_phase (elapsed waitLoad waitTimer : Z) :
  0 < waitTimer <= waitLoad -> waitLoad < 4294967296 ->
  0 <= elapsed <= waitLoad ->
  let r := WaitLedPeriodTimerTick elapsed waitLoad waitTimer in
  0 < fst r <= waitLoad
  /\ (elapsed < waitTimer -> r = (waitTimer - elapsed, 1))
  /\ (waitTimer <= elapsed -> r = (waitTimer + waitLoad - elapsed, 0)).
Proof.
  intros Ht Hl He. cbv zeta. unfold WaitLedPeriodTimerTick.
  destruct (elapsed <? waitTimer) eqn:Hlt.
  - apply Z.ltb_lt in Hlt. cbn [fst]. rewrite u32_small by lia.
    split; [lia|]. split; [reflexivity|lia].
  - apply Z.ltb_ge in Hlt. cbn [fst].
    rewrite (u32_small (elapsed - waitTimer)) by lia.
    rewrite u32_small by lia.
    split; [lia|]. split; [lia|]. intros _. f_equal. lia.
Qed.

(** * The further properties on concrete runs *)

Section MoreExamples.

#[local] Existing Instance example_header.
#[local] Existing Instance example_xparameters.

Lemma example_device_size :
  Z.of_nat SF3_PAGE_SIZE * (experi_page_cnt_per_iter * total_iteration_count)
  <= max_possible_byte_count.
Proof. vm_compute. discriminate. Qed.

Lemma all_regions_done_state :
  reachable all_regions_done
  /\ sf3_test_done (experiData all_regions_done) = true.
Proof.
  split; [apply reachable_task_rounds, reachable_init|].
  assert (pattern_of_switch SWTCH0_MASK <> TEST_PATTERN_NONE) as Hsw
      by discriminate.
  destruct (held_switch_run tt SWTCH0_MASK Hsw) as [_ H].
  cbv zeta in H. destruct H as (_ & _ & H). exact H.
Qed.

Lemma first_verdict_state :
  reachable first_verdict
  /\ sf3_test_pass (experiData first_verdict) = true
  /\ operatingMode (experiData first_verdict) = ST_DISPLAY_FINAL
  /\ cnt_t (experiData first_verdict) = 1.
Proof.
  destruct press_button_0_selects_A as (Hm & _ & Hz).
  assert (reachable first_pass_start) as Hw
      by (apply reachable_task_rounds, reachable_init).
  assert (reachable (task_rounds (repeat (0, 0) 1565) first_pass_start))
    as Hw1 by (apply reachable_task_rounds; exact Hw).
  pose proof (pass_point 1563 _ (repeat (0, 0) 1565) first_pass_start
                pass_schedule (reachable_Inv _ Hw) Hm (or_introl Hz)
                ltac:(apply repeat_length)) as Hc.
  destruct (reachable_flash_inv _ Hw1) as (HI & He & _).
  unfold first_verdict. revert Hw1 Hc HI He.
  generalize (task_rounds (repeat (0, 0) 1565) first_pass_start).
  intros w Hw1 Hc HI He.
  assert (operatingMode (experiData w) = ST_DISPLAY_FINAL) as Hmode
      by (apply (f_equal c_mode) in Hc; exact Hc).
  split; [apply reachable_round; exact Hw1|]. split.
  - rewrite (task_round_DISPLAY_FINAL 0 0 w Hmode), He. reflexivity.
  - destruct (task_round_control 0 0 w HI ltac:(rewrite Hmode; reflexivity))
      as [Hc' _].
    rewrite Hc in Hc'. revert Hc'.
    generalize (experiData (task_round 0 0 w)). intros e' Hc'.
    split.
    + apply (f_equal c_mode) in Hc'. exact Hc'.
    + apply (f_equal c_cnt_t) in Hc'. exact Hc'.
Qed.

(** Witness of X2. *)
Lemma error_count_is_bounded_by_device_size_witness :
  Z.of_nat SF3_PAGE_SIZE * (experi_page_cnt_per_iter * total_iteration_count)
  <= max_possible_byte_count
  /\ reachable erase_phase_start
  /\ 0 <= sf3_err_count_val (experiData erase_phase_start)
     <= max_possible_byte_count.
Proof.
  assert (reachable erase_phase_start) as Hw
      by (apply reachable_task_rounds, reachable_init).
  split; [exact example_device_size|]. split; [exact Hw|].
  pose proof (error_count_is_bounded_by_device_size erase_phase_start
                example_device_size Hw) as H.
  destruct H as [H _]. exact H.
Defined.

(** Witness of X3. *)
Lemma display_shows_offset_and_count_witness :
  Z.of_nat SF3_PAGE_SIZE * (experi_page_cnt_per_iter * total_iteration_count)
  <= max_possible_byte_count
  /\ reachable erase_phase_start
  /\ digits_value 16
       (substring 8 8
          (Experiment_generateTextLine1 (experiData erase_phase_start)))
     = sf3_addr_start_val (experiData erase_phase_start).
Proof.
  assert (reachable erase_phase_start) as Hw
      by (apply reachable_task_rounds, reachable_init).
  split; [exact example_device_size|]. split; [exact Hw|].
  pose proof (display_shows_offset_and_count erase_phase_start
                example_device_size Hw) as H.
  destruct H as [H _]. exact H.
Defined.

(** Witness of X4. *)
Lemma round_sends_six_led_items_witness :
  reachable erase_phase_start
  /\ exists red0 green0 blue0 red1 green1 blue1 : Z,
      xQueueLedConfig (task_round 0 0 erase_phase_start)
      = (xQueueLedConfig erase_phase_start
         ++ [led_item 0 red0 green0 blue0; led_item 1 red1 green1 blue1;
             led_item 2 0
               (if sf3_test_pass (experiData erase_phase_start)
                then 100 else 0) 0;
             led_item 3 0
               (if sf3_test_done (experiData erase_phase_start)
                then 100 else 0) 0;
             led_item 4 0 0 0; led_item 5 0 0 0])%list.
Proof.
  assert (reachable erase_phase_start) as Hw
      by (apply reachable_task_rounds, reachable_init).
  split; [exact Hw|].
  exact (round_sends_six_led_items 0 0 erase_phase_start Hw).
Defined.

(** Witness of X5: switch 0 left on until all regions are done. *)
Lemma done_flag_means_all_regions_tested_witness :
  reachable all_regions_done
  /\ sf3_test_done (experiData all_regions_done) = true
  /\ operatingMode (experiData all_regions_done) = ST_WAIT_BUTTON_DEP
  /\ sf3_addr_start_val (experiData all_regions_done)
     = last_starting_byte_addr.
Proof.
  destruct all_regions_done_state as [Hw Hd].
  split; [exact Hw|]. split; [exact Hd|].
  exact (done_flag_means_all_regions_tested all_regions_done Hw Hd).
Defined.

(** Witness of X6: the verdict of the first pass on the fault-free
    flash. *)
Lemma pass_flag_means_no_mismatch_witness :
  reachable first_verdict
  /\ sf3_test_pass (experiData first_verdict) = true
  /\ operatingMode (experiData first_verdict) <> ST_CMD_READ_START
  /\ operatingMode (experiData first_verdict) <> ST_CMD_READ_DONE
  /\ (operatingMode (experiData first_verdict) = ST_DISPLAY_FINAL ->
      cnt_t (experiData first_verdict) <> 0)
  /\ sf3_err_count_val (experiData first_verdict) = 0.
Proof.
  destruct first_verdict_state as (Hw & Hp & Hm & Hc).
  assert (operatingMode (experiData first_verdict) <> ST_CMD_READ_START)
    as H1 by (rewrite Hm; discriminate).
  assert (operatingMode (experiData first_verdict) <> ST_CMD_READ_DONE)
    as H2 by (rewrite Hm; discriminate).
  assert (operatingMode (experiData first_verdict) = ST_DISPLAY_FINAL ->
          cnt_t (experiData first_verdict) <> 0) as H3
      by (intros _; rewrite Hc; discriminate).
  split; [exact Hw|]. split; [exact Hp|]. split; [exact H1|].
  split; [exact H2|]. split; [exact H3|].
  exact (pass_flag_means_no_mismatch first_verdict Hw Hp H1 H2 H3).
Defined.

(** Witness of X7: the first pass on the flash that stays erased. *)
Lemma pass_takes_1865_rounds_witness :
  reachable first_pass_start_erased
  /\ operatingMode (experiData first_pass_start_erased) = ST_SET_PATTERN
  /\ (sf3_start_at_zero (experiData first_pass_start_erased) = true
      \/ sf3_addr_start_val (experiData first_pass_start_erased)
         < last_starting_byte_addr)
  /\ (length (repeat (0, 0) 1865) <= 1865)%nat
  /\ sf3_test_pattern_selected
       (experiData (task_rounds (repeat (0, 0) 1865) first_pass_start_erased))
     = sf3_test_pattern_selected (experiData first_pass_start_erased).
Proof.
  destruct first_pass_start_erased_state as (Hm & _ & Hz).
  assert (reachable first_pass_start_erased) as Hw
      by (apply reachable_task_rounds, reachable_init).
  assert (length (repeat (0, 0) 1865) <= 1865)%nat as Hl
      by (rewrite repeat_length; lia).
  split; [exact Hw|]. split; [exact Hm|]. split; [left; exact Hz|].
  split; [exact Hl|].
  pose proof (pass_takes_1865_rounds (repeat (0, 0) 1865)
                first_pass_start_erased Hw Hm (or_introl Hz) Hl) as H.
  destruct H as (_ & H & _). exact H.
Defined.

(** Witness of X8: switch 0. *)
Lemma held_switch_tests_every_region_witness :
  pattern_of_switch SWTCH0_MASK <> TEST_PATTERN_NONE
  /\ sf3_test_done (experiData all_regions_done) = true.
Proof.
  assert (pattern_of_switch SWTCH0_MASK <> TEST_PATTERN_NONE) as Hsw
      by discriminate.
  split; [exact Hsw|].
  pose proof (held_switch_tests_every_region tt SWTCH0_MASK Hsw) as H.
  destruct H as [_ H]. cbv zeta in H. destruct H as (_ & _ & H). exact H.
Defined.

(** Witness of X11: pattern A on the data object as it is at power-on. *)
Lemma pattern_fill_repeats_no_byte_witness :
  (SF3_PAGE_SIZE <= 256)%nat
  /\ length (WriteBuffer experiData_zero)
     = (SF3_PAGE_SIZE + SF3_WRITE_EXTRA_BYTES)%nat
  /\ sf3_test_pattern_selected experiData_zero <> TEST_PATTERN_NONE
  /\ NoDup
       (take SF3_PAGE_SIZE
          (drop SF3_WRITE_EXTRA_BYTES
             (WriteBuffer
                (fill_WriteBuffer
                   (set_sf3_pattern_track_val
                      (sf3_pattern_start_val (fsm_SET_PATTERN experiData_zero))
                      (fsm_SET_PATTERN experiData_zero)))))).
Proof.
  assert (SF3_PAGE_SIZE <= 256)%nat as H1 by (vm_compute; lia).
  assert (length (WriteBuffer experiData_zero)
          = (SF3_PAGE_SIZE + SF3_WRITE_EXTRA_BYTES)%nat) as H2
      by (vm_compute; reflexivity).
  assert (sf3_test_pattern_selected experiData_zero <> TEST_PATTERN_NONE)
    as H3 by discriminate.
  split; [exact H1|]. split; [exact H2|]. split; [exact H3|].
  exact (pattern_fill_repeats_no_byte experiData_zero H1 H2 H3).
Defined.

(** Witness of X13: orange on LED 0. *)
Lemma S7_palette_duty_within_period_witness :
  is_byte (paletteRed example_palette)
  /\ is_byte (paletteGreen example_palette)
  /\ is_byte (paletteBlue example_palette)
  /\ SetRgbPaletteLed (tbl := S7_tables) 0 example_palette []
     = ([PWM_Set_Duty XPAR_PWM_0_PWM_AXI_BASEADDR 350000 0;
         PWM_Set_Duty XPAR_PWM_0_PWM_AXI_BASEADDR 175350 1;
         PWM_Set_Duty XPAR_PWM_0_PWM_AXI_BASEADDR 0 2], 0).
Proof.
  assert (is_byte (paletteRed example_palette)) as H1
      by (vm_compute; split; [discriminate|reflexivity]).
  assert (is_byte (paletteGreen example_palette)) as H2
      by (vm_compute; split; [discriminate|reflexivity]).
  assert (is_byte (paletteBlue example_palette)) as H3
      by (vm_compute; split; [discriminate|reflexivity]).
  split; [exact H1|]. split; [exact H2|]. split; [exact H3|].
  pose proof (S7_palette_duty_within_period 0 example_palette [] H1 H2 H3)
    as H.
  cbv zeta in H. destruct H as [H _]. exact H.
Defined.

(** Witness of X14: LED 2 at 10.0 percent. *)
Lemma S7_basic_filament_lookup_witness :
  0 <= 100 <= 9544
  /\ SetBasicLedPercent (tbl := S7_tables) 2 100 []
     = ([PWM_Set_Duty XPAR_PWM_1_PWM_AXI_BASEADDR 45000 0], 0).
Proof.
  assert (0 <= 100 <= 9544) as H1 by lia.
  split; [exact H1|].
  pose proof (S7_basic_filament_lookup 2 100 [] H1) as H.
  destruct H as [H _]. exact H.
Defined.

(** Witness of X15. *)
Lemma status_leds_show_the_flags_witness :
  reachable erase_phase_start
  /\ duty_of
       (prvLedTask (xQueueLedConfig (task_round 0 0 erase_phase_start)) [])
       XPAR_PWM_1_PWM_AXI_BASEADDR 3 = Some 0.
Proof.
  assert (reachable erase_phase_start) as Hw
      by (apply reachable_task_rounds, reachable_init).
  split; [exact Hw|].
  pose proof (status_leds_show_the_flags 0 0 erase_phase_start [] Hw) as H.
  cbv zeta in H. destruct H as (_ & _ & _ & H & _). exact H.
Defined.

(** Witness of X19: a period of 10 with 2 left, and 3 elapsed. *)
Lemma WaitLedPeriodTimerTick_keeps_phase_witness :
  0 < 2 <= 10 /\ 10 < 4294967296 /\ 0 <= 3 <= 10
  /\ WaitLedPeriodTimerTick 3 10 2 = (9, 0).
Proof.
  assert (0 < 2 <= 10) as H1 by lia.
  assert (10 < 4294967296) as H2 by lia.
  assert (0 <= 3 <= 10) as H3 by lia.
  split; [exact H1|]. split; [exact H2|]. split; [exact H3|].
  pose proof (WaitLedPeriodTimerTick_keeps_phase 3 10 2 H1 H2 H3) as H.
  cbv zeta in H. destruct H as (_ & _ & H). apply H. lia.
Defined.

(** Witness of X20: the first pass on the flash that stays erased, one
    round into the erase phase. *)
Lemma pass_follows_the_timeline_witness :
  reachable (task_rounds (repeat (0, 0) 2) first_pass_start_erased)
  /\ control_of
       (experiData (task_rounds (repeat (0, 0) 2) first_pass_start_erased))
     = mk_control ST_SET_START_WAIT ST_SET_START_WAIT 0 0
  /\ (length (repeat (0, 0) 152) <= 1863)%nat
  /\ operatingMode
       (experiData
          (task_rounds (repeat (0, 0) 152)
             (task_rounds (repeat (0, 0) 2) first_pass_start_erased)))
     = ST_CMD_ERASE_START.
Proof.
  destruct first_pass_start_erased_state as (Hm & _ & Hz).
  assert (reachable first_pass_start_erased) as Hw0
      by (apply reachable_task_rounds, reachable_init).
  assert (reachable (task_rounds (repeat (0, 0) 2) first_pass_start_erased))
    as Hw by (apply reachable_task_rounds; exact Hw0).
  assert (control_of
            (experiData
               (task_rounds (repeat (0, 0) 2) first_pass_start_erased))
          = mk_control ST_SET_START_WAIT ST_SET_START_WAIT 0 0) as Hc
      by (apply (pass_point 0); [reflexivity|apply reachable_Inv; exact Hw0
                                |exact Hm|left; exact Hz|reflexivity]).
  assert (length (repeat (0, 0) 152) <= 1863)%nat as Hl
      by (rewrite repeat_length; lia).
  split; [exact Hw|]. split; [exact Hc|]. split; [exact Hl|].
  pose proof (pass_follows_the_timeline (repeat (0, 0) 152) _ Hw Hc Hl) as H.
  rewrite repeat_length in H. exact H.
Defined.

End MoreExamples.

(** ** The calls of a pass *)

Section PassCallsProofs.

Context {hdr : PmodSF3_h}.
Context (status : list sf3_call -> Z) (data : list sf3_call -> list Z).

Local Abbreviation recorder := (recording_driver status data).

Lemma erase_calls_S (start : Z) (n : nat) :
  erase_calls start 0 (S n)
  = (erase_calls start 0 n
     ++ [call_FlashWriteEnable;
         call_SectorErase (start + Z.of_nat n * sf3_subsector_addr_incr)])%list.
Proof.
  unfold erase_calls. rewrite seq_S, flat_map_app. cbn [flat_map Nat.add].
  rewrite app_nil_r. reflexivity.
Qed.

Lemma program_calls_app (start : Z) (n k : nat) :
  program_calls start 0 (n + k)
  = (program_calls start 0 n ++ program_calls start n k)%list.
Proof. unfold program_calls. rewrite seq_app, flat_map_app. reflexivity. Qed.

Lemma program_calls_S (start : Z) (from n : nat) :
  program_calls start from (S n)
  = (program_calls start from n
     ++ [call_FlashWriteEnable;
         call_FlashWrite
           (start + Z.of_nat (from + n) * sf3_page_addr_incr)
           SF3_PAGE_SIZE SF3_COMMAND_PAGE_PROGRAM []])%list.
Proof.
  unfold program_calls. rewrite seq_S, flat_map_app. cbn [flat_map].
  rewrite app_nil_r. reflexivity.
Qed.

Lemma read_calls_app (start : Z) (n k : nat) :
  read_calls start 0 (n + k)
  = (read_calls start 0 n ++ read_calls start n k)%list.
Proof. unfold read_calls. rewrite seq_app, map_app. reflexivity. Qed.

Lemma read_calls_S (start : Z) (from n : nat) :
  read_calls start from (S n)
  = (read_calls start from n
     ++ [call_FlashRead (start + Z.of_nat (from + n) * sf3_page_addr_incr)
           SF3_PAGE_SIZE SF3_COMMAND_RANDOM_READ])%list.
Proof. unfold read_calls. rewrite seq_S, map_app. reflexivity. Qed.

(** The calls of a batch of [k] pages. *)
Lemma program_batch_calls (k : nat) (w : world (list sf3_call)) :
  Inv (experiData w) ->
  0 <= sf3_i_val (experiData w) ->
  sf3_i_val (experiData w) + Z.of_nat k <= experi_page_cnt_per_iter ->
  exists calls : list sf3_call,
    sf3Device (for_loop 0 k (fun _ => page_program_iter (drv := recorder)) w)
    = (sf3Device w ++ calls)%list
    /\ map forget_buffer calls
       = program_calls (sf3_addr_start_val (experiData w))
           (Z.to_nat (sf3_i_val (experiData w))) k.
Proof.
  intros HI H0 Hk. induction k as [|k IH].
  - exists []. rewrite for_loop_empty, app_nil_r. split; reflexivity.
  - rewrite for_loop_step by lia.
    destruct (IH ltac:(lia)) as (calls & Hd & Hc).
    destruct (page_program_rounds (drv := recorder) k w)
      as [Hf Hi _ _ _ _ _].
    specialize (Hi H0 ltac:(lia)).
    revert Hd Hf Hi.
    generalize (for_loop 0 k (fun _ => page_program_iter (drv := recorder)) w).
    intros s Hd Hf Hi.
    destruct (page_program_iter_round (drv := recorder) s)
      as [_ _ _ _ _ _ _ (buf & Hd' & _)].
    rewrite Hd', Hd.
    cbn [SF3_FlashWriteEnable SF3_FlashWrite recording_driver fst].
    rewrite <- !app_assoc. cbn [app].
    eexists. split; [reflexivity|].
    rewrite map_app, Hc, program_calls_S. cbn [map forget_buffer].
    destruct HI as [[Hmod Hreg] _ _ _ _ _ _ _ _ _].
    destruct (address_in_region (sf3_addr_start_val (experiData w))
                (sf3_i_val (experiData w) + Z.of_nat k) sf3_page_addr_incr
                experi_page_cnt_per_iter Hmod Hreg ltac:(reflexivity)
                ltac:(reflexivity) ltac:(lia)) as (Ha & _).
    unfold address_of. rewrite (df_addr_start _ _ Hf), Hi, Ha.
    repeat f_equal. lia.
Qed.

Lemma read_batch_calls (k : nat) (w : world (list sf3_call)) :
  Inv (experiData w) ->
  0 <= sf3_i_val (experiData w) ->
  sf3_i_val (experiData w) + Z.of_nat k <= experi_page_cnt_per_iter ->
  sf3Device (for_loop 0 k (fun _ => page_read_iter (drv := recorder)) w)
  = (sf3Device w
     ++ read_calls (sf3_addr_start_val (experiData w))
          (Z.to_nat (sf3_i_val (experiData w))) k)%list.
Proof.
  intros HI H0 Hk. induction k as [|k IH].
  - rewrite for_loop_empty, app_nil_r. reflexivity.
  - rewrite for_loop_step by lia.
    pose proof (IH ltac:(lia)) as Hd.
    destruct (page_read_rounds (drv := recorder) k w) as [Hf Hi _ _ _ _ _].
    specialize (Hi H0 ltac:(lia)).
    revert Hd Hf Hi.
    generalize (for_loop 0 k (fun _ => page_read_iter (drv := recorder)) w).
    intros s Hd Hf Hi.
    destruct (page_read_iter_round (drv := recorder) s)
      as [_ _ _ _ _ _ (buf & Hd') _].
    cbv zeta in Hd'. destruct Hd' as [Hd' _]. rewrite Hd', Hd.
    cbn [SF3_FlashRead recording_driver fst].
    rewrite <- !app_assoc, read_calls_S.
    destruct HI as [[Hmod Hreg] _ _ _ _ _ _ _ _ _].
    destruct (address_in_region (sf3_addr_start_val (experiData w))
                (sf3_i_val (experiData w) + Z.of_nat k) sf3_page_addr_incr
                experi_page_cnt_per_iter Hmod Hreg ltac:(reflexivity)
                ltac:(reflexivity) ltac:(lia)) as (Ha & _).
    unfold address_of. rewrite (df_addr_start _ _ Hf), Hi, Ha.
    repeat f_equal. lia.
Qed.

Lemma c_mode_control_round (c : control) :
  c_mode (control_round c) = fst (control_fsm c).
Proof. unfold control_round. destruct (control_fsm c). reflexivity. Qed.

Lemma c_i_val_control_round (c : control) :
  c_i_val (control_round c) = snd (control_fsm c).
Proof. unfold control_round. destruct (control_fsm c). reflexivity. Qed.

(** The calls of one round, by the mode it starts in. *)
Lemma task_round_calls (switches buttons : Z) (w : world (list sf3_call)) :
  Inv (experiData w) ->
  exists calls : list sf3_call,
    sf3Device (task_round (drv := recorder) switches buttons w)
    = (sf3Device w ++ calls)%list
    /\ map forget_buffer calls
       = match operatingMode (experiData w) with
         | ST_CMD_ERASE_START =>
             erase_calls (sf3_addr_start_val (experiData w))
               (Z.to_nat (sf3_i_val (experiData w))) 1
         | ST_CMD_PAGE_START =>
             program_calls (sf3_addr_start_val (experiData w))
               (Z.to_nat (sf3_i_val (experiData w))) 32
         | ST_CMD_READ_START =>
             read_calls (sf3_addr_start_val (experiData w))
               (Z.to_nat (sf3_i_val (experiData w))) 32
         | _ => []
         end.
Proof.
  intros HI. rewrite task_round_eq, sf3Device_upd.
  pose proof (Inv_before_fsm switches buttons w HI) as HI0.
  destruct (before_fsm_frame switches buttons w) as (_ & Hd & _).
  destruct (before_fsm_control switches buttons w)
    as (Hm & _ & _ & Hi & Hpf & _).
  rewrite <- Hd, <- Hm, <- Hi, <- (pf_addr_start _ _ Hpf).
  revert HI0. clear. generalize (before_fsm switches buttons w).
  intros w0 HI.
  assert (issuing_mode (operatingMode (experiData w0)) = false ->
          exists calls : list sf3_call,
            sf3Device (Experiment_operateFSM (drv := recorder) w0)
            = (sf3Device w0 ++ calls)%list
            /\ map forget_buffer calls = []) as Hpure.
  { intros Hiss.
    destruct (operateFSM_pure (drv := recorder) w0 Hiss) as (-> & _).
    exists []. rewrite app_nil_r. split; reflexivity. }
  pose proof HI as [[Hmod Hreg] _ _ _ _ Hso _ _ _ _].
  unfold sub_operation_inv in Hso.
  destruct (operatingMode (experiData w0)) eqn:Hmode;
    try (apply Hpure; reflexivity); clear Hpure.
  - unfold Experiment_operateFSM. rewrite Hmode.
    destruct (fsm_CMD_ERASE_START_round (drv := recorder) w0)
      as [_ _ _ _ _ _ _ Hd].
    cbv zeta in Hd. destruct Hd as [Hd _]. rewrite Hd.
    cbn [SF3_FlashWriteEnable SF3_SectorErase recording_driver fst].
    rewrite <- app_assoc. cbn [app]. eexists. split; [reflexivity|].
    destruct (address_in_region (sf3_addr_start_val (experiData w0))
                (sf3_i_val (experiData w0)) sf3_subsector_addr_incr
                experi_subsector_cnt_per_iter Hmod Hreg ltac:(reflexivity)
                ltac:(reflexivity) Hso) as (Ha & _).
    unfold address_of. rewrite Ha. unfold erase_calls.
    cbn [seq flat_map map forget_buffer app]. rewrite Z2Nat.id by lia.
    reflexivity.
  - unfold Experiment_operateFSM. rewrite Hmode. unfold fsm_CMD_PAGE_START.
    destruct Hso as [Hi0 Hi32].
    apply program_batch_calls; [exact HI|lia|].
    change experi_page_cnt_per_iter with 4096 in *.
    pose proof (Z.div_mod (sf3_i_val (experiData w0)) 32 ltac:(lia)). lia.
  - unfold Experiment_operateFSM. rewrite Hmode. unfold fsm_CMD_READ_START.
    destruct Hso as [Hi0 Hi32]. eexists. split.
    + apply read_batch_calls; [exact HI|lia|].
      change experi_page_cnt_per_iter with 4096 in *.
      pose proof (Z.div_mod (sf3_i_val (experiData w0)) 32 ltac:(lia)). lia.
    + unfold read_calls. rewrite map_map. apply map_ext. reflexivity.
Qed.

Lemma pass_calls_round (switches buttons : Z) (before : list sf3_call)
    (w : world (list sf3_call)) :
  Inv (experiData w) ->
  pass_mode (operatingMode (experiData w)) = true ->
  pass_calls_inv before w ->
  pass_calls_inv before (task_round (drv := recorder) switches buttons w).
Proof.
  intros HI Hpm (calls & Hd & Hc).
  destruct (task_round_calls switches buttons w HI) as (calls1 & Hd1 & Hc1).
  destruct (task_round_control (drv := recorder) switches buttons w HI Hpm)
    as [Hc' Hpf].
  cbv zeta in Hc', Hpf.
  exists (calls ++ calls1)%list. split.
  { rewrite Hd1, Hd, app_assoc. reflexivity. }
  rewrite map_app, Hc, Hc1.
  pose proof (pf_addr_start _ _ Hpf) as Ha'.
  revert Hc' Ha'. clear Hd1 Hc1 Hpf Hd Hc.
  generalize (experiData (task_round (drv := recorder) switches buttons w)).
  intros e' Hc' Ha'.
  pose proof (f_equal c_mode Hc') as Hm'.
  pose proof (f_equal c_i_val Hc') as Hi'.
  rewrite c_mode_control_round in Hm'. rewrite c_i_val_control_round in Hi'.
  cbn [control_of c_mode c_i_val] in Hm', Hi'.
  destruct HI as [_ _ _ _ _ Hso _ _ _ _]. unfold sub_operation_inv in Hso.
  unfold pass_calls, erased_so_far, programmed_so_far, read_so_far.
  rewrite Hm', Hi', Ha'. unfold control_fsm, control_of.
  cbn [c_mode c_cnt_t c_i_val c_prev].
  change experi_subsector_cnt_per_iter with 256 in *.
  change experi_page_cnt_per_iter with 4096 in *.
  destruct (operatingMode (experiData w)) eqn:Hmode; try discriminate Hpm;
    cbn [fst snd].
  - (* ST_SET_START_WAIT *)
    rewrite Hso. destruct (_ =? _); cbn [fst snd]; rewrite app_nil_r;
      reflexivity.
  - (* ST_CMD_ERASE_START *)
    assert (erase_calls (sf3_addr_start_val (experiData w)) 0
              (S (Z.to_nat (sf3_i_val (experiData w))))
            = (erase_calls (sf3_addr_start_val (experiData w)) 0
                 (Z.to_nat (sf3_i_val (experiData w)))
               ++ erase_calls (sf3_addr_start_val (experiData w))
                    (Z.to_nat (sf3_i_val (experiData w))) 1)%list) as HS.
    { rewrite erase_calls_S. unfold erase_calls at 3.
      cbn [seq flat_map app]. reflexivity. }
    destruct (sf3_i_val (experiData w) + 1 <? 256) eqn:Hlt; cbn [fst snd].
    + replace (Z.to_nat (sf3_i_val (experiData w) + 1))
        with (S (Z.to_nat (sf3_i_val (experiData w)))) by lia.
      rewrite HS. cbn [program_calls read_calls seq flat_map map].
      rewrite !app_nil_r. reflexivity.
    + apply Z.ltb_ge in Hlt.
      replace (Z.to_nat 256) with (S (Z.to_nat (sf3_i_val (experiData w))))
        by lia.
      rewrite HS. cbn [program_calls read_calls seq flat_map map].
      rewrite !app_nil_r. reflexivity.
  - (* ST_CMD_ERASE_DONE *)
    destruct (_ <=? _); cbn [fst snd]; rewrite app_nil_r; reflexivity.
  - (* ST_CMD_PAGE_START *)
    destruct Hso as [Hi0 Hi32].
    pose proof (Z.div_mod (sf3_i_val (experiData w)) 32 ltac:(lia)) as Hdm.
    destruct (sf3_i_val (experiData w) + 32 <? 4096) eqn:Hlt; cbn [fst snd].
    + replace (Z.to_nat (sf3_i_val (experiData w) + 32))
        with (Z.to_nat (sf3_i_val (experiData w)) + 32)%nat by lia.
      rewrite program_calls_app. cbn [read_calls seq map].
      rewrite !app_nil_r, <- app_assoc. reflexivity.
    + apply Z.ltb_ge in Hlt.
      replace (Z.to_nat 4096)
        with (Z.to_nat (sf3_i_val (experiData w)) + 32)%nat at 1 by lia.
      rewrite program_calls_app. cbn [read_calls seq map].
      rewrite !app_nil_r, <- app_assoc. reflexivity.
  - (* ST_CMD_PAGE_DONE *)
    destruct (_ <=? _); cbn [fst snd]; rewrite app_nil_r; reflexivity.
  - (* ST_CMD_READ_START *)
    destruct Hso as [Hi0 Hi32].
    pose proof (Z.div_mod (sf3_i_val (experiData w)) 32 ltac:(lia)) as Hdm.
    destruct (sf3_i_val (experiData w) + 32 <? 4096) eqn:Hlt; cbn [fst snd].
    + replace (Z.to_nat (sf3_i_val (experiData w) + 32))
        with (Z.to_nat (sf3_i_val (experiData w)) + 32)%nat by lia.
      rewrite read_calls_app, <- !app_assoc. reflexivity.
    + apply Z.ltb_ge in Hlt.
      replace (Z.to_nat 4096)
        with (Z.to_nat (sf3_i_val (experiData w)) + 32)%nat at 3 by lia.
      rewrite read_calls_app, <- !app_assoc. reflexivity.
  - (* ST_CMD_READ_DONE *)
    destruct (_ <=? _); cbn [fst snd]; rewrite app_nil_r; reflexivity.
  - (* ST_DISPLAY_FINAL *)
    destruct (_ =? _); cbn [fst snd]; rewrite app_nil_r; reflexivity.
Qed.

Lemma pass_calls_rounds (inputs : list (Z * Z)) (before : list sf3_call)
    (w : world (list sf3_call)) (c : control) :
  Inv (experiData w) ->
  control_rounds (length inputs) (control_of (experiData w)) = Some c ->
  pass_calls_inv before w ->
  pass_calls_inv before (task_rounds (drv := recorder) inputs w).
Proof.
  revert w. induction inputs as [|i inputs IH]; intros w HI Hc Hq.
  - exact Hq.
  - rewrite task_rounds_cons. cbn [length control_rounds] in Hc.
    destruct (pass_mode (operatingMode (experiData w))) eqn:Hpm;
      [|cbn [control_of c_mode] in Hc; rewrite Hpm in Hc; discriminate Hc].
    cbn [control_of c_mode] in Hc. rewrite Hpm in Hc.
    destruct (task_round_control (drv := recorder) (fst i) (snd i) w HI Hpm)
      as [Hc' _].
    cbv zeta in Hc'. apply IH.
    + apply Inv_task_round. exact HI.
    + rewrite Hc'. exact Hc.
    + apply pass_calls_round; assumption.
Qed.

(** X21. A pass erases, programs and reads exactly its region, once and in
    ascending order, whatever the driver answers. From the round that
    starts in [ST_SET_START_WAIT] with the mode timer at zero, the calls
    that the driver receives in the 1863 rounds of the pass are, the
    buffers aside: for each of the 256 subsectors of the region a write
    enable and the erase of the subsector; then for each of the 4096 pages
    a write enable and the program of the page, of [SF3_PAGE_SIZE] bytes;
    then the read of each of the 4096 pages; and no other call. *)
Theorem pass_covers_its_region (inputs : list (Z * Z))
    (w : world (list sf3_call)) :
  Inv (experiData w) ->
  control_of (experiData w)
  = mk_control ST_SET_START_WAIT ST_SET_START_WAIT 0 0 ->
  length inputs = 1863%nat ->
  exists calls : list sf3_call,
    sf3Device
      (task_rounds (drv := recording_driver status data) inputs w)
    = (sf3Device w ++ calls)%list
    /\ map forget_buffer calls
       = (erase_calls (sf3_addr_start_val (experiData w)) 0
            (Z.to_nat experi_subsector_cnt_per_iter)
          ++ program_calls (sf3_addr_start_val (experiData w)) 0
               (Z.to_nat experi_page_cnt_per_iter)
          ++ read_calls (sf3_addr_start_val (experiData w)) 0
               (Z.to_nat experi_page_cnt_per_iter))%list.
Proof.
  intros HI Hc Hlen.
  pose proof whole_pass_schedule as Hs. rewrite <- Hlen, <- Hc in Hs.
  assert (pass_calls_inv (sf3Device w) w) as Hq.
  { exists []. rewrite app_nil_r. split; [reflexivity|].
    unfold pass_calls, erased_so_far, programmed_so_far, read_so_far.
    apply (f_equal c_mode) in Hc. cbn [control_of c_mode] in Hc.
    rewrite Hc. reflexivity. }
  destruct (pass_calls_rounds inputs (sf3Device w) w _ HI Hs Hq)
    as (calls & Hd & Hcalls).
  destruct (task_rounds_control (drv := recorder) inputs w _ HI Hs)
    as [Hc' Hpf].
  exists calls. split; [exact Hd|]. rewrite Hcalls.
  pose proof (pf_addr_start _ _ Hpf) as Ha'. revert Hc' Ha'.
  generalize (experiData (task_rounds (drv := recorder) inputs w)).
  intros e' Hc' Ha'.
  unfold pass_calls, erased_so_far, programmed_so_far, read_so_far.
  apply (f_equal c_mode) in Hc'. cbn [control_of c_mode] in Hc'.
  rewrite Hc', Ha'. reflexivity.
Qed.

End PassCallsProofs.

Section PassCallsExample.

#[local] Existing Instance example_header.

Local Abbreviation failing := (recording_driver (fun _ => 1) (fun _ => [])).

Local Abbreviation w :=
  (task_rounds (drv := failing) (repeat (0, 0) 2) first_pass_start_recorded).

Lemma first_pass_start_recorded_state :
  sf3Device first_pass_start_recorded = []
  /\ operatingMode (experiData first_pass_start_recorded) = ST_SET_PATTERN
  /\ sf3_start_at_zero (experiData first_pass_start_recorded) = true.
Proof. vm_compute. repeat split. Qed.

(** Witness of X21: the first pass on a driver that fails every call. *)
Lemma pass_covers_its_region_witness :
  Inv (experiData w)
  /\ control_of (experiData w)
     = mk_control ST_SET_START_WAIT ST_SET_START_WAIT 0 0
  /\ length (repeat (0, 0) 1863) = 1863%nat
  /\ exists calls : list sf3_call,
       sf3Device (task_rounds (drv := failing) (repeat (0, 0) 1863) w)
       = (sf3Device w ++ calls)%list
       /\ map forget_buffer calls
          = (erase_calls (sf3_addr_start_val (experiData w)) 0
               (Z.to_nat experi_subsector_cnt_per_iter)
             ++ program_calls (sf3_addr_start_val (experiData w)) 0
                  (Z.to_nat experi_page_cnt_per_iter)
             ++ read_calls (sf3_addr_start_val (experiData w)) 0
                  (Z.to_nat experi_page_cnt_per_iter))%list.
Proof.
  destruct first_pass_start_recorded_state as (_ & Hm & Hz).
  assert (reachable (drv := failing) first_pass_start_recorded) as Hw0
      by (apply reachable_task_rounds, reachable_init).
  assert (Inv (experiData (task_rounds (drv := failing) (repeat (0, 0) 2)
                             first_pass_start_recorded))) as HI
      by (apply (reachable_Inv (drv := failing)), reachable_task_rounds;
          exact Hw0).
  assert (control_of
            (experiData (task_rounds (drv := failing) (repeat (0, 0) 2)
                           first_pass_start_recorded))
          = mk_control ST_SET_START_WAIT ST_SET_START_WAIT 0 0) as Hc
      by (apply (pass_point (drv := failing) 0);
          [reflexivity|apply (reachable_Inv (drv := failing)); exact Hw0
          |exact Hm|left; exact Hz|reflexivity]).
  assert (length (repeat (0, 0) 1863) = 1863%nat) as Hl
      by apply repeat_length.
  split; [exact HI|]. split; [exact Hc|]. split; [exact Hl|].
  exact (pass_covers_its_region (fun _ => 1) (fun _ => [])
           (repeat (0, 0) 1863) _ HI Hc Hl).
Defined.

End PassCallsExample.
